(** * terraform-provider-googlesiteverification: a shallow embedding

    The provider is glue between the Terraform plugin framework and two
    remote services (site verification and Cloud DNS).  The embedding keeps
    the shape of the Go code: Go strings are byte strings ([string]), a
    [types.String] is null, unknown or known, remote calls are recorded in a
    trace and answered by the service handles held in the clients record. *)

From Stdlib Require Import Bool Arith NArith ZArith List String Ascii DecimalString Lia.
Import ListNotations.
Local Open Scope string_scope.

(** ** Package [strings] of the Go standard library (the functions used) *)
Module strings.

(** [s[len(s)-len(suffix):] == suffix], guarded by the length test. *)
Definition HasSuffix (s suffix : string) : bool :=
  (length suffix <=? length s)%nat &&
  String.eqb (substring (length s - length suffix) (length suffix) s) suffix.

Definition HasPrefix (s pre : string) : bool :=
  (length pre <=? length s)%nat && String.eqb (substring 0 (length pre) s) pre.

Definition TrimSuffix (s suffix : string) : string :=
  if HasSuffix s suffix then substring 0 (length s - length suffix) s else s.

(** [Index(s, substr) >= 0]: some position of [s] starts with [substr]. *)
Fixpoint Contains (s substr : string) : bool :=
  HasPrefix s substr ||
  match s with
  | EmptyString => false
  | String _ s' => Contains s' substr
  end.

Fixpoint inCutset (c : ascii) (cutset : string) : bool :=
  match cutset with
  | EmptyString => false
  | String d cutset' => Ascii.eqb c d || inCutset c cutset'
  end.

Fixpoint TrimLeft (s cutset : string) : string :=
  match s with
  | EmptyString => EmptyString
  | String c s' => if inCutset c cutset then TrimLeft s' cutset else s
  end.

Fixpoint TrimRight (s cutset : string) : string :=
  match s with
  | EmptyString => EmptyString
  | String c s' =>
      match TrimRight s' cutset with
      | EmptyString => if inCutset c cutset then EmptyString else String c EmptyString
      | t => String c t
      end
  end.

(** [Trim] for a cutset of ASCII bytes (the provider only trims the double
    quote): leading and trailing bytes of the cutset are removed. *)
Definition Trim (s cutset : string) : string :=
  TrimLeft (TrimRight s cutset) cutset.

End strings.

(** ** Go values shared by the packages below *)
Module go.

(** A Go [error] is nil or carries a message ([err.Error()]). *)
Definition error := option string.
Definition nil_error : error := None.

(** A call returning [(T, error)]. *)
Inductive result (A : Type) : Type :=
| Ok (a : A)
| Err (msg : string).
Arguments Ok {A} a.
Arguments Err {A} msg.

(** A slice is nil or holds elements; an empty non-nil slice is [Some []]. *)
Definition slice (A : Type) := option (list A).
Definition nil_slice {A : Type} : slice A := None.

Definition elems {A : Type} (s : slice A) : list A :=
  match s with
  | None => []
  | Some l => l
  end.

Definition len {A : Type} (s : slice A) : nat := List.length (elems s).

(** [append(s, x)] *)
Definition append1 {A : Type} (s : slice A) (x : A) : slice A :=
  Some (elems s ++ [x])%list.

(** [append(s, xs...)]: with nothing to add the slice comes back as it was,
    so a nil slice stays nil. *)
Definition append {A : Type} (s : slice A) (xs : slice A) : slice A :=
  match elems xs with
  | [] => s
  | l => Some (elems s ++ l)%list
  end.

Definition dquote : ascii := "034"%char.
Definition backslash : ascii := "092"%char.

(** [byte(x)]: the low eight bits. *)
Definition byte (n : N) : ascii := ascii_of_N (n mod 256).
Definition code (c : ascii) : N := N_of_ascii c.

(** [s[n:]] for [n <= len(s)]. *)
Fixpoint skip (n : nat) (s : string) : string :=
  match n, s with
  | O, _ => s
  | S n', String _ s' => skip n' s'
  | S _, EmptyString => EmptyString
  end.

End go.

(** ** Package [unicode/utf8]: decoding and encoding of one rune *)
Module utf8.
Import go.
Local Open Scope N_scope.

Definition rune := N.
Definition RuneError : rune := 0xFFFD.
Definition RuneSelf : N := 0x80.
Definition MaxRune : rune := 0x10FFFF.

(** The table [first] for a leading byte of [0x80] and above: [None] for an
    invalid leader, otherwise the sequence length and the range accepted
    for the second byte. *)
Definition first (s0 : N) : option (nat * N * N) :=
  if s0 <? 0xC2 then None
  else if s0 <=? 0xDF then Some (2%nat, 0x80, 0xBF)
  else if s0 =? 0xE0 then Some (3%nat, 0xA0, 0xBF)
  else if s0 <=? 0xEC then Some (3%nat, 0x80, 0xBF)
  else if s0 =? 0xED then Some (3%nat, 0x80, 0x9F)
  else if s0 <=? 0xEF then Some (3%nat, 0x80, 0xBF)
  else if s0 =? 0xF0 then Some (4%nat, 0x90, 0xBF)
  else if s0 <=? 0xF3 then Some (4%nat, 0x80, 0xBF)
  else if s0 =? 0xF4 then Some (4%nat, 0x80, 0x8F)
  else None.

Definition outside (lo hi b : N) : bool := (b <? lo) || (hi <? b).

(** [DecodeRuneInString]: the rune at the head of [s] and its width. *)
Definition DecodeRuneInString (s : string) : rune * nat :=
  match s with
  | EmptyString => (RuneError, 0%nat)
  | String c0 t =>
      let s0 := code c0 in
      if s0 <? RuneSelf then (s0, 1%nat) else
      match first s0 with
      | None => (RuneError, 1%nat)
      | Some (sz, lo, hi) =>
          if (length s <? sz)%nat then (RuneError, 1%nat) else
          match t with
          | EmptyString => (RuneError, 1%nat)
          | String c1 t1 =>
              let s1 := code c1 in
              if outside lo hi s1 then (RuneError, 1%nat) else
              if (sz <=? 2)%nat then
                (N.lor (N.shiftl (N.land s0 0x1F) 6) (N.land s1 0x3F), 2%nat)
              else
              match t1 with
              | EmptyString => (RuneError, 1%nat)
              | String c2 t2 =>
                  let s2 := code c2 in
                  if outside 0x80 0xBF s2 then (RuneError, 1%nat) else
                  if (sz <=? 3)%nat then
                    (N.lor (N.lor (N.shiftl (N.land s0 0x0F) 12)
                                  (N.shiftl (N.land s1 0x3F) 6))
                           (N.land s2 0x3F), 3%nat)
                  else
                  match t2 with
                  | EmptyString => (RuneError, 1%nat)
                  | String c3 _ =>
                      let s3 := code c3 in
                      if outside 0x80 0xBF s3 then (RuneError, 1%nat) else
                      (N.lor (N.lor (N.lor (N.shiftl (N.land s0 0x07) 18)
                                           (N.shiftl (N.land s1 0x3F) 12))
                                    (N.shiftl (N.land s2 0x3F) 6))
                             (N.land s3 0x3F), 4%nat)
                  end
              end
          end
      end
  end.

Definition ValidRune (r : rune) : bool :=
  (r <? 0xD800) || ((0xDFFF <? r) && (r <=? MaxRune)).

(** A continuation byte [tx | byte(x)&maskx]. *)
Definition contByte (x : N) : ascii := byte (N.lor 0x80 (N.land (x mod 256) 0x3F)).

Definition encode3 (r : rune) : string :=
  String (byte (N.lor 0xE0 (N.shiftr r 12 mod 256)))
    (String (contByte (N.shiftr r 6)) (String (contByte r) EmptyString)).

(** [AppendRune] onto an empty buffer: the UTF-8 encoding of [r]. *)
Definition AppendRune (r : rune) : string :=
  if r <=? 0x7F then String (byte r) EmptyString
  else if r <=? 0x7FF then
    String (byte (N.lor 0xC0 (N.shiftr r 6 mod 256)))
      (String (contByte r) EmptyString)
  else if (MaxRune <? r) || ((0xD800 <=? r) && (r <=? 0xDFFF)) then encode3 RuneError
  else if r <=? 0xFFFF then encode3 r
  else
    String (byte (N.lor 0xF0 (N.shiftr r 18 mod 256)))
      (String (contByte (N.shiftr r 12))
         (String (contByte (N.shiftr r 6)) (String (contByte r) EmptyString))).

End utf8.

(** ** Package [strconv]: [Itoa] and [Quote] *)
Module strconv.
Import go.

Definition Itoa (n : nat) : string := NilZero.string_of_uint (Nat.to_uint n).

Local Open Scope N_scope.

Definition lowerhex (n : N) : ascii :=
  match get (N.to_nat (n mod 16)) "0123456789abcdef" with
  | Some c => c
  | None => "0"%char
  end.

(** The hexadecimal digits of [r] for the shifts [4*(k-1)], ..., [4], [0]. *)
Fixpoint hexDigits (k : nat) (r : N) : string :=
  match k with
  | O => EmptyString
  | S k' => String (lowerhex (N.shiftr r (4 * N.of_nat k'))) (hexDigits k' r)
  end.

(** [IsPrint]: decided by ranges up to [0xFF]; above that Go consults its
    Unicode tables, here the argument [table]. *)
Definition IsPrint (table : utf8.rune -> bool) (r : utf8.rune) : bool :=
  if r <=? 0xFF then
    if (0x20 <=? r) && (r <=? 0x7E) then true
    else if (0xA1 <=? r) && (r <=? 0xFF) then negb (r =? 0xAD)
    else false
  else table r.

(** [appendEscapedRune] onto an empty buffer, for the double quote as the
    quote character and neither ASCII-only nor graphic-only. *)
Definition escapedRune (table : utf8.rune -> bool) (r : utf8.rune) : string :=
  if (r =? code dquote) || (r =? code backslash) then
    String backslash (String (byte r) EmptyString)
  else if IsPrint table r then utf8.AppendRune r
  else if r =? 7 then "\a"
  else if r =? 8 then "\b"
  else if r =? 12 then "\f"
  else if r =? 10 then "\n"
  else if r =? 13 then "\r"
  else if r =? 9 then "\t"
  else if r =? 11 then "\v"
  else if (r <? 0x20) || (r =? 0x7F) then ("\x" ++ hexDigits 2 (r mod 256))%string
  else if negb (utf8.ValidRune r) then ("\u" ++ hexDigits 4 utf8.RuneError)%string
  else if r <? 0x10000 then ("\u" ++ hexDigits 4 r)%string
  else ("\U" ++ hexDigits 8 r)%string.

(** The loop of [appendQuotedWith]; every round consumes at least one byte,
    so [length s] rounds are enough. *)
Fixpoint quoteLoop (table : utf8.rune -> bool) (fuel : nat) (s : string) : string :=
  match fuel, s with
  | S fuel', String c0 _ =>
      let '(r, width) :=
        if code c0 <? utf8.RuneSelf then (code c0, 1%nat)
        else utf8.DecodeRuneInString s in
      if (width =? 1)%nat && (r =? utf8.RuneError) then
        ("\x" ++ hexDigits 2 (code c0) ++ quoteLoop table fuel' (skip width s))%string
      else
        (escapedRune table r ++ quoteLoop table fuel' (skip width s))%string
  | _, _ => EmptyString
  end.

Definition Quote (table : utf8.rune -> bool) (s : string) : string :=
  String dquote (quoteLoop table (length s) s ++ String dquote EmptyString).

End strconv.

(** ** Package [net/url]: [PathUnescape] *)
Module url.
Import go.
Local Open Scope N_scope.

Definition inb (n : N) (l : list N) : bool := existsb (N.eqb n) l.

Definition ishex (c : ascii) : bool :=
  let n := code c in
  ((48 <=? n) && (n <=? 57)) || ((97 <=? n) && (n <=? 102)) || ((65 <=? n) && (n <=? 70)).

Definition unhex (c : ascii) : N :=
  let n := code c in
  if (48 <=? n) && (n <=? 57) then n - 48
  else if (97 <=? n) && (n <=? 102) then n - 97 + 10
  else if (65 <=? n) && (n <=? 70) then n - 65 + 10
  else 0.

(** [EscapeError(e).Error()] *)
Definition EscapeError (table : utf8.rune -> bool) (e : string) : string :=
  ("invalid URL escape " ++ strconv.Quote table e)%string.

(** [unescape(s, encodePathSegment)].  Go validates every percent sign from
    left to right before decoding; one pass that stops at the first
    malformed escape returns the same. *)
Fixpoint PathUnescape (table : utf8.rune -> bool) (s : string) : result string :=
  match s with
  | EmptyString => Ok EmptyString
  | String c t =>
      if Ascii.eqb c "%"%char then
        match t with
        | String h1 (String h2 t') =>
            if ishex h1 && ishex h2 then
              match PathUnescape table t' with
              | Ok u => Ok (String (byte (N.lor (N.shiftl (unhex h1) 4) (unhex h2))) u)
              | Err e => Err e
              end
            else Err (EscapeError table (substring 0 3 s))
        | _ => Err (EscapeError table (substring 0 3 s))
        end
      else
        match PathUnescape table t with
        | Ok u => Ok (String c u)
        | Err e => Err e
        end
  end.

(** [shouldEscape(c, encodePathSegment)]: letters, digits and [-_.~] pass;
    of the reserved bytes [$&+,/:;=?@] the path-segment mode escapes only
    [/ ; , ?]; every other byte is escaped. *)
Definition shouldEscape (c : ascii) : bool :=
  let n := code c in
  if ((97 <=? n) && (n <=? 122)) || ((65 <=? n) && (n <=? 90)) || ((48 <=? n) && (n <=? 57))
  then false
  else if inb n [45; 95; 46; 126] then false
  else if inb n [36; 38; 43; 44; 47; 58; 59; 61; 63; 64] then inb n [47; 59; 44; 63]
  else true.

Definition upperhex (n : N) : ascii :=
  match get (N.to_nat (n mod 16)) "0123456789ABCDEF" with
  | Some c => c
  | None => "0"%char
  end.

(** [escape(s, encodePathSegment)], byte by byte. *)
Fixpoint PathEscape (s : string) : string :=
  match s with
  | EmptyString => EmptyString
  | String c t =>
      if shouldEscape c then
        String "%"%char
          (String (upperhex (N.shiftr (code c) 4))
             (String (upperhex (N.land (code c) 15)) (PathEscape t)))
      else String c (PathEscape t)
  end.

End url.

(** ** terraform-plugin-framework: attribute values *)
Module basetypes.
Import go.

(** [types.String]: null, unknown or a known Go string. *)
Inductive StringValue : Type :=
| NewStringNull
| NewStringUnknown
| NewStringValue (value : string).

Definition StringValue_IsNull (s : StringValue) : bool :=
  match s with
  | NewStringNull => true
  | _ => false
  end.

(** [ValueString] is the empty string for null and unknown. *)
Definition StringValue_ValueString (s : StringValue) : string :=
  match s with
  | NewStringValue v => v
  | _ => EmptyString
  end.

(** [String()], the human-readable form: [fmt.Sprintf("%q", value)] for a
    known value. *)
Definition StringValue_String (table : utf8.rune -> bool) (s : StringValue) : string :=
  match s with
  | NewStringUnknown => "<unknown>"
  | NewStringNull => "<null>"
  | NewStringValue v => strconv.Quote table v
  end.

(** [types.Int64] *)
Inductive Int64Value : Type :=
| NewInt64Null
| NewInt64Unknown
| NewInt64Value (value : Z).

Definition Int64Value_IsNull (i : Int64Value) : bool :=
  match i with
  | NewInt64Null => true
  | _ => false
  end.

Definition Int64Value_ValueInt64 (i : Int64Value) : Z :=
  match i with
  | NewInt64Value v => v
  | _ => 0%Z
  end.

(** [types.List] with element type [types.StringType]. *)
Inductive ListValue : Type :=
| NewListNull
| NewListUnknown
| NewListValueMust (elements : list StringValue).

Definition ListValue_IsNull (l : ListValue) : bool :=
  match l with
  | NewListNull => true
  | _ => false
  end.

(** [Elements] of a null or unknown list is empty. *)
Definition ListValue_Elements (l : ListValue) : list StringValue :=
  match l with
  | NewListValueMust elements => elements
  | _ => []
  end.

(** [elem.ToTerraformValue(ctx)] followed by [val.As(&str)] for a string
    element: an unknown value cannot be unmarshalled, null gives [""]. *)
Definition As_string (elem : StringValue) : result string :=
  match elem with
  | NewStringUnknown => Err "unmarshaling unknown values is not supported"
  | NewStringNull => Ok EmptyString
  | NewStringValue v => Ok v
  end.

End basetypes.

(** ** terraform-plugin-framework: diagnostics *)
Module diag.

Inductive Severity : Type := SeverityError | SeverityWarning.

Record Diagnostic : Type := NewDiagnostic {
  Severity_ : Severity;
  Summary : string;
  Detail : string
}.

Definition Diagnostics := list Diagnostic.

Definition Severity_eqb (a b : Severity) : bool :=
  match a, b with
  | SeverityError, SeverityError => true
  | SeverityWarning, SeverityWarning => true
  | _, _ => false
  end.

Definition Equal (a b : Diagnostic) : bool :=
  Severity_eqb (Severity_ a) (Severity_ b) &&
  String.eqb (Summary a) (Summary b) && String.eqb (Detail a) (Detail b).

Definition Contains (diags : Diagnostics) (d : Diagnostic) : bool :=
  existsb (Equal d) diags.

(** [Append] skips a diagnostic that is already present. *)
Fixpoint Append (diags : Diagnostics) (new : list Diagnostic) : Diagnostics :=
  match new with
  | [] => diags
  | d :: rest => Append (if Contains diags d then diags else diags ++ [d])%list rest
  end.

Definition AddError (diags : Diagnostics) (summary detail : string) : Diagnostics :=
  Append diags [NewDiagnostic SeverityError summary detail].

Definition HasError (diags : Diagnostics) : bool :=
  existsb (fun d => Severity_eqb (Severity_ d) SeverityError) diags.

End diag.

Module types.

Definition StringValue (value : string) : basetypes.StringValue :=
  basetypes.NewStringValue value.

(** [types.ListValue(types.StringType, elements)]: always a known list; the
    diagnostics report elements of another type, which string values never
    are.  A nil and an empty [elements] give the same known empty list. *)
Definition ListValue (elements : list basetypes.StringValue)
  : basetypes.ListValue * diag.Diagnostics :=
  (basetypes.NewListValueMust elements, []).

End types.

(** ** The generated API clients: wire structs *)
Module dnsv2.

Definition NdevClouddnsReadwriteScope : string :=
  "https://www.googleapis.com/auth/ndev.clouddns.readwrite".

Record ResourceRecordSet : Type := {
  Name : string;
  Rrdatas : list string;
  Ttl : Z;
  Type_ : string
}.

End dnsv2.

Module sitev1.

Definition SiteverificationScope : string :=
  "https://www.googleapis.com/auth/siteverification".
Definition SiteverificationVerifyOnlyScope : string :=
  "https://www.googleapis.com/auth/siteverification.verify_only".

(** [SiteVerificationWebResourceGettokenRequestSite] and
    [SiteVerificationWebResourceResourceSite] have the same two fields. *)
Record Site : Type := {
  Identifier : string;
  Type_ : string
}.

Record SiteVerificationWebResourceGettokenRequest : Type := {
  GettokenSite : option Site;
  VerificationMethod : string
}.

Record SiteVerificationWebResourceGettokenResponse : Type := {
  Method : string;
  Token : string
}.

(** [Owners] is declared [json:"owners,omitempty"]. *)
Record SiteVerificationWebResourceResource : Type := {
  Id : string;
  Owners : go.slice string;
  ResourceSite : option Site
}.

(** What [encoding/json] does with [omitempty] on a slice: the field is
    written exactly when the slice has an element. *)
Definition owners_field_sent (r : SiteVerificationWebResourceResource) : bool :=
  negb (go.len (Owners r) =? 0)%nat.

End sitev1.

(** ** Remote calls: the trace, the service handles and the monad *)
Module remote.
Import go.

Inductive Call : Type :=
| ResourceRecordSets_Create (project location managedZone : string)
                            (record : dnsv2.ResourceRecordSet)
| ResourceRecordSets_Get (project location managedZone name type : string)
| ResourceRecordSets_Delete (project location managedZone name type : string)
| WebResource_GetToken (req : sitev1.SiteVerificationWebResourceGettokenRequest)
| WebResource_Insert (verificationMethod : string)
                     (res : sitev1.SiteVerificationWebResourceResource)
| WebResource_Get (id : string)
| WebResource_Patch (id : string) (res : sitev1.SiteVerificationWebResourceResource)
| WebResource_Delete (id : string).

(** A service handle answers a call; the answer may depend on every call
    made before it. *)
Record DNSService : Type := {
  Create : list Call -> string -> string -> string -> dnsv2.ResourceRecordSet ->
           result dnsv2.ResourceRecordSet;
  Get : list Call -> string -> string -> string -> string -> string ->
        result dnsv2.ResourceRecordSet;
  Delete : list Call -> string -> string -> string -> string -> string -> error
}.

Record SiteVerificationService : Type := {
  GetToken : list Call -> sitev1.SiteVerificationWebResourceGettokenRequest ->
             result sitev1.SiteVerificationWebResourceGettokenResponse;
  Insert : list Call -> string -> sitev1.SiteVerificationWebResourceResource ->
           result sitev1.SiteVerificationWebResourceResource;
  GetResource : list Call -> string -> result sitev1.SiteVerificationWebResourceResource;
  Patch : list Call -> string -> sitev1.SiteVerificationWebResourceResource ->
          result sitev1.SiteVerificationWebResourceResource;
  DeleteResource : list Call -> string -> error
}.

(** Computations that make remote calls: the trace of calls is threaded. *)
Definition IO (A : Type) : Type := list Call -> A * list Call.

Definition ret {A : Type} (a : A) : IO A := fun h => (a, h).

Definition bind {A B : Type} (m : IO A) (k : A -> IO B) : IO B :=
  fun h => let '(a, h') := m h in k a h'.

(** [....Context(ctx).Do()]: the call is recorded and the handle answers. *)
Definition Do {A : Type} (c : Call) (answer : list Call -> A) : IO A :=
  fun h => (answer h, h ++ [c])%list.

End remote.

Notation "x <- m ;; k" := (remote.bind m (fun x => k))
  (at level 61, m at next level, right associativity).
Notation "' pat <- m ;; k" := (remote.bind m (fun x => let 'pat := x in k))
  (at level 61, pat pattern, m at next level, right associativity).

(** ** terraform-plugin-framework: what a handler is given and gives back *)
Module tfsdk.

(** [req.Plan], [req.State] or [req.Config] as the handler uses it:
    [Get(ctx, &data)] fills the model and returns diagnostics. *)
Record Source (M : Type) : Type := {
  Get : M * diag.Diagnostics
}.
Arguments Get {M} _.

(** The response of a handler: its diagnostics and the state the framework
    will keep, [None] for no resource. *)
Record Response (M : Type) : Type := {
  State : option M;
  Diagnostics : diag.Diagnostics
}.
Arguments State {M} _.
Arguments Diagnostics {M} _.

(** [resp.Diagnostics.Append(diags...)] *)
Definition Append {M : Type} (resp : Response M) (diags : diag.Diagnostics) : Response M :=
  {| State := State resp; Diagnostics := diag.Append (Diagnostics resp) diags |}.

(** [resp.Diagnostics.AddError(summary, detail)] *)
Definition AddError {M : Type} (resp : Response M) (summary detail : string) : Response M :=
  {| State := State resp; Diagnostics := diag.AddError (Diagnostics resp) summary detail |}.

(** [resp.Diagnostics.Append(resp.State.Set(ctx, &data)...)]: a model of the
    schema's own types is stored without diagnostics. *)
Definition State_Set {M : Type} (resp : Response M) (data : M) : Response M :=
  {| State := Some data; Diagnostics := Diagnostics resp |}.

(** [resp.State.RemoveResource(ctx)] *)
Definition RemoveResource {M : Type} (resp : Response M) : Response M :=
  {| State := None; Diagnostics := Diagnostics resp |}.

End tfsdk.

(** ** provider.go: the clients handed to the data source and the resource *)
Record SiteVerificationClients : Type := {
  ProjectID : string;
  DefaultOwner : string;
  SiteVerification : remote.SiteVerificationService;
  DNS : remote.DNSService
}.

(** ** utils.go *)

Definition stringSliceToListValue (vals : go.slice string)
  : basetypes.ListValue * diag.Diagnostics :=
  types.ListValue (map types.StringValue (go.elems vals)).

Fixpoint listValueToStringSlice_loop (elements : list basetypes.StringValue)
  (vals : go.slice string) : go.result (go.slice string) :=
  match elements with
  | [] => go.Ok vals
  | elem :: rest =>
      match basetypes.As_string elem with
      | go.Err e => go.Err e
      | go.Ok str => listValueToStringSlice_loop rest (go.append1 vals str)
      end
  end.

(** [var vals []string], then one [append] per element. *)
Definition listValueToStringSlice (list : basetypes.ListValue)
  : go.result (go.slice string) :=
  listValueToStringSlice_loop (basetypes.ListValue_Elements list) go.nil_slice.

Definition parseOwnersFromResponse (resp : sitev1.SiteVerificationWebResourceResource)
  : basetypes.ListValue * diag.Diagnostics :=
  types.ListValue (map types.StringValue (go.elems (sitev1.Owners resp))).

Definition decodeID (table : utf8.rune -> bool) (id : string) : go.result string :=
  url.PathUnescape table id.

(** [func forceDot(str string) string] *)
Definition forceDot (str : string) : string :=
  if strings.HasSuffix str "." then str else str ++ ".".

(** ** site_verification_resource.go *)
Module site_verification_resource.
Import go basetypes remote.

Record SiteVerificationResourceModel : Type := {
  Project : StringValue;
  VerificationMethod : StringValue;
  SiteIdentifier : StringValue;
  SiteType : StringValue;
  Token : StringValue;
  ManagedZone : StringValue;
  Owners : ListValue;
  ID : StringValue
}.

(** Assignments to one field of the model. *)
Definition set_Project (d : SiteVerificationResourceModel) (v : StringValue) :=
  {| Project := v; VerificationMethod := VerificationMethod d;
     SiteIdentifier := SiteIdentifier d; SiteType := SiteType d; Token := Token d;
     ManagedZone := ManagedZone d; Owners := Owners d; ID := ID d |}.

Definition set_VerificationMethod (d : SiteVerificationResourceModel) (v : StringValue) :=
  {| Project := Project d; VerificationMethod := v;
     SiteIdentifier := SiteIdentifier d; SiteType := SiteType d; Token := Token d;
     ManagedZone := ManagedZone d; Owners := Owners d; ID := ID d |}.

Definition set_SiteType (d : SiteVerificationResourceModel) (v : StringValue) :=
  {| Project := Project d; VerificationMethod := VerificationMethod d;
     SiteIdentifier := SiteIdentifier d; SiteType := v; Token := Token d;
     ManagedZone := ManagedZone d; Owners := Owners d; ID := ID d |}.

Definition set_Token (d : SiteVerificationResourceModel) (v : StringValue) :=
  {| Project := Project d; VerificationMethod := VerificationMethod d;
     SiteIdentifier := SiteIdentifier d; SiteType := SiteType d; Token := v;
     ManagedZone := ManagedZone d; Owners := Owners d; ID := ID d |}.

Definition set_Owners (d : SiteVerificationResourceModel) (v : ListValue) :=
  {| Project := Project d; VerificationMethod := VerificationMethod d;
     SiteIdentifier := SiteIdentifier d; SiteType := SiteType d; Token := Token d;
     ManagedZone := ManagedZone d; Owners := v; ID := ID d |}.

Definition set_ID (d : SiteVerificationResourceModel) (v : StringValue) :=
  {| Project := Project d; VerificationMethod := VerificationMethod d;
     SiteIdentifier := SiteIdentifier d; SiteType := SiteType d; Token := Token d;
     ManagedZone := ManagedZone d; Owners := Owners d; ID := v |}.

Definition SiteID (s : SiteVerificationResourceModel) : string :=
  strings.TrimSuffix (StringValue_ValueString (SiteIdentifier s)) ".".

(** utils.go: [parseOwnersFromData] *)
Definition parseOwnersFromData (data : SiteVerificationResourceModel)
  : result (slice string) :=
  if ListValue_IsNull (Owners data) then Ok nil_slice
  else listValueToStringSlice (Owners data).

Record SiteVerificationResource : Type := {
  Clients : SiteVerificationClients
}.

Definition Request := tfsdk.Source SiteVerificationResourceModel.
Definition Response := tfsdk.Response SiteVerificationResourceModel.

Definition createDNSRecord (r : SiteVerificationResource)
  (data : SiteVerificationResourceModel) : IO error :=
  let record :=
    {| dnsv2.Name := forceDot (StringValue_ValueString (SiteIdentifier data));
       dnsv2.Rrdatas := [StringValue_ValueString (Token data)];
       dnsv2.Ttl := 60;
       dnsv2.Type_ := "TXT" |} in
  let project := StringValue_ValueString (Project data) in
  let zone := StringValue_ValueString (ManagedZone data) in
  res <- Do (ResourceRecordSets_Create project "global" zone record)
            (fun h => Create (DNS (Clients r)) h project "global" zone record) ;;
  match res with
  | Err e => ret (Some e)
  | Ok _ => ret nil_error
  end.

(** The model is behind a pointer: the function gives back the error and
    the model as it left it. *)
Definition readDNSRecord (r : SiteVerificationResource)
  (data : SiteVerificationResourceModel) : IO (error * SiteVerificationResourceModel) :=
  let project := StringValue_ValueString (Project data) in
  let zone := StringValue_ValueString (ManagedZone data) in
  let name := StringValue_ValueString (SiteIdentifier data) in
  res <- Do (ResourceRecordSets_Get project "global" zone name "TXT")
            (fun h => Get (DNS (Clients r)) h project "global" zone name "TXT") ;;
  match res with
  | Err e => ret (Some e, data)
  | Ok gresp =>
      match dnsv2.Rrdatas gresp with
      | [rrdata] =>
          ret (nil_error,
               set_Token data (types.StringValue (strings.Trim rrdata (String dquote EmptyString))))
      | rrdatas =>
          ret (Some ("Expected 1 TXT record, got " ++ strconv.Itoa (List.length rrdatas)), data)
      end
  end.

Definition deleteDNSRecord (r : SiteVerificationResource)
  (data : SiteVerificationResourceModel) : IO error :=
  let project := StringValue_ValueString (Project data) in
  let zone := StringValue_ValueString (ManagedZone data) in
  let name := StringValue_ValueString (SiteIdentifier data) in
  err <- Do (ResourceRecordSets_Delete project "global" zone name "TXT")
            (fun h => Delete (DNS (Clients r)) h project "global" zone name "TXT") ;;
  match err with
  | Some e => ret (Some e)
  | None => ret nil_error
  end.

Definition buildSiteVerification (data : SiteVerificationResourceModel)
  (includeSite : bool) : result sitev1.SiteVerificationWebResourceResource :=
  let greq :=
    {| sitev1.Id := EmptyString; sitev1.Owners := nil_slice; sitev1.ResourceSite := None |} in
  let greq :=
    if includeSite then
      {| sitev1.Id := sitev1.Id greq; sitev1.Owners := sitev1.Owners greq;
         sitev1.ResourceSite :=
           Some {| sitev1.Identifier := StringValue_ValueString (SiteIdentifier data);
                   sitev1.Type_ := StringValue_ValueString (SiteType data) |} |}
    else greq in
  if negb (ListValue_IsNull (Owners data)) then
    match parseOwnersFromData data with
    | Err e => Err e
    | Ok owners =>
        Ok {| sitev1.Id := sitev1.Id greq;
              sitev1.Owners := append (sitev1.Owners greq) owners;
              sitev1.ResourceSite := sitev1.ResourceSite greq |}
    end
  else Ok greq.

(** [diag] arrives by value, so what is appended to it here never reaches
    the caller's diagnostics. *)
Definition insertSiteVerification (table : utf8.rune -> bool)
  (r : SiteVerificationResource) (diag_ : diag.Diagnostics)
  (data : SiteVerificationResourceModel) : IO (error * SiteVerificationResourceModel) :=
  match buildSiteVerification data true with
  | Err e => ret (Some e, data)
  | Ok greq =>
      let method := StringValue_ValueString (VerificationMethod data) in
      res <- Do (WebResource_Insert method greq)
                (fun h => Insert (SiteVerification (Clients r)) h method greq) ;;
      match res with
      | Err e => ret (Some e, data)
      | Ok callResp =>
          let '(owners, diags) := parseOwnersFromResponse callResp in
          let _ := diag.Append diag_ diags in
          let data := set_Owners data owners in
          match decodeID table (sitev1.Id callResp) with
          | Err e => ret (Some e, data)
          | Ok id => ret (nil_error, set_ID data (types.StringValue id))
          end
      end
  end.

Definition readSiteVerification (r : SiteVerificationResource) (diag_ : diag.Diagnostics)
  (data : SiteVerificationResourceModel) : IO (error * SiteVerificationResourceModel) :=
  res <- Do (WebResource_Get (SiteID data))
            (fun h => GetResource (SiteVerification (Clients r)) h (SiteID data)) ;;
  match res with
  | Err e => ret (Some e, data)
  | Ok resp =>
      let '(owners, diags) := parseOwnersFromResponse resp in
      let _ := diag.Append diag_ diags in
      ret (nil_error, set_Owners data owners)
  end.

Definition patchSiteVerification (r : SiteVerificationResource) (diag_ : diag.Diagnostics)
  (data : SiteVerificationResourceModel) : IO (error * SiteVerificationResourceModel) :=
  match buildSiteVerification data false with
  | Err e => ret (Some e, data)
  | Ok greq =>
      res <- Do (WebResource_Patch (SiteID data) greq)
                (fun h => Patch (SiteVerification (Clients r)) h (SiteID data) greq) ;;
      match res with
      | Err e => ret (Some e, data)
      | Ok callResp =>
          let '(owns, diags) := stringSliceToListValue (sitev1.Owners greq) in
          let _ := diag.Append diag_ diags in
          ret (nil_error, set_Owners data owns)
      end
  end.

Definition deleteSiteVerification (r : SiteVerificationResource)
  (data : SiteVerificationResourceModel) : IO error :=
  Do (WebResource_Delete (SiteID data))
     (fun h => DeleteResource (SiteVerification (Clients r)) h (SiteID data)).

(** [data.SiteType.ValueString() == "INET_DOMAIN"] with
    [data.VerificationMethod.ValueString() == "DNS_TXT"] nested in it. *)
Definition isDomain (data : SiteVerificationResourceModel) : bool :=
  String.eqb (StringValue_ValueString (SiteType data)) "INET_DOMAIN".

Definition isDNSTXT (data : SiteVerificationResourceModel) : bool :=
  String.eqb (StringValue_ValueString (VerificationMethod data)) "DNS_TXT".

(** The two defaults at the head of [Create] and [Update]. *)
Definition defaultNulls (data : SiteVerificationResourceModel) : SiteVerificationResourceModel :=
  let data :=
    if StringValue_IsNull (SiteType data)
    then set_SiteType data (types.StringValue "INET_DOMAIN") else data in
  if StringValue_IsNull (VerificationMethod data)
  then set_VerificationMethod data (types.StringValue "DNS_TXT") else data.

Definition Create (table : utf8.rune -> bool) (r : SiteVerificationResource)
  (req : Request) (resp : Response) : IO Response :=
  let '(data, diags) := tfsdk.Get req in
  let resp := tfsdk.Append resp diags in
  if diag.HasError (tfsdk.Diagnostics resp) then ret resp else
  let data := defaultNulls data in
  let insert (data : SiteVerificationResourceModel) : IO Response :=
    '(err, data) <- insertSiteVerification table r (tfsdk.Diagnostics resp) data ;;
    match err with
    | Some e => ret (tfsdk.AddError resp "Error inserting site verification" e)
    | None => ret (tfsdk.State_Set resp data)
    end in
  if isDomain data then
    if isDNSTXT data then
      let data :=
        if StringValue_IsNull (Project data)
        then set_Project data (types.StringValue (ProjectID (Clients r))) else data in
      err <- createDNSRecord r data ;;
      match err with
      | Some e => ret (tfsdk.AddError resp "Error creating DNS record" e)
      | None => insert data
      end
    else insert data
  else insert data.

Definition Read (r : SiteVerificationResource) (req : Request) (resp : Response)
  : IO Response :=
  let '(data, diags) := tfsdk.Get req in
  let resp := tfsdk.Append resp diags in
  if diag.HasError (tfsdk.Diagnostics resp) then ret resp else
  let verification (data : SiteVerificationResourceModel) : IO Response :=
    '(err, data) <- readSiteVerification r (tfsdk.Diagnostics resp) data ;;
    match err with
    | Some e =>
        if strings.Contains e "404" then ret (tfsdk.RemoveResource resp)
        else ret (tfsdk.AddError resp "Error reading site verification" e)
    | None => ret (tfsdk.State_Set resp data)
    end in
  if isDomain data then
    if isDNSTXT data then
      '(err, data) <- readDNSRecord r data ;;
      match err with
      | Some e =>
          if strings.Contains e "404" then ret (tfsdk.RemoveResource resp)
          else ret (tfsdk.AddError resp "Error reading DNS record" e)
      | None => verification data
      end
    else verification data
  else verification data.

Definition Update (r : SiteVerificationResource) (req : Request) (resp : Response)
  : IO Response :=
  let '(data, diags) := tfsdk.Get req in
  let resp := tfsdk.Append resp diags in
  if diag.HasError (tfsdk.Diagnostics resp) then ret resp else
  let data := defaultNulls data in
  let patch (data : SiteVerificationResourceModel) : IO Response :=
    '(err, data) <- patchSiteVerification r (tfsdk.Diagnostics resp) data ;;
    let resp :=
      match err with
      | Some e => tfsdk.AddError resp "Error updating site verification" e
      | None => resp
      end in
    ret (tfsdk.State_Set resp data) in
  if isDomain data then
    if isDNSTXT data then
      err <- deleteDNSRecord r data ;;
      match err with
      | Some e => ret (tfsdk.AddError resp "Error deleting DNS record" e)
      | None =>
          err <- createDNSRecord r data ;;
          match err with
          | Some e => ret (tfsdk.AddError resp "Error updating DNS TXT record" e)
          | None => patch data
          end
      end
    else patch data
  else patch data.

Definition Delete (r : SiteVerificationResource) (req : Request) (resp : Response)
  : IO Response :=
  let '(data, diags) := tfsdk.Get req in
  let resp := tfsdk.Append resp diags in
  if diag.HasError (tfsdk.Diagnostics resp) then ret resp else
  let relinquish (data : SiteVerificationResourceModel) : IO Response :=
    err <- deleteSiteVerification r data ;;
    match err with
    | Some e => ret (tfsdk.AddError resp "Error relinquishing site verification" e)
    | None => ret resp
    end in
  if isDomain data then
    if isDNSTXT data then
      err <- deleteDNSRecord r data ;;
      match err with
      | Some e => ret (tfsdk.AddError resp "Error deleting DNS record" e)
      | None => relinquish data
      end
    else relinquish data
  else relinquish data.

(** [func (s *SiteVerificationResourceModel) EncodedID() string] *)
Definition EncodedID (s : SiteVerificationResourceModel) : string :=
  url.PathEscape (StringValue_ValueString (ID s)).

(** [resource.ImportStatePassthroughID(ctx, path.Root("id"), req, resp)]:
    the id of the import request is written to the attribute [id] of the
    response state; the framework starts an import from the empty state,
    where every other attribute is null. *)
Definition ImportState (id : string) (resp : Response) : Response :=
  tfsdk.State_Set resp
    match tfsdk.State resp with
    | Some d => set_ID d (types.StringValue id)
    | None =>
        {| Project := NewStringNull; VerificationMethod := NewStringNull;
           SiteIdentifier := NewStringNull; SiteType := NewStringNull;
           Token := NewStringNull; ManagedZone := NewStringNull;
           Owners := NewListNull; ID := types.StringValue id |}
    end.

End site_verification_resource.

(** ** domain_key_data_source.go *)
Module domain_key_data_source.
Import go basetypes remote.

Record DomainKeyDataSourceModel : Type := {
  VerificationMethod : StringValue;
  SiteIdentifier : StringValue;
  SiteType : StringValue;
  Token : StringValue
}.

Record DomainKeyDataSource : Type := {
  client : SiteVerificationService
}.

Definition Request := tfsdk.Source DomainKeyDataSourceModel.
Definition Response := tfsdk.Response DomainKeyDataSourceModel.

Definition Read (d : DomainKeyDataSource) (req : Request) (resp : Response) : IO Response :=
  let '(data, diags) := tfsdk.Get req in
  let resp := tfsdk.Append resp diags in
  if diag.HasError (tfsdk.Diagnostics resp) then ret resp else
  let data :=
    if StringValue_IsNull (SiteType data)
    then {| VerificationMethod := VerificationMethod data;
            SiteIdentifier := SiteIdentifier data;
            SiteType := types.StringValue "INET_DOMAIN";
            Token := Token data |}
    else data in
  let data :=
    if StringValue_IsNull (VerificationMethod data)
    then {| VerificationMethod := types.StringValue "DNS_TXT";
            SiteIdentifier := SiteIdentifier data;
            SiteType := SiteType data;
            Token := Token data |}
    else data in
  let greq :=
    {| sitev1.GettokenSite :=
         Some {| sitev1.Identifier := StringValue_ValueString (SiteIdentifier data);
                 sitev1.Type_ := StringValue_ValueString (SiteType data) |};
       sitev1.VerificationMethod := StringValue_ValueString (VerificationMethod data) |} in
  res <- Do (WebResource_GetToken greq) (fun h => GetToken (client d) h greq) ;;
  match res with
  | Err e => ret (tfsdk.AddError resp "Error retrieving verification token" e)
  | Ok callResp =>
      ret (tfsdk.State_Set resp
             {| VerificationMethod := VerificationMethod data;
                SiteIdentifier := SiteIdentifier data;
                SiteType := SiteType data;
                Token := types.StringValue (sitev1.Token callResp) |})
  end.

End domain_key_data_source.

(** ** provider.go *)
Module google.

Inductive TokenSource : Type :=
| DefaultTokenSource
| StaticTokenSource (AccessToken : string).

Record Credentials : Type := {
  ProjectID : string;
  TokenSource_ : TokenSource
}.

End google.

Module provider.
Import go basetypes.

Record GoogleSiteVerificationProviderModel : Type := {
  Project : StringValue;
  ImpersonateServiceAccount : StringValue;
  TokenDuration : Int64Value
}.

Record GenerateAccessTokenRequest : Type := {
  Name : string;
  Scope : list string;
  Lifetime : Z
}.

Record GenerateAccessTokenResponse : Type := {
  AccessToken : string
}.

Record IamCredentialsClient : Type := {
  GenerateAccessToken : GenerateAccessTokenRequest -> result GenerateAccessTokenResponse
}.

Record Tokeninfo : Type := {
  Email : string
}.

Record Oauth2Service : Type := {
  Tokeninfo_Do : result Tokeninfo
}.

(** What [Configure] reaches outside the provider: the ambient credentials
    and the constructors of the clients, each given the credentials (and
    the scopes) it is called with. *)
Record Env : Type := {
  FindDefaultCredentials : result google.Credentials;
  NewIamCredentialsClient : google.Credentials -> result IamCredentialsClient;
  oauthv2_NewService : google.Credentials -> result Oauth2Service;
  sitev1_NewService : google.Credentials -> list string ->
                      result remote.SiteVerificationService;
  dnsv2_NewService : google.Credentials -> list string -> result remote.DNSService
}.

Record ConfigureResponse : Type := {
  Diagnostics : diag.Diagnostics;
  DataSourceData : option SiteVerificationClients;
  ResourceData : option SiteVerificationClients
}.

Definition AddError (resp : ConfigureResponse) (summary detail : string) : ConfigureResponse :=
  {| Diagnostics := diag.AddError (Diagnostics resp) summary detail;
     DataSourceData := DataSourceData resp;
     ResourceData := ResourceData resp |}.

Definition impersonateServiceAccount (env : Env) (srcCreds : google.Credentials)
  (serviceAccount : string) (durationSeconds : Z) : result google.Credentials :=
  match NewIamCredentialsClient env srcCreds with
  | Err e => Err ("failed to create credentials client: " ++ e)
  | Ok c =>
      let req :=
        {| Name := "projects/-/serviceAccounts/" ++ serviceAccount;
           Scope := [sitev1.SiteverificationScope;
                     sitev1.SiteverificationVerifyOnlyScope;
                     dnsv2.NdevClouddnsReadwriteScope];
           Lifetime := durationSeconds |} in
      match GenerateAccessToken c req with
      | Err e => Err ("failed to generate access token for service account: " ++ e)
      | Ok tokenresp =>
          Ok {| google.ProjectID := EmptyString;
                google.TokenSource_ := google.StaticTokenSource (AccessToken tokenresp) |}
      end
  end.

(** [c.ProjectID = project] *)
Definition withProject (c : google.Credentials) (project : string) : google.Credentials :=
  {| google.ProjectID := project; google.TokenSource_ := google.TokenSource_ c |}.

(** [creds] starts as the pointer [defaultCreds]; impersonation replaces it
    by fresh credentials.  Both receive the same [ProjectID] in the same
    statement pair, so they are kept here as two values. *)
Definition Configure (table : utf8.rune -> bool) (env : Env)
  (req : tfsdk.Source GoogleSiteVerificationProviderModel) (resp : ConfigureResponse)
  : ConfigureResponse :=
  let '(data, diags) := tfsdk.Get req in
  let resp :=
    {| Diagnostics := diag.Append (Diagnostics resp) diags;
       DataSourceData := DataSourceData resp;
       ResourceData := ResourceData resp |} in
  if diag.HasError (Diagnostics resp) then resp else
  match FindDefaultCredentials env with
  | Err e => AddError resp "Failed to load default credentials" e
  | Ok defaultCreds =>
      let '(defaultOwner, built) :=
        if negb (StringValue_IsNull (ImpersonateServiceAccount data)) then
          let duration :=
            if negb (Int64Value_IsNull (TokenDuration data))
            then Int64Value_ValueInt64 (TokenDuration data) else 3600%Z in
          (StringValue_ValueString (ImpersonateServiceAccount data),
           impersonateServiceAccount env defaultCreds
             (StringValue_ValueString (ImpersonateServiceAccount data)) duration)
        else (EmptyString, Ok defaultCreds) in
      match built with
      | Err e => AddError resp "Failed to build credentials" e
      | Ok creds =>
          let '(defaultCreds, creds) :=
            if negb (StringValue_IsNull (Project data)) then
              (withProject defaultCreds (StringValue_String table (Project data)),
               withProject creds (StringValue_String table (Project data)))
            else (defaultCreds, creds) in
          let services (defaultOwner : string) : ConfigureResponse :=
            match sitev1_NewService env creds
                    [sitev1.SiteverificationScope; sitev1.SiteverificationVerifyOnlyScope] with
            | Err e => AddError resp "Failed to create siteverification client" e
            | Ok siteverificationService =>
                match dnsv2_NewService env defaultCreds [dnsv2.NdevClouddnsReadwriteScope] with
                | Err e => AddError resp "Failed to create dns client" e
                | Ok dnsservice =>
                    let clients :=
                      {| ProjectID := google.ProjectID creds;
                         DefaultOwner := defaultOwner;
                         SiteVerification := siteverificationService;
                         DNS := dnsservice |} in
                    {| Diagnostics := Diagnostics resp;
                       DataSourceData := Some clients;
                       ResourceData := Some clients |}
                end
            end in
          if String.eqb defaultOwner EmptyString then
            match oauthv2_NewService env creds with
            | Err e => AddError resp "Failed to create oauth2 client" e
            | Ok oauth2Service =>
                match Tokeninfo_Do oauth2Service with
                | Err e => AddError resp "Failed to get token info" e
                | Ok tokenInfo => services (Email tokenInfo)
                end
            end
          else services defaultOwner
      end
  end.

End provider.

(** ** Notions used to state the properties *)

(** The number of occurrences of the byte [b] in [s]. *)
Fixpoint countByte (b : ascii) (s : string) : nat :=
  match s with
  | EmptyString => 0
  | String c s' => (if Ascii.eqb c b then 1 else 0) + countByte b s'
  end.



(** The endpoint a call goes to. *)
Inductive Endpoint : Type :=
| DNSCreate | DNSGet | DNSDelete
| VerificationGetToken | VerificationInsert | VerificationGet
| VerificationPatch | VerificationDelete.

Definition endpoint (c : remote.Call) : Endpoint :=
  match c with
  | remote.ResourceRecordSets_Create _ _ _ _ => DNSCreate
  | remote.ResourceRecordSets_Get _ _ _ _ _ => DNSGet
  | remote.ResourceRecordSets_Delete _ _ _ _ _ => DNSDelete
  | remote.WebResource_GetToken _ => VerificationGetToken
  | remote.WebResource_Insert _ _ => VerificationInsert
  | remote.WebResource_Get _ => VerificationGet
  | remote.WebResource_Patch _ _ => VerificationPatch
  | remote.WebResource_Delete _ => VerificationDelete
  end.

Definition isDNSCall (c : remote.Call) : bool :=
  match endpoint c with
  | DNSCreate | DNSGet | DNSDelete => true
  | _ => false
  end.

(** No percent sign in [s]. *)
Definition percentFree (s : string) : bool := (countByte "%"%char s =? 0)%nat.

(** ** A concrete provider: scripted services and one resource *)
Module example.
Import go.

Definition notFound : string :=
  "googleapi: Error 404: The 'parameters.name' resource named 'example.com.' does not exist., notFound".
Definition forbidden : string := "googleapi: Error 403: Forbidden, forbidden".

Definition token : string := "google-site-verification=abc".

Definition txt : dnsv2.ResourceRecordSet :=
  {| dnsv2.Name := "example.com.";
     dnsv2.Rrdatas := [String dquote (token ++ String dquote "")];
     dnsv2.Ttl := 60;
     dnsv2.Type_ := "TXT" |}.

Definition registered : sitev1.SiteVerificationWebResourceResource :=
  {| sitev1.Id := "dns%3A%2F%2Fexample.com";
     sitev1.Owners := Some ["admin@example.com"];
     sitev1.ResourceSite :=
       Some {| sitev1.Identifier := "example.com"; sitev1.Type_ := "INET_DOMAIN" |} |}.

(** A DNS zone that accepts every write and holds the one TXT record. *)
Definition dns_ok : remote.DNSService :=
  {| remote.Create := fun _ _ _ _ record => Ok record;
     remote.Get := fun _ _ _ _ _ _ => Ok txt;
     remote.Delete := fun _ _ _ _ _ _ => nil_error |}.

(** A DNS zone from which the record is gone. *)
Definition dns_missing : remote.DNSService :=
  {| remote.Create := fun _ _ _ _ record => Ok record;
     remote.Get := fun _ _ _ _ _ _ => Err notFound;
     remote.Delete := fun _ _ _ _ _ _ => Some notFound |}.

(** A DNS zone that refuses writes. *)
Definition dns_forbidden : remote.DNSService :=
  {| remote.Create := fun _ _ _ _ _ => Err forbidden;
     remote.Get := fun _ _ _ _ _ _ => Err forbidden;
     remote.Delete := fun _ _ _ _ _ _ => Some forbidden |}.

Definition sv_ok : remote.SiteVerificationService :=
  {| remote.GetToken := fun _ _ => Ok {| sitev1.Method := "DNS_TXT"; sitev1.Token := token |};
     remote.Insert := fun _ _ _ => Ok registered;
     remote.GetResource := fun _ _ => Ok registered;
     remote.Patch := fun _ _ _ => Ok registered;
     remote.DeleteResource := fun _ _ => nil_error |}.

(** A verification service that no longer knows the site and refuses to
    relinquish it. *)
Definition sv_missing : remote.SiteVerificationService :=
  {| remote.GetToken := fun _ _ => Err forbidden;
     remote.Insert := fun _ _ _ => Err forbidden;
     remote.GetResource := fun _ _ => Err notFound;
     remote.Patch := fun _ _ _ => Err forbidden;
     remote.DeleteResource := fun _ _ => Some forbidden |}.

(** A verification service whose insert answers with an id that is not a
    well-formed escape. *)
Definition sv_bad_id : remote.SiteVerificationService :=
  {| remote.GetToken := fun _ _ => Ok {| sitev1.Method := "DNS_TXT"; sitev1.Token := token |};
     remote.Insert := fun _ _ _ =>
       Ok {| sitev1.Id := "50%"; sitev1.Owners := None; sitev1.ResourceSite := None |};
     remote.GetResource := fun _ _ => Ok registered;
     remote.Patch := fun _ _ _ => Ok registered;
     remote.DeleteResource := fun _ _ => nil_error |}.

Definition clients (sv : remote.SiteVerificationService) (dns : remote.DNSService)
  : SiteVerificationClients :=
  {| ProjectID := "provider-project"; DefaultOwner := "admin@example.com";
     SiteVerification := sv; DNS := dns |}.

Definition resource (sv : remote.SiteVerificationService) (dns : remote.DNSService)
  : site_verification_resource.SiteVerificationResource :=
  {| site_verification_resource.Clients := clients sv dns |}.

(** A plan that leaves project, type, method and owners to their defaults. *)
Definition plan : site_verification_resource.SiteVerificationResourceModel :=
  {| site_verification_resource.Project := basetypes.NewStringNull;
     site_verification_resource.VerificationMethod := basetypes.NewStringNull;
     site_verification_resource.SiteIdentifier := basetypes.NewStringValue "example.com";
     site_verification_resource.SiteType := basetypes.NewStringNull;
     site_verification_resource.Token := basetypes.NewStringValue token;
     site_verification_resource.ManagedZone := basetypes.NewStringValue "zone";
     site_verification_resource.Owners := basetypes.NewListNull;
     site_verification_resource.ID := basetypes.NewStringUnknown |}.

(** The state of the resource once created. *)
Definition state : site_verification_resource.SiteVerificationResourceModel :=
  {| site_verification_resource.Project := basetypes.NewStringValue "provider-project";
     site_verification_resource.VerificationMethod := basetypes.NewStringValue "DNS_TXT";
     site_verification_resource.SiteIdentifier := basetypes.NewStringValue "example.com";
     site_verification_resource.SiteType := basetypes.NewStringValue "INET_DOMAIN";
     site_verification_resource.Token := basetypes.NewStringValue token;
     site_verification_resource.ManagedZone := basetypes.NewStringValue "zone";
     site_verification_resource.Owners :=
       basetypes.NewListValueMust [basetypes.NewStringValue "admin@example.com"];
     site_verification_resource.ID := basetypes.NewStringValue "dns://example.com" |}.

Definition owned (d : site_verification_resource.SiteVerificationResourceModel)
  (owners : list string) : site_verification_resource.SiteVerificationResourceModel :=
  site_verification_resource.set_Owners d
    (basetypes.NewListValueMust (map basetypes.NewStringValue owners)).

Definition request (d : site_verification_resource.SiteVerificationResourceModel)
  : site_verification_resource.Request :=
  {| tfsdk.Get := (d, []) |}.

Definition fresh : site_verification_resource.Response :=
  {| tfsdk.State := None; tfsdk.Diagnostics := [] |}.

(** The data source asked for the token of example.com with defaults. *)
Definition lookup : domain_key_data_source.Request :=
  {| tfsdk.Get :=
       ({| domain_key_data_source.VerificationMethod := basetypes.NewStringNull;
           domain_key_data_source.SiteIdentifier := basetypes.NewStringValue "example.com";
           domain_key_data_source.SiteType := basetypes.NewStringNull;
           domain_key_data_source.Token := basetypes.NewStringNull |}, []) |}.

Definition lookup_fresh : domain_key_data_source.Response :=
  {| tfsdk.State := None; tfsdk.Diagnostics := [] |}.

(** No rune above [0xFF] counts as printable. *)
Definition table : utf8.rune -> bool := fun _ => false.

Definition env : provider.Env :=
  {| provider.FindDefaultCredentials :=
       Ok {| google.ProjectID := "ambient-project";
             google.TokenSource_ := google.DefaultTokenSource |};
     provider.NewIamCredentialsClient := fun _ =>
       Ok {| provider.GenerateAccessToken := fun _ =>
               Ok {| provider.AccessToken := "ya29.token" |} |};
     provider.oauthv2_NewService := fun _ =>
       Ok {| provider.Tokeninfo_Do := Ok {| provider.Email := "admin@example.com" |} |};
     provider.sitev1_NewService := fun _ _ => Ok sv_ok;
     provider.dnsv2_NewService := fun _ _ => Ok dns_ok |}.


(** A configuration that names a service account to impersonate and no
    project, and one that names neither. *)
Definition impersonating : tfsdk.Source provider.GoogleSiteVerificationProviderModel :=
  {| tfsdk.Get :=
       ({| provider.Project := basetypes.NewStringNull;
           provider.ImpersonateServiceAccount :=
             basetypes.NewStringValue "verifier@my-project.iam.gserviceaccount.com";
           provider.TokenDuration := basetypes.NewInt64Null |}, []) |}.

Definition bare : tfsdk.Source provider.GoogleSiteVerificationProviderModel :=
  {| tfsdk.Get :=
       ({| provider.Project := basetypes.NewStringNull;
           provider.ImpersonateServiceAccount := basetypes.NewStringNull;
           provider.TokenDuration := basetypes.NewInt64Null |}, []) |}.

Definition unconfigured : provider.ConfigureResponse :=
  {| provider.Diagnostics := []; provider.DataSourceData := None;
     provider.ResourceData := None |}.

End example.

(** * Theorems *)

Lemma length_append (s t : string) : length (s ++ t) = length s + length t.
Proof. induction s as [|c s IH]; simpl; [reflexivity | now rewrite IH]. Qed.

Lemma substring_append_tail (s t : string) :
  substring (length s) (length t) (s ++ t) = t.
Proof.
  induction s as [|c s IH]; simpl.
  - induction t as [|d t IHt]; simpl; [reflexivity | now rewrite IHt].
  - exact IH.
Qed.

Lemma HasSuffix_append (s t : string) : strings.HasSuffix (s ++ t) t = true.
Proof.
  unfold strings.HasSuffix. rewrite length_append.
  replace (length s + length t - length t) with (length s) by lia.
  rewrite substring_append_tail, String.eqb_refl, andb_true_r.
  apply Nat.leb_le. lia.
Qed.

Lemma substring_prefix_append (s : string) (n : nat) :
  n <= length s -> substring 0 n s ++ substring n (length s - n) s = s.
Proof.
  revert n. induction s as [|c s IH]; intros [|n] H; simpl in *; try lia; try reflexivity.
  - f_equal. clear. induction s as [|d s IHs]; simpl; [reflexivity | now rewrite IHs].
  - f_equal. apply IH. lia.
Qed.

Lemma HasSuffix_split (s t : string) :
  strings.HasSuffix s t = true -> exists u, s = u ++ t.
Proof.
  unfold strings.HasSuffix. intros H. apply andb_true_iff in H as [Hl He].
  apply Nat.leb_le in Hl. apply String.eqb_eq in He.
  exists (substring 0 (length s - length t) s).
  pose proof (substring_prefix_append s (length s - length t)) as P.
  replace (length s - (length s - length t)) with (length t) in P by lia.
  rewrite He in P. symmetry. apply P. lia.
Qed.

(** C10: [forceDot "example.com"] is ["example.com."], a string that ends
    in a dot is returned unchanged, a string that does not gets exactly one
    dot appended, and [forceDot] is idempotent. *)
Theorem forceDot_spec :
  forceDot "example.com" = "example.com." /\
  forceDot "example.com." = "example.com." /\
  forall s : string,
    (forall u, forceDot (u ++ ".") = u ++ ".") /\
    ((forall u, s <> u ++ ".") -> forceDot s = s ++ ".") /\
    (forceDot s = s \/ forceDot s = s ++ ".") /\
    forceDot (forceDot s) = forceDot s.
Proof.
  split; [reflexivity|]. split; [reflexivity|].
  intros s.
  assert (Hdot : forall u, forceDot (u ++ ".") = u ++ ".").
  { intros u. unfold forceDot. now rewrite HasSuffix_append. }
  split; [exact Hdot|]. split; [|split].
  - intros Hno. unfold forceDot.
    destruct (strings.HasSuffix s ".") eqn:E; [|reflexivity].
    apply HasSuffix_split in E as [u Hu]. now elim (Hno u).
  - unfold forceDot. destruct (strings.HasSuffix s "."); auto.
  - unfold forceDot at 2 3. destruct (strings.HasSuffix s ".") eqn:E.
    + unfold forceDot. now rewrite E.
    + apply Hdot.
Qed.

(** ** The library functions on small inputs *)

Example Trim_quotes :
  strings.Trim (String go.dquote ("abc" ++ String go.dquote "")) (String go.dquote "") = "abc".
Proof. reflexivity. Qed.

Example TrimSuffix_dot : strings.TrimSuffix "www.example.com." "." = "www.example.com".
Proof. reflexivity. Qed.

Example Contains_404 :
  strings.Contains "googleapi: Error 404: notFound" "404" = true /\
  strings.Contains "googleapi: Error 403: forbidden" "404" = false.
Proof. split; reflexivity. Qed.

Example Itoa_404 : strconv.Itoa 404 = "404" /\ strconv.Itoa 0 = "0".
Proof. split; reflexivity. Qed.

Example Quote_escapes :
  strconv.Quote example.table ("a" ++ String go.dquote "b\c") =
  String go.dquote ("a\" ++ String go.dquote ("b\\c" ++ String go.dquote "")).
Proof. reflexivity. Qed.

Example PathUnescape_id :
  url.PathUnescape example.table "dns%3A%2F%2Fexample.com" = go.Ok "dns://example.com" /\
  url.PathUnescape example.table "50%" =
    go.Err ("invalid URL escape " ++ String go.dquote ("%" ++ String go.dquote "")).
Proof. split; reflexivity. Qed.

(** ** Diagnostics *)

Lemma HasError_app (a b : diag.Diagnostics) :
  diag.HasError (a ++ b)%list = diag.HasError a || diag.HasError b.
Proof. unfold diag.HasError. apply existsb_app. Qed.

Lemma Contains_error_HasError (diags : diag.Diagnostics) (summary detail : string) :
  diag.Contains diags (diag.NewDiagnostic diag.SeverityError summary detail) = true ->
  diag.HasError diags = true.
Proof.
  unfold diag.Contains, diag.HasError. intros H.
  apply existsb_exists in H as [x [Hin Heq]].
  apply existsb_exists. exists x. split; [exact Hin|].
  unfold diag.Equal in Heq. simpl in Heq.
  destruct (diag.Severity_ x); simpl in *; [reflexivity | discriminate].
Qed.

Lemma HasError_AddError (diags : diag.Diagnostics) (summary detail : string) :
  diag.HasError (diag.AddError diags summary detail) = true.
Proof.
  unfold diag.AddError. simpl.
  destruct (diag.Contains diags _) eqn:C.
  - eapply Contains_error_HasError; eassumption.
  - rewrite HasError_app. simpl. apply orb_true_r.
Qed.

Lemma HasError_tfsdk_AddError {M : Type} (resp : tfsdk.Response M) (summary detail : string) :
  diag.HasError (tfsdk.Diagnostics (tfsdk.AddError resp summary detail)) = true.
Proof. apply HasError_AddError. Qed.

Lemma Diagnostics_State_Set {M : Type} (resp : tfsdk.Response M) (d : M) :
  tfsdk.Diagnostics (tfsdk.State_Set resp d) = tfsdk.Diagnostics resp.
Proof. reflexivity. Qed.

(** ** The resource: Read *)
Section ResourceRead.
Import go basetypes remote site_verification_resource.

Variable r : SiteVerificationResource.
Variable req : Request.
Variable resp : Response.
Variable data : SiteVerificationResourceModel.
Variable diags : diag.Diagnostics.
Variable h : list Call.

Hypothesis Hget : tfsdk.Get req = (data, diags).
Hypothesis Hdiags : diag.HasError (tfsdk.Diagnostics (tfsdk.Append resp diags)) = false.
Hypothesis Hdomain : StringValue_ValueString (SiteType data) = "INET_DOMAIN".
Hypothesis Hmethod : StringValue_ValueString (VerificationMethod data) = "DNS_TXT".

Let project := StringValue_ValueString (Project data).
Let zone := StringValue_ValueString (ManagedZone data).
Let name := StringValue_ValueString (SiteIdentifier data).
Let fetch : Call := ResourceRecordSets_Get project "global" zone name "TXT".
Let fetched := Get (DNS (Clients r)) h project "global" zone name "TXT".
Let lookup : Call := WebResource_Get (SiteID data).
Let looked := GetResource (SiteVerification (Clients r)) ((h ++ [fetch])%list) (SiteID data).

(** C1: on a state of type INET_DOMAIN with method DNS_TXT, a TXT fetch
    that fails with an error containing "404" makes Read remove the
    resource, add no diagnostic and make no further call (the verification
    get is not attempted); when the fetch gives one value and the
    verification get fails with an error containing "404", Read removes the
    resource and adds no diagnostic as well. *)
Theorem Read_not_found_removes_resource :
  (forall e,
      fetched = Err e -> strings.Contains e "404" = true ->
      Read r req resp h = (tfsdk.RemoveResource (tfsdk.Append resp diags), (h ++ [fetch])%list) /\
      tfsdk.State (fst (Read r req resp h)) = None /\
      diag.HasError (tfsdk.Diagnostics (fst (Read r req resp h))) = false /\
      ~ In lookup (skipn (List.length h) (snd (Read r req resp h)))) /\
  (forall gresp rrdata e,
      fetched = Ok gresp -> dnsv2.Rrdatas gresp = [rrdata] ->
      looked = Err e -> strings.Contains e "404" = true ->
      Read r req resp h =
        (tfsdk.RemoveResource (tfsdk.Append resp diags), (h ++ [fetch; lookup])%list) /\
      tfsdk.State (fst (Read r req resp h)) = None /\
      diag.HasError (tfsdk.Diagnostics (fst (Read r req resp h))) = false).
Proof.
  assert (Hdom : isDomain data = true) by (unfold isDomain; now rewrite Hdomain).
  assert (Htxt : isDNSTXT data = true) by (unfold isDNSTXT; now rewrite Hmethod).
  split.
  - intros e He H404.
    assert (E : Read r req resp h =
                (tfsdk.RemoveResource (tfsdk.Append resp diags), (h ++ [fetch])%list)).
    { unfold Read. rewrite Hget, Hdiags, Hdom, Htxt.
      unfold readDNSRecord, bind, Do, ret.
      fold project zone name. fold fetched. rewrite He. cbn. now rewrite H404. }
    rewrite E. cbn [fst snd tfsdk.RemoveResource tfsdk.State tfsdk.Diagnostics].
    repeat split; try assumption.
    rewrite skipn_app, skipn_all, Nat.sub_diag. cbn.
    intros [Hc | []]. discriminate Hc.
  - intros gresp rrdata e Hg Hone Hl H404.
    assert (E : Read r req resp h =
                (tfsdk.RemoveResource (tfsdk.Append resp diags), (h ++ [fetch; lookup])%list)).
    { unfold Read. rewrite Hget, Hdiags, Hdom, Htxt.
      unfold readDNSRecord, readSiteVerification, bind, Do, ret.
      fold project zone name. fold fetched. rewrite Hg, Hone. cbn.
      change (SiteID (set_Token data _)) with (SiteID data).
      fold fetch. fold looked. rewrite Hl. cbn. rewrite H404.
      now rewrite <- app_assoc. }
    rewrite E. cbn [fst snd tfsdk.RemoveResource tfsdk.State tfsdk.Diagnostics].
    repeat split; assumption.
Qed.

(** What Read does with the error of a record that does not hold one
    value: the message goes through the same "404" test as a remote error,
    so it is reported unless its text (the count included) contains "404",
    in which case the resource is removed; either way nothing more is
    called and no state is written. *)
Lemma Read_value_count_not_one (gresp : dnsv2.ResourceRecordSet) :
  fetched = Ok gresp ->
  List.length (dnsv2.Rrdatas gresp) <> 1 ->
  let msg := "Expected 1 TXT record, got " ++
             strconv.Itoa (List.length (dnsv2.Rrdatas gresp)) in
  Read r req resp h =
  (if strings.Contains msg "404"
   then tfsdk.RemoveResource (tfsdk.Append resp diags)
   else tfsdk.AddError (tfsdk.Append resp diags) "Error reading DNS record" msg,
   (h ++ [fetch])%list).
Proof.
  intros Hg Hn.
  assert (Hdom : isDomain data = true) by (unfold isDomain; now rewrite Hdomain).
  assert (Htxt : isDNSTXT data = true) by (unfold isDNSTXT; now rewrite Hmethod).
  cbv zeta. unfold Read. rewrite Hget, Hdiags, Hdom, Htxt.
  unfold readDNSRecord, bind, Do, ret.
  fold project zone name. fold fetched. rewrite Hg.
  destruct (dnsv2.Rrdatas gresp) as [|v [|v' rest]]; [|now elim Hn|];
    cbv beta iota; cbn [List.length];
    match goal with
    | |- context [strings.Contains ?m "404"] => destruct (strings.Contains m "404")
    end; reflexivity.
Qed.

End ResourceRead.

(** ** The resource: Create *)

Lemma defaultNulls_fields (d : site_verification_resource.SiteVerificationResourceModel) :
  let d' := site_verification_resource.defaultNulls d in
  site_verification_resource.Project d' = site_verification_resource.Project d /\
  site_verification_resource.SiteIdentifier d' = site_verification_resource.SiteIdentifier d /\
  site_verification_resource.Token d' = site_verification_resource.Token d /\
  site_verification_resource.ManagedZone d' = site_verification_resource.ManagedZone d /\
  site_verification_resource.Owners d' = site_verification_resource.Owners d /\
  site_verification_resource.ID d' = site_verification_resource.ID d.
Proof.
  unfold site_verification_resource.defaultNulls.
  destruct (basetypes.StringValue_IsNull (site_verification_resource.SiteType d));
    cbn [site_verification_resource.set_SiteType
         site_verification_resource.VerificationMethod];
    destruct (basetypes.StringValue_IsNull (site_verification_resource.VerificationMethod d));
    cbn; repeat split; reflexivity.
Qed.

Lemma insertSiteVerification_unfold (table : utf8.rune -> bool)
  (r : site_verification_resource.SiteVerificationResource) (dg : diag.Diagnostics)
  (d : site_verification_resource.SiteVerificationResourceModel) (h : list remote.Call) :
  site_verification_resource.insertSiteVerification table r dg d h =
  match site_verification_resource.buildSiteVerification d true with
  | go.Err e => (Some e, d, h)
  | go.Ok greq =>
      let m := basetypes.StringValue_ValueString
                 (site_verification_resource.VerificationMethod d) in
      let h' := (h ++ [remote.WebResource_Insert m greq])%list in
      match remote.Insert (SiteVerification (site_verification_resource.Clients r)) h m greq with
      | go.Err e => (Some e, d, h')
      | go.Ok callResp =>
          let d' := site_verification_resource.set_Owners d
                      (basetypes.NewListValueMust
                         (map types.StringValue (go.elems (sitev1.Owners callResp)))) in
          match decodeID table (sitev1.Id callResp) with
          | go.Err e => (Some e, d', h')
          | go.Ok id => (None, site_verification_resource.set_ID d' (types.StringValue id), h')
          end
      end
  end.
Proof.
  unfold site_verification_resource.insertSiteVerification.
  destruct (site_verification_resource.buildSiteVerification d true) as [greq | e];
    [|reflexivity].
  unfold remote.bind, remote.Do, remote.ret. cbv zeta.
  destruct (remote.Insert _ _ _ _) as [callResp | e]; [|reflexivity].
  unfold parseOwnersFromResponse, types.ListValue.
  destruct (decodeID table (sitev1.Id callResp)); reflexivity.
Qed.

Section ResourceCreate.
Import go basetypes remote site_verification_resource.

Variable table : utf8.rune -> bool.
Variable r : SiteVerificationResource.
Variable req : Request.
Variable resp : Response.
Variable plan : SiteVerificationResourceModel.
Variable diags : diag.Diagnostics.
Variable h : list Call.

Hypothesis Hget : tfsdk.Get req = (plan, diags).
Hypothesis Hdiags : diag.HasError (tfsdk.Diagnostics (tfsdk.Append resp diags)) = false.
Hypothesis Hdomain : StringValue_ValueString (SiteType (defaultNulls plan)) = "INET_DOMAIN".
Hypothesis Hmethod : StringValue_ValueString (VerificationMethod (defaultNulls plan)) = "DNS_TXT".

Let data : SiteVerificationResourceModel :=
  if StringValue_IsNull (Project plan)
  then set_Project (defaultNulls plan) (types.StringValue (ProjectID (Clients r)))
  else defaultNulls plan.
Let project : string :=
  if StringValue_IsNull (Project plan) then ProjectID (Clients r)
  else StringValue_ValueString (Project plan).
Let zone := StringValue_ValueString (ManagedZone plan).
Let record : dnsv2.ResourceRecordSet :=
  {| dnsv2.Name := forceDot (StringValue_ValueString (SiteIdentifier plan));
     dnsv2.Rrdatas := [StringValue_ValueString (Token plan)];
     dnsv2.Ttl := 60;
     dnsv2.Type_ := "TXT" |}.
Let write : Call := ResourceRecordSets_Create project "global" zone record.
Let written := remote.Create (DNS (Clients r)) h project "global" zone record.

Lemma Create_DNS_TXT_unfold :
  site_verification_resource.Create table r req resp h =
  match written with
  | Err e => (tfsdk.AddError (tfsdk.Append resp diags) "Error creating DNS record" e,
              (h ++ [write])%list)
  | Ok _ =>
      match insertSiteVerification table r (tfsdk.Diagnostics (tfsdk.Append resp diags)) data
              (h ++ [write])%list with
      | (Some e, _, h') =>
          (tfsdk.AddError (tfsdk.Append resp diags) "Error inserting site verification" e, h')
      | (None, data', h') => (tfsdk.State_Set (tfsdk.Append resp diags) data', h')
      end
  end.
Proof.
  assert (Hdom : isDomain (defaultNulls plan) = true) by (unfold isDomain; now rewrite Hdomain).
  assert (Htxt : isDNSTXT (defaultNulls plan) = true) by (unfold isDNSTXT; now rewrite Hmethod).
  destruct (defaultNulls_fields plan) as (HP & HS & HT & HZ & _).
  unfold site_verification_resource.Create. rewrite Hget, Hdiags, Hdom, Htxt.
  unfold createDNSRecord, bind, Do, ret. rewrite HP.
  assert (Ecall :
    forall d, d = (if StringValue_IsNull (Project plan)
                   then set_Project (defaultNulls plan) (types.StringValue (ProjectID (Clients r)))
                   else defaultNulls plan) ->
    StringValue_ValueString (Project d) = project /\
    StringValue_ValueString (ManagedZone d) = zone /\
    StringValue_ValueString (SiteIdentifier d) = StringValue_ValueString (SiteIdentifier plan) /\
    StringValue_ValueString (Token d) = StringValue_ValueString (Token plan)).
  { intros d ->. unfold project, zone.
    destruct (StringValue_IsNull (Project plan)); cbn; rewrite ?HP, ?HS, ?HT, ?HZ; auto. }
  destruct (Ecall _ eq_refl) as (E1 & E2 & E3 & E4).
  rewrite E1, E2, E3, E4. fold record. fold written. fold write. fold data.
  destruct written as [rec | e]; [|reflexivity].
  cbv beta iota delta [nil_error].
  destruct (insertSiteVerification _ _ _ _ _) as [[[e|] d'] h']; reflexivity.
Qed.

(** C2: with type INET_DOMAIN and method DNS_TXT after the defaults, the
    first call of Create is the DNS write, made for the provider's project
    when the plan's project is null; an insert appears in the trace only
    when that write succeeded; when the write fails nothing else is called
    and the error is reported; when it succeeds and the request can be
    built, the insert is the one call that follows. *)
Theorem Create_writes_record_before_insert :
  exists t : list Call,
    snd (site_verification_resource.Create table r req resp h) = (h ++ write :: t)%list /\
    (forall m greq, In (WebResource_Insert m greq) t -> exists rec, written = Ok rec) /\
    (forall e, written = Err e ->
       t = [] /\
       fst (site_verification_resource.Create table r req resp h) =
         tfsdk.AddError (tfsdk.Append resp diags) "Error creating DNS record" e) /\
    (forall rec greq, written = Ok rec -> buildSiteVerification data true = Ok greq ->
       t = [WebResource_Insert "DNS_TXT" greq]).
Proof.
  rewrite Create_DNS_TXT_unfold, insertSiteVerification_unfold.
  assert (Hm : StringValue_ValueString (VerificationMethod data) = "DNS_TXT").
  { unfold data. destruct (StringValue_IsNull (Project plan)); exact Hmethod. }
  rewrite Hm. cbv zeta.
  destruct written as [rec | e] eqn:W.
  - destruct (buildSiteVerification data true) as [greq | e] eqn:B.
    + exists [WebResource_Insert "DNS_TXT" greq].
      split; [|split; [|split]].
      * destruct (Insert _ _ _ _) as [callResp | e]; [|now rewrite <- app_assoc].
        destruct (decodeID _ _); now rewrite <- app_assoc.
      * intros; eauto.
      * intros e He; discriminate He.
      * intros rec' greq' _ Hb. now inversion Hb.
    + exists []. split; [reflexivity|]. split; [intros ? ? []|].
      split; [intros ? He; discriminate He | intros ? ? _ Hb; discriminate Hb].
  - exists []. split; [reflexivity|]. split; [intros ? ? []|].
    split; [|intros ? ? Hw; discriminate Hw].
    intros e' He. inversion He; subst. split; reflexivity.
Qed.

End ResourceCreate.

(** ** The resource: Delete *)
Section ResourceDelete.
Import go basetypes remote site_verification_resource.

Variable r : SiteVerificationResource.
Variable req : Request.
Variable resp : Response.
Variable data : SiteVerificationResourceModel.
Variable diags : diag.Diagnostics.
Variable h : list Call.

Hypothesis Hget : tfsdk.Get req = (data, diags).
Hypothesis Hdiags : diag.HasError (tfsdk.Diagnostics (tfsdk.Append resp diags)) = false.
Hypothesis Hdomain : StringValue_ValueString (SiteType data) = "INET_DOMAIN".
Hypothesis Hmethod : StringValue_ValueString (VerificationMethod data) = "DNS_TXT".

Let project := StringValue_ValueString (Project data).
Let zone := StringValue_ValueString (ManagedZone data).
Let name := StringValue_ValueString (SiteIdentifier data).
Let erase : Call := ResourceRecordSets_Delete project "global" zone name "TXT".
Let erased := remote.Delete (DNS (Clients r)) h project "global" zone name "TXT".
Let relinquish : Call := WebResource_Delete (SiteID data).
Let relinquished :=
  DeleteResource (SiteVerification (Clients r)) (h ++ [erase])%list (SiteID data).

(** C3: on a state of type INET_DOMAIN with method DNS_TXT the first call
    of Delete is the DNS record delete; when it fails nothing else is
    called and its error is reported; when it succeeds the verification
    delete is the only call that follows, and its failure is reported as
    an error with no further call (the DNS delete is not undone). *)
Theorem Delete_record_before_verification :
  exists t : list Call,
    snd (site_verification_resource.Delete r req resp h) = (h ++ erase :: t)%list /\
    (forall e, erased = Some e ->
       t = [] /\
       fst (site_verification_resource.Delete r req resp h) =
         tfsdk.AddError (tfsdk.Append resp diags) "Error deleting DNS record" e) /\
    (erased = None ->
       t = [relinquish] /\
       (forall e, relinquished = Some e ->
          fst (site_verification_resource.Delete r req resp h) =
            tfsdk.AddError (tfsdk.Append resp diags)
              "Error relinquishing site verification" e /\
          diag.HasError
            (tfsdk.Diagnostics (fst (site_verification_resource.Delete r req resp h))) = true) /\
       (relinquished = None ->
          fst (site_verification_resource.Delete r req resp h) = tfsdk.Append resp diags)).
Proof.
  assert (Hdom : isDomain data = true) by (unfold isDomain; now rewrite Hdomain).
  assert (Htxt : isDNSTXT data = true) by (unfold isDNSTXT; now rewrite Hmethod).
  unfold site_verification_resource.Delete. rewrite Hget, Hdiags, Hdom, Htxt.
  unfold deleteDNSRecord, deleteSiteVerification, bind, Do, ret.
  fold project zone name. fold erased. fold erase.
  destruct erased as [e|] eqn:E.
  - exists []. cbn. split; [reflexivity|]. split.
    + intros e' He. inversion He; subst. split; reflexivity.
    + intros Hn; discriminate Hn.
  - exists [relinquish]. cbv beta iota delta [nil_error]. fold relinquish. fold relinquished.
    split; [|split].
    + destruct relinquished; cbn; now rewrite <- app_assoc.
    + intros e He; discriminate He.
    + intros _. split; [reflexivity|]. split.
      * intros e He. rewrite He. cbn [fst]. split; [reflexivity|].
        apply HasError_AddError.
      * intros He. now rewrite He.
Qed.

End ResourceDelete.

(** ** Owners: what is sent and what is stored *)

Lemma listValueToStringSlice_loop_known (os : list string) (acc : go.slice string) :
  listValueToStringSlice_loop (map basetypes.NewStringValue os) acc =
  go.Ok (match os with
         | [] => acc
         | _ => Some (go.elems acc ++ os)%list
         end).
Proof.
  revert acc. induction os as [|o os IH]; intros acc; [reflexivity|].
  cbn [map listValueToStringSlice_loop basetypes.As_string]. rewrite IH.
  unfold go.append1. cbn [go.elems]. destruct os; [reflexivity|].
  now rewrite <- app_assoc.
Qed.

Lemma buildSiteVerification_known_owners
  (d : site_verification_resource.SiteVerificationResourceModel) (includeSite : bool)
  (os : list string) :
  site_verification_resource.Owners d =
    basetypes.NewListValueMust (map basetypes.NewStringValue os) ->
  exists greq,
    site_verification_resource.buildSiteVerification d includeSite = go.Ok greq /\
    go.elems (sitev1.Owners greq) = os.
Proof.
  intros Ho. unfold site_verification_resource.buildSiteVerification,
    site_verification_resource.parseOwnersFromData, listValueToStringSlice.
  rewrite Ho. cbn [basetypes.ListValue_IsNull negb basetypes.ListValue_Elements].
  rewrite listValueToStringSlice_loop_known.
  eexists. split; [reflexivity|].
  destruct includeSite; destruct os; reflexivity.
Qed.

Lemma patchSiteVerification_unfold
  (r : site_verification_resource.SiteVerificationResource) (dg : diag.Diagnostics)
  (d : site_verification_resource.SiteVerificationResourceModel) (h : list remote.Call) :
  site_verification_resource.patchSiteVerification r dg d h =
  match site_verification_resource.buildSiteVerification d false with
  | go.Err e => (Some e, d, h)
  | go.Ok greq =>
      let id := site_verification_resource.SiteID d in
      let h' := (h ++ [remote.WebResource_Patch id greq])%list in
      match remote.Patch (SiteVerification (site_verification_resource.Clients r)) h id greq with
      | go.Err e => (Some e, d, h')
      | go.Ok _ =>
          (None,
           site_verification_resource.set_Owners d
             (basetypes.NewListValueMust
                (map types.StringValue (go.elems (sitev1.Owners greq)))),
           h')
      end
  end.
Proof.
  unfold site_verification_resource.patchSiteVerification.
  destruct (site_verification_resource.buildSiteVerification d false) as [greq | e];
    [|reflexivity].
  unfold remote.bind, remote.Do, remote.ret. cbv zeta.
  destruct (remote.Patch _ _ _ _) as [callResp | e]; reflexivity.
Qed.

Section Owners.
Import go basetypes remote site_verification_resource.

Variable table : utf8.rune -> bool.
Variable r : SiteVerificationResource.

(** The tail of [Create]: the insert and the state it leaves. *)
Lemma Create_insert_success (resp0 : Response) (d : SiteVerificationResourceModel)
  (h0 : list Call) (resp' : Response) (h' : list Call) :
  diag.HasError (tfsdk.Diagnostics resp0) = false ->
  (let '(a, h1) := insertSiteVerification table r (tfsdk.Diagnostics resp0) d h0 in
   (let '(err, d') := a in
    match err with
    | Some e => ret (tfsdk.AddError resp0 "Error inserting site verification" e)
    | None => ret (tfsdk.State_Set resp0 d')
    end) h1) = (resp', h') ->
  diag.HasError (tfsdk.Diagnostics resp') = false ->
  exists m greq callResp d',
    h' = (h0 ++ [WebResource_Insert m greq])%list /\
    Insert (SiteVerification (Clients r)) h0 m greq = Ok callResp /\
    tfsdk.State resp' = Some d' /\
    Owners d' = NewListValueMust (map types.StringValue (elems (sitev1.Owners callResp))).
Proof.
  intros H0 Hrun Hok. rewrite insertSiteVerification_unfold in Hrun. cbv zeta in Hrun.
  unfold ret in Hrun.
  destruct (buildSiteVerification d true) as [greq | e].
  2:{ inversion Hrun; subst.
      now rewrite ?Diagnostics_State_Set, HasError_tfsdk_AddError in Hok. }
  destruct (Insert _ _ _ _) as [callResp | e] eqn:EI.
  2:{ inversion Hrun; subst.
      now rewrite ?Diagnostics_State_Set, HasError_tfsdk_AddError in Hok. }
  destruct (decodeID table (sitev1.Id callResp)) as [id | e].
  2:{ inversion Hrun; subst.
      now rewrite ?Diagnostics_State_Set, HasError_tfsdk_AddError in Hok. }
  inversion Hrun; subst.
  exists (StringValue_ValueString (VerificationMethod d)), greq, callResp.
  eexists. split; [reflexivity|]. split; [exact EI|]. split; reflexivity.
Qed.

(** The tail of [Update]: the patch and the state it leaves. *)
Lemma Update_patch_success (resp0 : Response) (d : SiteVerificationResourceModel)
  (h0 : list Call) (resp' : Response) (h' : list Call) :
  diag.HasError (tfsdk.Diagnostics resp0) = false ->
  (let '(a, h1) := patchSiteVerification r (tfsdk.Diagnostics resp0) d h0 in
   (let '(err, d') := a in
    ret (tfsdk.State_Set
           match err with
           | Some e => tfsdk.AddError resp0 "Error updating site verification" e
           | None => resp0
           end d')) h1) = (resp', h') ->
  diag.HasError (tfsdk.Diagnostics resp') = false ->
  exists greq d',
    buildSiteVerification d false = Ok greq /\
    h' = (h0 ++ [WebResource_Patch (SiteID d) greq])%list /\
    tfsdk.State resp' = Some d' /\
    Owners d' = NewListValueMust (map types.StringValue (elems (sitev1.Owners greq))).
Proof.
  intros H0 Hrun Hok. rewrite patchSiteVerification_unfold in Hrun. cbv zeta in Hrun.
  unfold ret in Hrun.
  destruct (buildSiteVerification d false) as [greq | e].
  2:{ inversion Hrun; subst.
      now rewrite ?Diagnostics_State_Set, HasError_tfsdk_AddError in Hok. }
  destruct (Patch _ _ _ _) as [callResp | e].
  2:{ inversion Hrun; subst.
      now rewrite ?Diagnostics_State_Set, HasError_tfsdk_AddError in Hok. }
  inversion Hrun; subst. exists greq. eexists.
  split; [reflexivity|]. split; [reflexivity|]. split; reflexivity.
Qed.

End Owners.

(** C4: when Create ends without an error diagnostic, the last call is the
    insert and the owners kept in state are the owner list of its response,
    whatever the plan held; when Update ends without an error diagnostic,
    the last call is the patch built from the plan and the owners kept in
    state are the owners of that request (for a plan list of known strings,
    the plan's own list), whatever the patch response held. *)
Theorem owners_server_on_create_client_on_update :
  (forall table r req resp h resp' h',
      site_verification_resource.Create table r req resp h = (resp', h') ->
      diag.HasError (tfsdk.Diagnostics resp') = false ->
      exists hpre m greq callResp d',
        h' = (hpre ++ [remote.WebResource_Insert m greq])%list /\
        remote.Insert (SiteVerification (site_verification_resource.Clients r)) hpre m greq =
          go.Ok callResp /\
        tfsdk.State resp' = Some d' /\
        site_verification_resource.Owners d' =
          basetypes.NewListValueMust
            (map types.StringValue (go.elems (sitev1.Owners callResp)))) /\
  (forall r req resp h resp' h',
      site_verification_resource.Update r req resp h = (resp', h') ->
      diag.HasError (tfsdk.Diagnostics resp') = false ->
      let plan := fst (tfsdk.Get req) in
      exists hpre greq d',
        site_verification_resource.buildSiteVerification
          (site_verification_resource.defaultNulls plan) false = go.Ok greq /\
        h' = (hpre ++ [remote.WebResource_Patch
                         (site_verification_resource.SiteID plan) greq])%list /\
        tfsdk.State resp' = Some d' /\
        site_verification_resource.Owners d' =
          basetypes.NewListValueMust (map types.StringValue (go.elems (sitev1.Owners greq))) /\
        forall os,
          site_verification_resource.Owners plan =
            basetypes.NewListValueMust (map basetypes.NewStringValue os) ->
          go.elems (sitev1.Owners greq) = os /\
          site_verification_resource.Owners d' = site_verification_resource.Owners plan).
Proof.
  split.
  - intros table r req resp h resp' h' Hrun Hok.
    unfold site_verification_resource.Create in Hrun.
    destruct (tfsdk.Get req) as [plan diags].
    destruct (diag.HasError (tfsdk.Diagnostics (tfsdk.Append resp diags))) eqn:Hd.
    { inversion Hrun; subst. congruence. }
    destruct (site_verification_resource.isDomain _);
      [destruct (site_verification_resource.isDNSTXT _)|].
    + unfold site_verification_resource.createDNSRecord, remote.bind at 1 2,
        remote.Do, remote.ret at 1 2 in Hrun.
      destruct (remote.Create _ _ _ _ _ _) as [rec | e].
      2:{ inversion Hrun; subst. now rewrite HasError_tfsdk_AddError in Hok. }
      cbv beta iota delta [go.nil_error] in Hrun.
      destruct (Create_insert_success table r _ _ _ _ _ Hd Hrun Hok)
        as (m & greq & callResp & d' & ? & ? & ? & ?).
      eauto 10.
    + destruct (Create_insert_success table r _ _ _ _ _ Hd Hrun Hok)
        as (m & greq & callResp & d' & ? & ? & ? & ?).
      eauto 10.
    + destruct (Create_insert_success table r _ _ _ _ _ Hd Hrun Hok)
        as (m & greq & callResp & d' & ? & ? & ? & ?).
      eauto 10.
  - intros r req resp h resp' h' Hrun Hok plan.
    unfold site_verification_resource.Update in Hrun. subst plan.
    destruct (tfsdk.Get req) as [plan diags]. cbn [fst].
    destruct (diag.HasError (tfsdk.Diagnostics (tfsdk.Append resp diags))) eqn:Hd.
    { inversion Hrun; subst. congruence. }
    destruct (defaultNulls_fields plan) as (_ & HS & _ & _ & HO & _).
    assert (Hid : site_verification_resource.SiteID
                    (site_verification_resource.defaultNulls plan) =
                  site_verification_resource.SiteID plan).
    { unfold site_verification_resource.SiteID. now rewrite HS. }
    assert (Hfin : forall h0,
      (let '(a, h1) :=
         site_verification_resource.patchSiteVerification r
           (tfsdk.Diagnostics (tfsdk.Append resp diags))
           (site_verification_resource.defaultNulls plan) h0 in
       (let '(err, d') := a in
        remote.ret (tfsdk.State_Set
          match err with
          | Some e => tfsdk.AddError (tfsdk.Append resp diags)
                        "Error updating site verification" e
          | None => tfsdk.Append resp diags
          end d')) h1) = (resp', h') ->
      exists hpre greq d',
        site_verification_resource.buildSiteVerification
          (site_verification_resource.defaultNulls plan) false = go.Ok greq /\
        h' = (hpre ++ [remote.WebResource_Patch
                         (site_verification_resource.SiteID plan) greq])%list /\
        tfsdk.State resp' = Some d' /\
        site_verification_resource.Owners d' =
          basetypes.NewListValueMust (map types.StringValue (go.elems (sitev1.Owners greq))) /\
        forall os,
          site_verification_resource.Owners plan =
            basetypes.NewListValueMust (map basetypes.NewStringValue os) ->
          go.elems (sitev1.Owners greq) = os /\
          site_verification_resource.Owners d' = site_verification_resource.Owners plan).
    { intros h0 Hp.
      destruct (Update_patch_success r _ _ _ _ _ Hd Hp Hok)
        as (greq & d' & Hb & Hh & Hs & Ho).
      rewrite Hid in Hh. exists h0, greq, d'. repeat (split; [assumption|]).
      intros os Hos. rewrite <- HO in Hos.
      destruct (buildSiteVerification_known_owners _ false os Hos) as (greq' & Hb' & He).
      rewrite Hb in Hb'. inversion Hb'; subst greq'.
      split; [exact He|]. rewrite Ho, He, <- HO. exact (eq_sym Hos). }
    destruct (site_verification_resource.isDomain _);
      [destruct (site_verification_resource.isDNSTXT _)|]; try (eapply Hfin; exact Hrun).
    unfold site_verification_resource.deleteDNSRecord,
      site_verification_resource.createDNSRecord, remote.bind at 1 2 3 4,
      remote.Do, remote.ret at 1 2 3 4 in Hrun.
    destruct (remote.Delete _ _ _ _ _ _ _) as [e|].
    { inversion Hrun; subst. now rewrite HasError_tfsdk_AddError in Hok. }
    cbv beta iota delta [go.nil_error] in Hrun.
    destruct (remote.Create _ _ _ _ _ _) as [rec | e].
    2:{ inversion Hrun; subst. now rewrite HasError_tfsdk_AddError in Hok. }
    cbv beta iota delta [go.nil_error] in Hrun.
    eapply Hfin; exact Hrun.
Qed.

(** ** The data source: Read *)

(** C5: a null site type is read as "INET_DOMAIN" and a null verification
    method as "DNS_TXT"; Read makes exactly one call, the token request
    carrying the identifier, the type and the method; when it succeeds the
    state holds the response's token unchanged next to the defaulted
    fields; when it fails the error is reported, no state is written and no
    second call is made. *)
Theorem DomainKey_Read_one_request_token_verbatim
  (d : domain_key_data_source.DomainKeyDataSource)
  (req : domain_key_data_source.Request) (resp : domain_key_data_source.Response)
  (config : domain_key_data_source.DomainKeyDataSourceModel)
  (diags : diag.Diagnostics) (h : list remote.Call)
  (Hget : tfsdk.Get req = (config, diags))
  (Hdiags : diag.HasError (tfsdk.Diagnostics (tfsdk.Append resp diags)) = false) :
  let siteType :=
    if basetypes.StringValue_IsNull (domain_key_data_source.SiteType config)
    then basetypes.NewStringValue "INET_DOMAIN"
    else domain_key_data_source.SiteType config in
  let method :=
    if basetypes.StringValue_IsNull (domain_key_data_source.VerificationMethod config)
    then basetypes.NewStringValue "DNS_TXT"
    else domain_key_data_source.VerificationMethod config in
  let greq :=
    {| sitev1.GettokenSite :=
         Some {| sitev1.Identifier :=
                   basetypes.StringValue_ValueString
                     (domain_key_data_source.SiteIdentifier config);
                 sitev1.Type_ := basetypes.StringValue_ValueString siteType |};
       sitev1.VerificationMethod := basetypes.StringValue_ValueString method |} in
  let issued := remote.GetToken (domain_key_data_source.client d) h greq in
  exists resp' : domain_key_data_source.Response,
    domain_key_data_source.Read d req resp h =
      (resp', (h ++ [remote.WebResource_GetToken greq])%list) /\
    (forall callResp, issued = go.Ok callResp ->
       resp' = tfsdk.State_Set (tfsdk.Append resp diags)
                 {| domain_key_data_source.VerificationMethod := method;
                    domain_key_data_source.SiteIdentifier :=
                      domain_key_data_source.SiteIdentifier config;
                    domain_key_data_source.SiteType := siteType;
                    domain_key_data_source.Token :=
                      basetypes.NewStringValue (sitev1.Token callResp) |}) /\
    (forall e, issued = go.Err e ->
       resp' = tfsdk.AddError (tfsdk.Append resp diags)
                 "Error retrieving verification token" e /\
       tfsdk.State resp' = tfsdk.State resp).
Proof.
  unfold domain_key_data_source.Read. rewrite Hget, Hdiags. clear Hget.
  unfold remote.bind, remote.Do, remote.ret.
  destruct config as [vm si st tk]. cbn.
  destruct st, vm; cbn;
    (destruct (remote.GetToken _ _ _) as [callResp | e];
     eexists; (split; [reflexivity|]); split; intros x Hx; inversion Hx; subst;
     try split; reflexivity).
Qed.

(** ** The request built from the model *)

Lemma listValueToStringSlice_loop_len (l : list basetypes.StringValue)
  (acc s : go.slice string) :
  listValueToStringSlice_loop l acc = go.Ok s ->
  go.len s = (go.len acc + List.length l)%nat /\ (l = [] -> s = acc).
Proof.
  revert acc. induction l as [|x l IH]; intros acc H; cbn in H.
  - inversion H; subst. split; [cbn; lia | reflexivity].
  - destruct (basetypes.As_string x) as [str | e]; [|discriminate H].
    apply IH in H as [H _]. split; [|discriminate].
    rewrite H. unfold go.len, go.append1. cbn [go.elems List.length].
    rewrite length_app. cbn. lia.
Qed.

(** C6, as the code has it: a null owners list builds a request whose
    [Owners] is the nil slice, so no owners field is sent; an explicitly
    empty owners list builds the very same request; the owners field is
    sent exactly when the configured list has an element.  The request
    recorded by the insert and by the patch is the one built here. *)
Theorem buildSiteVerification_owners_field
  (data : site_verification_resource.SiteVerificationResourceModel) (includeSite : bool) :
  (exists greq,
      site_verification_resource.buildSiteVerification
        (site_verification_resource.set_Owners data basetypes.NewListNull) includeSite =
        go.Ok greq /\
      sitev1.Owners greq = go.nil_slice /\
      sitev1.owners_field_sent greq = false) /\
  site_verification_resource.buildSiteVerification
    (site_verification_resource.set_Owners data (basetypes.NewListValueMust [])) includeSite =
  site_verification_resource.buildSiteVerification
    (site_verification_resource.set_Owners data basetypes.NewListNull) includeSite /\
  (forall greq,
      site_verification_resource.buildSiteVerification data includeSite = go.Ok greq ->
      sitev1.owners_field_sent greq =
        negb (List.length
                (basetypes.ListValue_Elements (site_verification_resource.Owners data)) =? 0)%nat) /\
  (forall table r dg h m greq,
      snd (site_verification_resource.insertSiteVerification table r dg data h) =
        (h ++ [remote.WebResource_Insert m greq])%list ->
      site_verification_resource.buildSiteVerification data true = go.Ok greq) /\
  (forall r dg h id greq,
      snd (site_verification_resource.patchSiteVerification r dg data h) =
        (h ++ [remote.WebResource_Patch id greq])%list ->
      site_verification_resource.buildSiteVerification data false = go.Ok greq).
Proof.
  split; [|split; [|split; [|split]]].
  - destruct includeSite; eexists; (split; [reflexivity|]); split; reflexivity.
  - destruct includeSite; reflexivity.
  - intros greq H. unfold site_verification_resource.buildSiteVerification,
      site_verification_resource.parseOwnersFromData, listValueToStringSlice in H.
    destruct (site_verification_resource.Owners data) as [| |els] eqn:Eo; cbn in H.
    + destruct includeSite; inversion H; reflexivity.
    + destruct includeSite; inversion H; reflexivity.
    + destruct (listValueToStringSlice_loop els go.nil_slice) as [s | e] eqn:El;
        [|discriminate H].
      apply listValueToStringSlice_loop_len in El as [Hlen Hnil].
      assert (Hs : go.len (go.append go.nil_slice s) = List.length els).
      { unfold go.append, go.len in *. cbn in Hlen.
        destruct (go.elems s) eqn:Es; cbn; [now rewrite <- Hlen | exact Hlen]. }
      unfold sitev1.owners_field_sent.
      destruct includeSite; inversion H; cbn [sitev1.Owners]; now rewrite Hs.
  - intros table r dg h m greq H. rewrite insertSiteVerification_unfold in H.
    destruct (site_verification_resource.buildSiteVerification data true) as [g | e].
    + cbv zeta in H.
      assert (Hh : (h ++ [remote.WebResource_Insert
                            (basetypes.StringValue_ValueString
                               (site_verification_resource.VerificationMethod data)) g])%list =
                   (h ++ [remote.WebResource_Insert m greq])%list).
      { destruct (remote.Insert _ _ _ _); [destruct (decodeID _ _)|]; exact H. }
      apply app_inv_head in Hh. now inversion Hh.
    + cbn in H. rewrite <- (app_nil_r h) in H at 1. apply app_inv_head in H. discriminate H.
  - intros r dg h id greq H. rewrite patchSiteVerification_unfold in H.
    destruct (site_verification_resource.buildSiteVerification data false) as [g | e].
    + cbv zeta in H.
      assert (Hh : (h ++ [remote.WebResource_Patch
                            (site_verification_resource.SiteID data) g])%list =
                   (h ++ [remote.WebResource_Patch id greq])%list).
      { destruct (remote.Patch _ _ _ _); exact H. }
      apply app_inv_head in Hh. now inversion Hh.
    + cbn in H. rewrite <- (app_nil_r h) in H at 1. apply app_inv_head in H. discriminate H.
Qed.

(** ** The DNS record that is written *)

Lemma createDNSRecord_unfold (r : site_verification_resource.SiteVerificationResource)
  (d : site_verification_resource.SiteVerificationResourceModel) (h : list remote.Call) :
  let project := basetypes.StringValue_ValueString (site_verification_resource.Project d) in
  let zone := basetypes.StringValue_ValueString (site_verification_resource.ManagedZone d) in
  let record :=
    {| dnsv2.Name :=
         forceDot (basetypes.StringValue_ValueString
                     (site_verification_resource.SiteIdentifier d));
       dnsv2.Rrdatas :=
         [basetypes.StringValue_ValueString (site_verification_resource.Token d)];
       dnsv2.Ttl := 60;
       dnsv2.Type_ := "TXT" |} in
  site_verification_resource.createDNSRecord r d h =
  (match remote.Create (DNS (site_verification_resource.Clients r)) h
           project "global" zone record with
   | go.Err e => Some e
   | go.Ok _ => None
   end,
   (h ++ [remote.ResourceRecordSets_Create project "global" zone record])%list).
Proof.
  cbv zeta. unfold site_verification_resource.createDNSRecord, remote.bind, remote.Do,
    remote.ret.
  destruct (remote.Create _ _ _ _ _ _); reflexivity.
Qed.

Lemma insertSiteVerification_trace (table : utf8.rune -> bool)
  (r : site_verification_resource.SiteVerificationResource) (dg : diag.Diagnostics)
  (d : site_verification_resource.SiteVerificationResourceModel) (h : list remote.Call) :
  exists t,
    snd (site_verification_resource.insertSiteVerification table r dg d h) = (h ++ t)%list /\
    forall p l z rec, ~ In (remote.ResourceRecordSets_Create p l z rec) t.
Proof.
  rewrite insertSiteVerification_unfold.
  destruct (site_verification_resource.buildSiteVerification d true) as [greq | e].
  - cbv zeta. eexists [_]. split.
    + destruct (remote.Insert _ _ _ _); [destruct (decodeID _ _)|]; reflexivity.
    + intros p l z rec [Hc | []]. discriminate Hc.
  - exists []. split; [cbn; now rewrite app_nil_r | intros ? ? ? ? []].
Qed.

Lemma patchSiteVerification_trace
  (r : site_verification_resource.SiteVerificationResource) (dg : diag.Diagnostics)
  (d : site_verification_resource.SiteVerificationResourceModel) (h : list remote.Call) :
  exists t,
    snd (site_verification_resource.patchSiteVerification r dg d h) = (h ++ t)%list /\
    forall p l z rec, ~ In (remote.ResourceRecordSets_Create p l z rec) t.
Proof.
  rewrite patchSiteVerification_unfold.
  destruct (site_verification_resource.buildSiteVerification d false) as [greq | e].
  - cbv zeta. eexists [_]. split.
    + destruct (remote.Patch _ _ _ _); reflexivity.
    + intros p l z rec [Hc | []]. discriminate Hc.
  - exists []. split; [cbn; now rewrite app_nil_r | intros ? ? ? ? []].
Qed.

(** C7, as the code has it: the record handed to the DNS create call has
    the name [forceDot] of the site identifier, type "TXT", ttl 60 and one
    value, the token exactly as the model holds it (no quoting is added);
    every DNS create call made by Create and by Update carries this record
    for the plan. *)
Theorem DNS_record_written :
  (forall r data h,
      snd (site_verification_resource.createDNSRecord r data h) =
      (h ++ [remote.ResourceRecordSets_Create
               (basetypes.StringValue_ValueString (site_verification_resource.Project data))
               "global"
               (basetypes.StringValue_ValueString
                  (site_verification_resource.ManagedZone data))
               {| dnsv2.Name :=
                    forceDot (basetypes.StringValue_ValueString
                                (site_verification_resource.SiteIdentifier data));
                  dnsv2.Rrdatas :=
                    [basetypes.StringValue_ValueString
                       (site_verification_resource.Token data)];
                  dnsv2.Ttl := 60;
                  dnsv2.Type_ := "TXT" |}])%list) /\
  (forall table r req resp h,
      exists t,
        snd (site_verification_resource.Create table r req resp h) = (h ++ t)%list /\
        forall p l z rec,
          In (remote.ResourceRecordSets_Create p l z rec) t ->
          rec = {| dnsv2.Name :=
                     forceDot (basetypes.StringValue_ValueString
                                 (site_verification_resource.SiteIdentifier
                                    (fst (tfsdk.Get req))));
                   dnsv2.Rrdatas :=
                     [basetypes.StringValue_ValueString
                        (site_verification_resource.Token (fst (tfsdk.Get req)))];
                   dnsv2.Ttl := 60;
                   dnsv2.Type_ := "TXT" |}) /\
  (forall r req resp h,
      exists t,
        snd (site_verification_resource.Update r req resp h) = (h ++ t)%list /\
        forall p l z rec,
          In (remote.ResourceRecordSets_Create p l z rec) t ->
          rec = {| dnsv2.Name :=
                     forceDot (basetypes.StringValue_ValueString
                                 (site_verification_resource.SiteIdentifier
                                    (fst (tfsdk.Get req))));
                   dnsv2.Rrdatas :=
                     [basetypes.StringValue_ValueString
                        (site_verification_resource.Token (fst (tfsdk.Get req)))];
                   dnsv2.Ttl := 60;
                   dnsv2.Type_ := "TXT" |}).
Proof.
  split; [|split].
  - intros r data h. now rewrite (createDNSRecord_unfold r data h).
  - intros table r req resp h.
    unfold site_verification_resource.Create.
    destruct (tfsdk.Get req) as [plan diags]. cbn [fst].
    destruct (diag.HasError _).
    { exists []. split; [cbn; now rewrite app_nil_r | intros ? ? ? ? []]. }
    destruct (defaultNulls_fields plan) as (HP & HS & HT & HZ & _).
    assert (Hins : forall d h0,
      exists t,
        snd ((let '(a, h1) :=
                site_verification_resource.insertSiteVerification table r
                  (tfsdk.Diagnostics (tfsdk.Append resp diags)) d h0 in
              (let '(err, d') := a in
               match err with
               | Some e => remote.ret (tfsdk.AddError (tfsdk.Append resp diags)
                                         "Error inserting site verification" e)
               | None => remote.ret (tfsdk.State_Set (tfsdk.Append resp diags) d')
               end) h1)) = (h0 ++ t)%list /\
        forall p l z rec, ~ In (remote.ResourceRecordSets_Create p l z rec) t).
    { intros d h0. destruct (insertSiteVerification_trace table r
        (tfsdk.Diagnostics (tfsdk.Append resp diags)) d h0) as (t & Ht & Hno).
      exists t. split; [|exact Hno].
      destruct (site_verification_resource.insertSiteVerification _ _ _ _ _)
        as [[[e|] d'] h1]; exact Ht. }
    destruct (site_verification_resource.isDomain _);
      [destruct (site_verification_resource.isDNSTXT _)|].
    + unfold remote.bind at 1. rewrite createDNSRecord_unfold. cbv zeta.
      match goal with
      | |- context [(h ++ [?c])%list] => set (w := c)
      end.
      assert (Hw : forall p l z rec, remote.ResourceRecordSets_Create p l z rec = w ->
        rec = {| dnsv2.Name :=
                   forceDot (basetypes.StringValue_ValueString
                               (site_verification_resource.SiteIdentifier plan));
                 dnsv2.Rrdatas :=
                   [basetypes.StringValue_ValueString
                      (site_verification_resource.Token plan)];
                 dnsv2.Ttl := 60;
                 dnsv2.Type_ := "TXT" |}).
      { intros p l z rec Hc. unfold w in Hc. inversion Hc; subst.
        destruct (basetypes.StringValue_IsNull _); cbn; now rewrite HS, HT. }
      destruct (remote.Create _ _ _ _ _ _) as [rec0 | e].
      * destruct (Hins (if basetypes.StringValue_IsNull
                             (site_verification_resource.Project
                                (site_verification_resource.defaultNulls plan))
                        then site_verification_resource.set_Project
                               (site_verification_resource.defaultNulls plan)
                               (types.StringValue
                                  (ProjectID (site_verification_resource.Clients r)))
                        else site_verification_resource.defaultNulls plan)
                       (h ++ [w])%list) as (t & Ht & Hno).
        exists (w :: t). split.
        { etransitivity; [exact Ht|]. now rewrite <- app_assoc. }
        intros p l z rec [Hc | Hin]; [now apply (Hw p l z) | now elim (Hno p l z rec)].
      * exists [w]. split; [reflexivity|].
        intros p l z rec [Hc | []]. now apply (Hw p l z).
    + destruct (Hins (site_verification_resource.defaultNulls plan) h) as (t & Ht & Hno).
      exists t. split; [exact Ht|]. intros p l z rec Hin. now elim (Hno p l z rec).
    + destruct (Hins (site_verification_resource.defaultNulls plan) h) as (t & Ht & Hno).
      exists t. split; [exact Ht|]. intros p l z rec Hin. now elim (Hno p l z rec).
  - intros r req resp h.
    unfold site_verification_resource.Update.
    destruct (tfsdk.Get req) as [plan diags]. cbn [fst].
    destruct (diag.HasError _).
    { exists []. split; [cbn; now rewrite app_nil_r | intros ? ? ? ? []]. }
    destruct (defaultNulls_fields plan) as (HP & HS & HT & HZ & _).
    assert (Hpat : forall h0,
      exists t,
        snd ((let '(a, h1) :=
                site_verification_resource.patchSiteVerification r
                  (tfsdk.Diagnostics (tfsdk.Append resp diags))
                  (site_verification_resource.defaultNulls plan) h0 in
              (let '(err, d') := a in
               remote.ret (tfsdk.State_Set
                 match err with
                 | Some e => tfsdk.AddError (tfsdk.Append resp diags)
                               "Error updating site verification" e
                 | None => tfsdk.Append resp diags
                 end d')) h1)) = (h0 ++ t)%list /\
        forall p l z rec, ~ In (remote.ResourceRecordSets_Create p l z rec) t).
    { intros h0. destruct (patchSiteVerification_trace r
        (tfsdk.Diagnostics (tfsdk.Append resp diags))
        (site_verification_resource.defaultNulls plan) h0) as (t & Ht & Hno).
      exists t. split; [|exact Hno].
      destruct (site_verification_resource.patchSiteVerification _ _ _ _)
        as [[[e|] d'] h1]; exact Ht. }
    destruct (site_verification_resource.isDomain _);
      [destruct (site_verification_resource.isDNSTXT _)|].
    + unfold remote.bind at 1.
      unfold site_verification_resource.deleteDNSRecord, remote.bind at 1, remote.Do at 1,
        remote.ret at 1 2.
      match goal with
      | |- context [(h ++ [?c])%list] => set (del := c)
      end.
      destruct (remote.Delete _ _ _ _ _ _ _) as [e|].
      { exists [del]. split; [reflexivity|].
        intros p l z rec [Hc | []]. unfold del in Hc. discriminate Hc. }
      cbv beta iota delta [go.nil_error].
      unfold remote.bind at 1. rewrite createDNSRecord_unfold. cbv zeta.
      match goal with
      | |- context [((h ++ [del]) ++ [?c])%list] => set (w := c)
      end.
      assert (Hw : forall p l z rec, remote.ResourceRecordSets_Create p l z rec = w ->
        rec = {| dnsv2.Name :=
                   forceDot (basetypes.StringValue_ValueString
                               (site_verification_resource.SiteIdentifier plan));
                 dnsv2.Rrdatas :=
                   [basetypes.StringValue_ValueString
                      (site_verification_resource.Token plan)];
                 dnsv2.Ttl := 60;
                 dnsv2.Type_ := "TXT" |}).
      { intros p l z rec Hc. unfold w in Hc. inversion Hc; subst. now rewrite HS, HT. }
      destruct (remote.Create _ _ _ _ _ _) as [rec0 | e].
      * destruct (Hpat ((h ++ [del]) ++ [w])%list) as (t & Ht & Hno).
        exists (del :: w :: t). split.
        { etransitivity; [exact Ht|]. now rewrite <- !app_assoc. }
        intros p l z rec [Hc | [Hc | Hin]];
          [unfold del in Hc; discriminate Hc | now apply (Hw p l z)
          | now elim (Hno p l z rec)].
      * exists [del; w]. split; [cbn; now rewrite <- app_assoc|].
        intros p l z rec [Hc | [Hc | []]];
          [unfold del in Hc; discriminate Hc | now apply (Hw p l z)].
    + destruct (Hpat h) as (t & Ht & Hno).
      exists t. split; [exact Ht|]. intros p l z rec Hin. now elim (Hno p l z rec).
    + destruct (Hpat h) as (t & Ht & Hno).
      exists t. split; [exact Ht|]. intros p l z rec Hin. now elim (Hno p l z rec).
Qed.

(** ** Reading the DNS record *)





(** ** Quoting: [strconv.Quote] *)

Lemma byte_code (c : ascii) : go.byte (go.code c) = c.
Proof.
  unfold go.byte, go.code.
  rewrite N.mod_small by apply N_ascii_bounded.
  apply ascii_N_embedding.
Qed.





Lemma high_byte_not_quote (c : ascii) :
  (0x80 <= go.code c)%N -> Ascii.eqb c go.dquote = false.
Proof.
  intros H. destruct (Ascii.eqb_spec c go.dquote) as [-> | _]; [|reflexivity].
  vm_compute in H. now elim H.
Qed.

Lemma first_accepts_high (s0 : N) (sz : nat) (lo hi : N) :
  utf8.first s0 = Some (sz, lo, hi) -> (0x80 <= lo)%N.
Proof.
  unfold utf8.first. intros H.
  repeat match type of H with
         | (if ?b then _ else _) = _ => destruct b
         end; inversion H; subst; lia.
Qed.

Lemma outside_false_high (lo hi b : N) :
  (0x80 <= lo)%N -> utf8.outside lo hi b = false -> (0x80 <= b)%N.
Proof.
  unfold utf8.outside. intros Hlo H. apply orb_false_iff in H as [H _].
  apply N.ltb_ge in H. lia.
Qed.

Lemma skip_length (n : nat) (s : string) : length (go.skip n s) = length s - n.
Proof.
  revert s. induction n as [|n IH]; intros [|c s]; cbn; try reflexivity; try lia.
  apply IH.
Qed.

(** A multi-byte decoding step consumes at least one byte and no double
    quote. *)
Lemma DecodeRuneInString_consumes (c0 : ascii) (t : string) (r : utf8.rune) (w : nat) :
  (go.code c0 <? utf8.RuneSelf)%N = false ->
  utf8.DecodeRuneInString (String c0 t) = (r, w) ->
  1 <= w /\
  countByte go.dquote (go.skip w (String c0 t)) = countByte go.dquote (String c0 t).
Proof.
  intros Hhigh. apply N.ltb_ge in Hhigh. unfold utf8.RuneSelf in Hhigh.
  assert (Hq : forall c s, (0x80 <= go.code c)%N ->
            countByte go.dquote (String c s) = countByte go.dquote s).
  { intros c s Hc. cbn. now rewrite (high_byte_not_quote c Hc). }
  unfold utf8.DecodeRuneInString.
  destruct (go.code c0 <? utf8.RuneSelf)%N eqn:E0.
  { apply N.ltb_lt in E0. unfold utf8.RuneSelf in E0. lia. }
  destruct (utf8.first (go.code c0)) as [[[sz lo] hi]|] eqn:F.
  2:{ intros H; inversion H; subst. split; [lia|]. cbn [go.skip]. now rewrite (Hq c0). }
  pose proof (first_accepts_high _ _ _ _ F) as Hlo.
  destruct (length (String c0 t) <? sz)%nat.
  { intros H; inversion H; subst. split; [lia|]. cbn [go.skip]. now rewrite (Hq c0). }
  destruct t as [|c1 t1].
  { intros H; inversion H; subst. split; [lia|]. cbn [go.skip]. now rewrite (Hq c0). }
  destruct (utf8.outside lo hi (go.code c1)) eqn:O1.
  { intros H; inversion H; subst. split; [lia|]. cbn [go.skip]. now rewrite (Hq c0). }
  pose proof (outside_false_high _ _ _ Hlo O1) as H1.
  destruct (sz <=? 2)%nat.
  { intros H; inversion H; subst. split; [lia|]. cbn [go.skip].
    now rewrite (Hq c0), (Hq c1). }
  destruct t1 as [|c2 t2].
  { intros H; inversion H; subst. split; [lia|]. cbn [go.skip]. now rewrite (Hq c0). }
  destruct (utf8.outside 128 191 (go.code c2)) eqn:O2.
  { intros H; inversion H; subst. split; [lia|]. cbn [go.skip]. now rewrite (Hq c0). }
  pose proof (outside_false_high _ _ _ (N.le_refl _) O2) as H2.
  destruct (sz <=? 3)%nat.
  { intros H; inversion H; subst. split; [lia|]. cbn [go.skip].
    now rewrite (Hq c0), (Hq c1), (Hq c2). }
  destruct t2 as [|c3 t3].
  { intros H; inversion H; subst. split; [lia|]. cbn [go.skip]. now rewrite (Hq c0). }
  destruct (utf8.outside 128 191 (go.code c3)) eqn:O3.
  { intros H; inversion H; subst. split; [lia|]. cbn [go.skip]. now rewrite (Hq c0). }
  pose proof (outside_false_high _ _ _ (N.le_refl _) O3) as H3.
  intros H; inversion H; subst. split; [lia|]. cbn [go.skip].
  now rewrite (Hq c0), (Hq c1), (Hq c2), (Hq c3).
Qed.


(** The fuel of [Quote] is enough: with [length s] rounds or more the loop
    gives the same text. *)
Lemma quoteLoop_fuel (table : utf8.rune -> bool) :
  forall f1 f2 s, length s <= f1 -> length s <= f2 ->
  strconv.quoteLoop table f1 s = strconv.quoteLoop table f2 s.
Proof.
  induction f1 as [|f1 IH]; intros [|f2] [|c0 t] H1 H2; cbn in H1, H2; try lia;
    try reflexivity.
  cbn [strconv.quoteLoop].
  destruct (go.code c0 <? utf8.RuneSelf)%N eqn:E0.
  - cbn [go.skip]. rewrite (IH f2 t) by lia. reflexivity.
  - destruct (utf8.DecodeRuneInString (String c0 t)) as [r w] eqn:D.
    destruct (DecodeRuneInString_consumes c0 t r w E0 D) as [Hw _].
    assert (Hl : length (go.skip w (String c0 t)) <= length t).
    { rewrite skip_length. cbn [length]. lia. }
    rewrite (IH f2 (go.skip w (String c0 t))) by lia. reflexivity.
Qed.


(** ** The provider: Configure *)


Lemma HasError_provider_AddError (resp : provider.ConfigureResponse)
  (summary detail : string) :
  diag.HasError (provider.Diagnostics (provider.AddError resp summary detail)) = true.
Proof. apply HasError_AddError. Qed.


(** ** The properties on the concrete provider *)

(** Read when the TXT record is gone, and when only the registration is. *)
Lemma Read_not_found_removes_resource_witness :
  site_verification_resource.Read
    (example.resource example.sv_ok example.dns_missing)
    (example.request example.state) example.fresh [] =
  (tfsdk.RemoveResource example.fresh,
   [remote.ResourceRecordSets_Get "provider-project" "global" "zone" "example.com" "TXT"]) /\
  site_verification_resource.Read
    (example.resource example.sv_missing example.dns_ok)
    (example.request example.state) example.fresh [] =
  (tfsdk.RemoveResource example.fresh,
   [remote.ResourceRecordSets_Get "provider-project" "global" "zone" "example.com" "TXT";
    remote.WebResource_Get "example.com"]).
Proof.
  split.
  - exact (proj1 (proj1 (Read_not_found_removes_resource
             (example.resource example.sv_ok example.dns_missing)
             (example.request example.state) example.fresh example.state [] []
             eq_refl eq_refl eq_refl eq_refl)
           example.notFound eq_refl eq_refl)).
  - exact (proj1 (proj2 (Read_not_found_removes_resource
             (example.resource example.sv_missing example.dns_ok)
             (example.request example.state) example.fresh example.state [] []
             eq_refl eq_refl eq_refl eq_refl)
           example.txt _ example.notFound eq_refl eq_refl eq_refl eq_refl)).
Defined.

(** Create from the default plan: the write for the provider's project,
    then the insert; and with a zone that refuses the write, the write
    alone. *)
Lemma Create_writes_record_before_insert_witness :
  snd (site_verification_resource.Create example.table
         (example.resource example.sv_ok example.dns_ok)
         (example.request example.plan) example.fresh []) =
  [remote.ResourceRecordSets_Create "provider-project" "global" "zone"
     {| dnsv2.Name := "example.com."; dnsv2.Rrdatas := [example.token];
        dnsv2.Ttl := 60; dnsv2.Type_ := "TXT" |};
   remote.WebResource_Insert "DNS_TXT"
     {| sitev1.Id := ""; sitev1.Owners := None;
        sitev1.ResourceSite :=
          Some {| sitev1.Identifier := "example.com"; sitev1.Type_ := "INET_DOMAIN" |} |}] /\
  snd (site_verification_resource.Create example.table
         (example.resource example.sv_ok example.dns_forbidden)
         (example.request example.plan) example.fresh []) =
  [remote.ResourceRecordSets_Create "provider-project" "global" "zone"
     {| dnsv2.Name := "example.com."; dnsv2.Rrdatas := [example.token];
        dnsv2.Ttl := 60; dnsv2.Type_ := "TXT" |}].
Proof.
  split.
  - destruct (Create_writes_record_before_insert example.table
                (example.resource example.sv_ok example.dns_ok)
                (example.request example.plan) example.fresh example.plan [] []
                eq_refl eq_refl eq_refl eq_refl) as (t & Ht & _ & _ & Hins).
    rewrite Ht, (Hins _ _ eq_refl eq_refl). reflexivity.
  - destruct (Create_writes_record_before_insert example.table
                (example.resource example.sv_ok example.dns_forbidden)
                (example.request example.plan) example.fresh example.plan [] []
                eq_refl eq_refl eq_refl eq_refl) as (t & Ht & _ & Hfail & _).
    rewrite Ht. destruct (Hfail _ eq_refl) as [-> _]. reflexivity.
Defined.

(** Delete when the registration cannot be relinquished: the record delete,
    then the verification delete, and an error. *)
Lemma Delete_record_before_verification_witness :
  snd (site_verification_resource.Delete
         (example.resource example.sv_missing example.dns_ok)
         (example.request example.state) example.fresh []) =
  [remote.ResourceRecordSets_Delete "provider-project" "global" "zone" "example.com" "TXT";
   remote.WebResource_Delete "example.com"] /\
  diag.HasError
    (tfsdk.Diagnostics
       (fst (site_verification_resource.Delete
               (example.resource example.sv_missing example.dns_ok)
               (example.request example.state) example.fresh []))) = true.
Proof.
  destruct (Delete_record_before_verification
              (example.resource example.sv_missing example.dns_ok)
              (example.request example.state) example.fresh example.state [] []
              eq_refl eq_refl eq_refl eq_refl) as (t & Ht & _ & Hok).
  destruct (Hok eq_refl) as (-> & Hfail & _).
  split; [exact Ht | exact (proj2 (Hfail _ eq_refl))].
Defined.

(** Create with owners a@x and b@x keeps the server's owner; Update with
    owner c@x keeps c@x, though the patch response names another. *)
Lemma owners_server_on_create_client_on_update_witness :
  (exists d,
      tfsdk.State (fst (site_verification_resource.Create example.table
                          (example.resource example.sv_ok example.dns_ok)
                          (example.request (example.owned example.plan ["a@x"; "b@x"]))
                          example.fresh [])) = Some d /\
      site_verification_resource.Owners d =
        basetypes.NewListValueMust [basetypes.NewStringValue "admin@example.com"]) /\
  (exists d,
      tfsdk.State (fst (site_verification_resource.Update
                          (example.resource example.sv_ok example.dns_ok)
                          (example.request (example.owned example.state ["c@x"]))
                          example.fresh [])) = Some d /\
      site_verification_resource.Owners d =
        basetypes.NewListValueMust [basetypes.NewStringValue "c@x"]).
Proof.
  split.
  - destruct (proj1 owners_server_on_create_client_on_update example.table
                (example.resource example.sv_ok example.dns_ok)
                (example.request (example.owned example.plan ["a@x"; "b@x"]))
                example.fresh [] _ _ eq_refl eq_refl)
      as (hpre & m & greq & callResp & d & _ & Hins & Hs & Ho).
    exists d. split; [exact Hs|]. rewrite Ho.
    cbn in Hins. inversion Hins; subst callResp. reflexivity.
  - destruct (proj2 owners_server_on_create_client_on_update
                (example.resource example.sv_ok example.dns_ok)
                (example.request (example.owned example.state ["c@x"]))
                example.fresh [] _ _ eq_refl eq_refl)
      as (hpre & greq & d & _ & _ & Hs & _ & Hplan).
    exists d. split; [exact Hs|].
    exact (proj2 (Hplan ["c@x"] eq_refl)).
Defined.

(** The data source with defaults: one request for example.com as an
    INET_DOMAIN by DNS_TXT, and the token as the service gave it. *)
Lemma DomainKey_Read_one_request_token_verbatim_witness :
  exists resp' : domain_key_data_source.Response,
    domain_key_data_source.Read {| domain_key_data_source.client := example.sv_ok |}
      example.lookup example.lookup_fresh [] =
    (resp',
     [remote.WebResource_GetToken
        {| sitev1.GettokenSite :=
             Some {| sitev1.Identifier := "example.com"; sitev1.Type_ := "INET_DOMAIN" |};
           sitev1.VerificationMethod := "DNS_TXT" |}]) /\
    option_map domain_key_data_source.Token (tfsdk.State resp') =
      Some (basetypes.NewStringValue "google-site-verification=abc").
Proof.
  destruct (DomainKey_Read_one_request_token_verbatim
              {| domain_key_data_source.client := example.sv_ok |}
              example.lookup example.lookup_fresh _ [] [] eq_refl eq_refl)
    as (resp' & Hrun & Hok & _).
  exists resp'. split; [exact Hrun|].
  rewrite (Hok _ eq_refl). reflexivity.
Defined.

(** The request built from null owners and the one built from an empty
    owners list are the same request, with and without the site. *)
Lemma buildSiteVerification_null_and_empty_alike :
  basetypes.ListValue_IsNull
    (site_verification_resource.Owners example.plan) = true /\
  basetypes.ListValue_IsNull
    (site_verification_resource.Owners (example.owned example.plan [])) = false /\
  site_verification_resource.buildSiteVerification example.plan true =
  site_verification_resource.buildSiteVerification (example.owned example.plan []) true /\
  site_verification_resource.buildSiteVerification example.plan false =
  site_verification_resource.buildSiteVerification (example.owned example.plan []) false /\
  site_verification_resource.buildSiteVerification (example.owned example.plan []) false =
  go.Ok {| sitev1.Id := ""; sitev1.Owners := go.nil_slice; sitev1.ResourceSite := None |}.
Proof. repeat split. Qed.

(** The record written for the token google-site-verification=abc holds
    that token without quotes around it. *)
Lemma createDNSRecord_value_is_not_quoted :
  snd (site_verification_resource.createDNSRecord
         (example.resource example.sv_ok example.dns_ok) example.state []) =
  [remote.ResourceRecordSets_Create "provider-project" "global" "zone"
     {| dnsv2.Name := "example.com.";
        dnsv2.Rrdatas := ["google-site-verification=abc"];
        dnsv2.Ttl := 60;
        dnsv2.Type_ := "TXT" |}] /\
  "google-site-verification=abc" <>
    String go.dquote ("google-site-verification=abc" ++ String go.dquote "") /\
  "google-site-verification=abc" <>
    strconv.Quote example.table "google-site-verification=abc".
Proof. split; [reflexivity|]. split; discriminate. Qed.



(** * Further properties of the code *)

(** ** Identifier encoding *)

Lemma PathUnescape_escaped_byte (table : utf8.rune -> bool) (c : ascii) (rest : string) :
  url.shouldEscape c = true ->
  url.PathUnescape table
    (String "%"%char
       (String (url.upperhex (N.shiftr (go.code c) 4))
          (String (url.upperhex (N.land (go.code c) 15)) rest))) =
  match url.PathUnescape table rest with
  | go.Ok u => go.Ok (String c u)
  | go.Err e => go.Err e
  end.
Proof.
  destruct c as [[] [] [] [] [] [] [] []]; intros H; vm_compute in H;
    try discriminate H; reflexivity.
Qed.

Lemma PathUnescape_plain_byte (table : utf8.rune -> bool) (c : ascii) (rest : string) :
  Ascii.eqb c "%"%char = false ->
  url.PathUnescape table (String c rest) =
  match url.PathUnescape table rest with
  | go.Ok u => go.Ok (String c u)
  | go.Err e => go.Err e
  end.
Proof. intros H. cbn [url.PathUnescape]. now rewrite H. Qed.

Lemma shouldEscape_percent (c : ascii) :
  url.shouldEscape c = false -> Ascii.eqb c "%"%char = false.
Proof.
  destruct (Ascii.eqb_spec c "%"%char) as [-> | _]; [|reflexivity].
  vm_compute. intros H; discriminate H.
Qed.

Lemma PathUnescape_PathEscape (table : utf8.rune -> bool) (s : string) :
  url.PathUnescape table (url.PathEscape s) = go.Ok s.
Proof.
  induction s as [|c s IH]; [reflexivity|].
  cbn [url.PathEscape]. destruct (url.shouldEscape c) eqn:E.
  - rewrite PathUnescape_escaped_byte by exact E. now rewrite IH.
  - rewrite PathUnescape_plain_byte by (now apply shouldEscape_percent). now rewrite IH.
Qed.

Lemma PathUnescape_percentFree (table : utf8.rune -> bool) (s : string) :
  percentFree s = true -> url.PathUnescape table s = go.Ok s.
Proof.
  unfold percentFree. induction s as [|c s IH]; intros H; [reflexivity|].
  cbn [countByte] in H. destruct (Ascii.eqb c "%"%char) eqn:E; [discriminate H|].
  rewrite PathUnescape_plain_byte by exact E. now rewrite IH.
Qed.

(** The stored id survives encoding and decoding: [decodeID] gives back
    the id that [EncodedID] escaped, whatever bytes it holds, so two models
    with the same encoded id hold the same id; an id without a percent sign
    decodes to itself. *)
Theorem decodeID_EncodedID_roundtrip (table : utf8.rune -> bool) :
  (forall m : site_verification_resource.SiteVerificationResourceModel,
      decodeID table (site_verification_resource.EncodedID m) =
      go.Ok (basetypes.StringValue_ValueString (site_verification_resource.ID m))) /\
  (forall m1 m2 : site_verification_resource.SiteVerificationResourceModel,
      site_verification_resource.EncodedID m1 = site_verification_resource.EncodedID m2 ->
      basetypes.StringValue_ValueString (site_verification_resource.ID m1) =
      basetypes.StringValue_ValueString (site_verification_resource.ID m2)) /\
  (forall id : string, percentFree id = true -> decodeID table id = go.Ok id).
Proof.
  split; [|split].
  - intros m. apply PathUnescape_PathEscape.
  - intros m1 m2 H.
    pose proof (PathUnescape_PathEscape table
                  (basetypes.StringValue_ValueString (site_verification_resource.ID m1))) as H1.
    pose proof (PathUnescape_PathEscape table
                  (basetypes.StringValue_ValueString (site_verification_resource.ID m2))) as H2.
    unfold site_verification_resource.EncodedID in H. rewrite H in H1. rewrite H1 in H2.
    now inversion H2.
  - intros id. apply PathUnescape_percentFree.
Qed.

(** ** The handlers as functions of the answers they get *)

Lemma readDNSRecord_unfold (r : site_verification_resource.SiteVerificationResource)
  (d : site_verification_resource.SiteVerificationResourceModel) (h : list remote.Call) :
  let project := basetypes.StringValue_ValueString (site_verification_resource.Project d) in
  let zone := basetypes.StringValue_ValueString (site_verification_resource.ManagedZone d) in
  let name := basetypes.StringValue_ValueString (site_verification_resource.SiteIdentifier d) in
  site_verification_resource.readDNSRecord r d h =
  (match remote.Get (DNS (site_verification_resource.Clients r)) h
           project "global" zone name "TXT" with
   | go.Err e => (Some e, d)
   | go.Ok gresp =>
       match dnsv2.Rrdatas gresp with
       | [rrdata] =>
           (None, site_verification_resource.set_Token d
                    (basetypes.NewStringValue (strings.Trim rrdata (String go.dquote ""))))
       | rrdatas =>
           (Some ("Expected 1 TXT record, got " ++ strconv.Itoa (List.length rrdatas)), d)
       end
   end,
   (h ++ [remote.ResourceRecordSets_Get project "global" zone name "TXT"])%list).
Proof.
  cbv zeta. unfold site_verification_resource.readDNSRecord, remote.bind, remote.Do,
    remote.ret.
  destruct (remote.Get _ _ _ _ _ _ _) as [gresp | e]; [|reflexivity].
  destruct (dnsv2.Rrdatas gresp) as [|v [|v' rest]]; reflexivity.
Qed.

Lemma deleteDNSRecord_unfold (r : site_verification_resource.SiteVerificationResource)
  (d : site_verification_resource.SiteVerificationResourceModel) (h : list remote.Call) :
  let project := basetypes.StringValue_ValueString (site_verification_resource.Project d) in
  let zone := basetypes.StringValue_ValueString (site_verification_resource.ManagedZone d) in
  let name := basetypes.StringValue_ValueString (site_verification_resource.SiteIdentifier d) in
  site_verification_resource.deleteDNSRecord r d h =
  (remote.Delete (DNS (site_verification_resource.Clients r)) h project "global" zone name "TXT",
   (h ++ [remote.ResourceRecordSets_Delete project "global" zone name "TXT"])%list).
Proof.
  cbv zeta. unfold site_verification_resource.deleteDNSRecord, remote.bind, remote.Do,
    remote.ret.
  destruct (remote.Delete _ _ _ _ _ _ _); reflexivity.
Qed.

Lemma readSiteVerification_unfold (r : site_verification_resource.SiteVerificationResource)
  (dg : diag.Diagnostics) (d : site_verification_resource.SiteVerificationResourceModel)
  (h : list remote.Call) :
  site_verification_resource.readSiteVerification r dg d h =
  (match remote.GetResource (SiteVerification (site_verification_resource.Clients r)) h
           (site_verification_resource.SiteID d) with
   | go.Err e => (Some e, d)
   | go.Ok found =>
       (None, site_verification_resource.set_Owners d
                (basetypes.NewListValueMust
                   (map types.StringValue (go.elems (sitev1.Owners found)))))
   end,
   (h ++ [remote.WebResource_Get (site_verification_resource.SiteID d)])%list).
Proof.
  unfold site_verification_resource.readSiteVerification, remote.bind, remote.Do,
    remote.ret.
  destruct (remote.GetResource _ _ _); reflexivity.
Qed.

Section Runs.
Import go basetypes remote site_verification_resource.

Variable table : utf8.rune -> bool.
Variable r : SiteVerificationResource.
Variable req : Request.
Variable resp : Response.
Variable h : list Call.

Let model := fst (tfsdk.Get req).
Let resp0 := tfsdk.Append resp (snd (tfsdk.Get req)).
Let onDNS (d : SiteVerificationResourceModel) : bool := isDomain d && isDNSTXT d.

Lemma Create_run :
  site_verification_resource.Create table r req resp h =
  if diag.HasError (tfsdk.Diagnostics resp0) then (resp0, h) else
  let insert d h0 :=
    match insertSiteVerification table r (tfsdk.Diagnostics resp0) d h0 with
    | (Some e, _, h1) => (tfsdk.AddError resp0 "Error inserting site verification" e, h1)
    | (None, d', h1) => (tfsdk.State_Set resp0 d', h1)
    end in
  if onDNS (defaultNulls model) then
    let d := if StringValue_IsNull (Project (defaultNulls model))
             then set_Project (defaultNulls model) (types.StringValue (ProjectID (Clients r)))
             else defaultNulls model in
    match createDNSRecord r d h with
    | (Some e, h1) => (tfsdk.AddError resp0 "Error creating DNS record" e, h1)
    | (None, h1) => insert d h1
    end
  else insert (defaultNulls model) h.
Proof.
  unfold site_verification_resource.Create, resp0, model, onDNS.
  destruct (tfsdk.Get req) as [plan diags]. cbn [fst snd].
  destruct (diag.HasError _); [reflexivity|]. cbv zeta.
  assert (Hins : forall d h0,
    (let '(a, h1) := insertSiteVerification table r
                       (tfsdk.Diagnostics (tfsdk.Append resp diags)) d h0 in
     (let '(err, d') := a in
      match err with
      | Some e => ret (tfsdk.AddError (tfsdk.Append resp diags)
                         "Error inserting site verification" e)
      | None => ret (tfsdk.State_Set (tfsdk.Append resp diags) d')
      end) h1) =
    match insertSiteVerification table r (tfsdk.Diagnostics (tfsdk.Append resp diags)) d h0 with
    | (Some e, _, h1) =>
        (tfsdk.AddError (tfsdk.Append resp diags) "Error inserting site verification" e, h1)
    | (None, d', h1) => (tfsdk.State_Set (tfsdk.Append resp diags) d', h1)
    end).
  { intros d h0. destruct (insertSiteVerification _ _ _ _ _) as [[[e|] d'] h1]; reflexivity. }
  destruct (isDomain _); [destruct (isDNSTXT _)|]; cbn [andb]; try apply Hins.
  unfold bind at 1. destruct (createDNSRecord _ _ _) as [[e|] h1]; [reflexivity|].
  apply Hins.
Qed.

Lemma Read_run :
  site_verification_resource.Read r req resp h =
  if diag.HasError (tfsdk.Diagnostics resp0) then (resp0, h) else
  let verification d h0 :=
    match readSiteVerification r (tfsdk.Diagnostics resp0) d h0 with
    | (Some e, _, h1) =>
        (if strings.Contains e "404" then tfsdk.RemoveResource resp0
         else tfsdk.AddError resp0 "Error reading site verification" e, h1)
    | (None, d', h1) => (tfsdk.State_Set resp0 d', h1)
    end in
  if onDNS model then
    match readDNSRecord r model h with
    | (Some e, _, h1) =>
        (if strings.Contains e "404" then tfsdk.RemoveResource resp0
         else tfsdk.AddError resp0 "Error reading DNS record" e, h1)
    | (None, d', h1) => verification d' h1
    end
  else verification model h.
Proof.
  unfold site_verification_resource.Read, resp0, model, onDNS.
  destruct (tfsdk.Get req) as [data diags]. cbn [fst snd].
  destruct (diag.HasError _); [reflexivity|]. cbv zeta.
  assert (Hver : forall d h0,
    (let '(a, h1) := readSiteVerification r
                       (tfsdk.Diagnostics (tfsdk.Append resp diags)) d h0 in
     (let '(err, d') := a in
      match err with
      | Some e =>
          if strings.Contains e "404" then ret (tfsdk.RemoveResource (tfsdk.Append resp diags))
          else ret (tfsdk.AddError (tfsdk.Append resp diags)
                      "Error reading site verification" e)
      | None => ret (tfsdk.State_Set (tfsdk.Append resp diags) d')
      end) h1) =
    match readSiteVerification r (tfsdk.Diagnostics (tfsdk.Append resp diags)) d h0 with
    | (Some e, _, h1) =>
        (if strings.Contains e "404" then tfsdk.RemoveResource (tfsdk.Append resp diags)
         else tfsdk.AddError (tfsdk.Append resp diags) "Error reading site verification" e,
         h1)
    | (None, d', h1) => (tfsdk.State_Set (tfsdk.Append resp diags) d', h1)
    end).
  { intros d h0. destruct (readSiteVerification _ _ _ _) as [[[e|] d'] h1]; [|reflexivity].
    destruct (strings.Contains e "404"); reflexivity. }
  destruct (isDomain _); [destruct (isDNSTXT _)|]; cbn [andb]; try apply Hver.
  unfold bind at 1. destruct (readDNSRecord _ _ _) as [[[e|] d'] h1]; [|apply Hver].
  destruct (strings.Contains e "404"); reflexivity.
Qed.

Lemma Update_run :
  site_verification_resource.Update r req resp h =
  if diag.HasError (tfsdk.Diagnostics resp0) then (resp0, h) else
  let d := defaultNulls model in
  let patch h0 :=
    match patchSiteVerification r (tfsdk.Diagnostics resp0) d h0 with
    | (Some e, d', h1) =>
        (tfsdk.State_Set (tfsdk.AddError resp0 "Error updating site verification" e) d', h1)
    | (None, d', h1) => (tfsdk.State_Set resp0 d', h1)
    end in
  if onDNS d then
    match deleteDNSRecord r d h with
    | (Some e, h1) => (tfsdk.AddError resp0 "Error deleting DNS record" e, h1)
    | (None, h1) =>
        match createDNSRecord r d h1 with
        | (Some e, h2) => (tfsdk.AddError resp0 "Error updating DNS TXT record" e, h2)
        | (None, h2) => patch h2
        end
    end
  else patch h.
Proof.
  unfold site_verification_resource.Update, resp0, model, onDNS.
  destruct (tfsdk.Get req) as [plan diags]. cbn [fst snd].
  destruct (diag.HasError _); [reflexivity|]. cbv zeta.
  assert (Hpat : forall h0,
    (let '(a, h1) := patchSiteVerification r
                       (tfsdk.Diagnostics (tfsdk.Append resp diags)) (defaultNulls plan) h0 in
     (let '(err, d') := a in
      ret (tfsdk.State_Set
             match err with
             | Some e => tfsdk.AddError (tfsdk.Append resp diags)
                           "Error updating site verification" e
             | None => tfsdk.Append resp diags
             end d')) h1) =
    match patchSiteVerification r (tfsdk.Diagnostics (tfsdk.Append resp diags))
            (defaultNulls plan) h0 with
    | (Some e, d', h1) =>
        (tfsdk.State_Set (tfsdk.AddError (tfsdk.Append resp diags)
                            "Error updating site verification" e) d', h1)
    | (None, d', h1) => (tfsdk.State_Set (tfsdk.Append resp diags) d', h1)
    end).
  { intros h0. destruct (patchSiteVerification _ _ _ _) as [[[e|] d'] h1]; reflexivity. }
  destruct (isDomain _); [destruct (isDNSTXT _)|]; cbn [andb]; try apply Hpat.
  unfold bind at 1. destruct (deleteDNSRecord _ _ _) as [[e|] h1]; [reflexivity|].
  unfold bind at 1. destruct (createDNSRecord _ _ _) as [[e|] h2]; [reflexivity|].
  apply Hpat.
Qed.

Lemma Delete_run :
  site_verification_resource.Delete r req resp h =
  if diag.HasError (tfsdk.Diagnostics resp0) then (resp0, h) else
  let relinquish h0 :=
    match deleteSiteVerification r model h0 with
    | (Some e, h1) => (tfsdk.AddError resp0 "Error relinquishing site verification" e, h1)
    | (None, h1) => (resp0, h1)
    end in
  if onDNS model then
    match deleteDNSRecord r model h with
    | (Some e, h1) => (tfsdk.AddError resp0 "Error deleting DNS record" e, h1)
    | (None, h1) => relinquish h1
    end
  else relinquish h.
Proof.
  unfold site_verification_resource.Delete, resp0, model, onDNS.
  destruct (tfsdk.Get req) as [data diags]. cbn [fst snd].
  destruct (diag.HasError _); [reflexivity|]. cbv zeta.
  assert (Hrel : forall h0,
    (let '(a, h1) := deleteSiteVerification r data h0 in
     match a with
     | Some e => ret (tfsdk.AddError (tfsdk.Append resp diags)
                        "Error relinquishing site verification" e)
     | None => ret (tfsdk.Append resp diags)
     end h1) =
    match deleteSiteVerification r data h0 with
    | (Some e, h1) =>
        (tfsdk.AddError (tfsdk.Append resp diags) "Error relinquishing site verification" e,
         h1)
    | (None, h1) => (tfsdk.Append resp diags, h1)
    end).
  { intros h0. destruct (deleteSiteVerification _ _ _) as [[e|] h1]; reflexivity. }
  destruct (isDomain _); [destruct (isDNSTXT _)|]; cbn [andb]; try apply Hrel.
  unfold bind at 1. destruct (deleteDNSRecord _ _ _) as [[e|] h1]; [reflexivity|].
  apply Hrel.
Qed.

End Runs.

(** ** Which endpoints a handler reaches, and in which order *)

Ltac trace_leaf :=
  cbn [snd fst]; rewrite <- ?app_assoc; cbn [app];
  first [ eexists; split; [reflexivity|]
        | exists []; split; [now rewrite app_nil_r|] ].

Ltac answers :=
  repeat match goal with
         | |- context [remote.Create ?s ?h ?a ?b ?c ?d] =>
             destruct (remote.Create s h a b c d)
         | |- context [remote.Get ?s ?h ?a ?b ?c ?d ?e] =>
             destruct (remote.Get s h a b c d e) as [[? [|? [|? ?]] ? ?] | ?];
             cbn [dnsv2.Rrdatas]
         | |- context [remote.Delete ?s ?h ?a ?b ?c ?d ?e] =>
             destruct (remote.Delete s h a b c d e)
         | |- context [remote.Insert ?s ?h ?a ?b] => destruct (remote.Insert s h a b)
         | |- context [remote.GetResource ?s ?h ?a] => destruct (remote.GetResource s h a)
         | |- context [remote.Patch ?s ?h ?a ?b] => destruct (remote.Patch s h a b)
         | |- context [remote.DeleteResource ?s ?h ?a] =>
             destruct (remote.DeleteResource s h a)
         | |- context [site_verification_resource.buildSiteVerification ?d ?b] =>
             destruct (site_verification_resource.buildSiteVerification d b)
         | |- context [decodeID ?t ?i] => destruct (decodeID t i)
         | |- context [strings.Contains ?e ?p] => destruct (strings.Contains e p)
         end.

Ltac helpers :=
  rewrite ?createDNSRecord_unfold, ?readDNSRecord_unfold, ?deleteDNSRecord_unfold,
    ?readSiteVerification_unfold, ?insertSiteVerification_unfold,
    ?patchSiteVerification_unfold;
  unfold site_verification_resource.deleteSiteVerification, remote.Do; cbv zeta.

Ltac run_handler :=
  rewrite ?Create_run, ?Read_run, ?Update_run, ?Delete_run; cbv zeta; helpers.

Ltac settle := answers; repeat (progress (helpers; answers)).

(** No retry and a fixed order: the calls one handler adds to the trace go
    to the endpoints of one of a few sequences.  Create: the DNS create,
    then the insert.  Read: the DNS get, then the verification get.
    Update: the DNS delete, the DNS create, then the patch.  Delete: the
    DNS delete, then the verification delete.  The data source: the token
    request.  Every sequence may stop early, and the DNS part may be absent,
    but no endpoint is reached twice or out of order. *)
Theorem handlers_reach_endpoints_in_order :
  (forall table r req resp h,
      exists t,
        snd (site_verification_resource.Create table r req resp h) = (h ++ t)%list /\
        In (map endpoint t)
           [[]; [VerificationInsert]; [DNSCreate]; [DNSCreate; VerificationInsert]]) /\
  (forall r req resp h,
      exists t,
        snd (site_verification_resource.Read r req resp h) = (h ++ t)%list /\
        In (map endpoint t) [[]; [VerificationGet]; [DNSGet]; [DNSGet; VerificationGet]]) /\
  (forall r req resp h,
      exists t,
        snd (site_verification_resource.Update r req resp h) = (h ++ t)%list /\
        In (map endpoint t)
           [[]; [VerificationPatch]; [DNSDelete]; [DNSDelete; DNSCreate];
            [DNSDelete; DNSCreate; VerificationPatch]]) /\
  (forall r req resp h,
      exists t,
        snd (site_verification_resource.Delete r req resp h) = (h ++ t)%list /\
        In (map endpoint t)
           [[]; [VerificationDelete]; [DNSDelete]; [DNSDelete; VerificationDelete]]) /\
  (forall d req resp h,
      exists t,
        snd (domain_key_data_source.Read d req resp h) = (h ++ t)%list /\
        In (map endpoint t) [[]; [VerificationGetToken]]).
Proof.
  split; [|split; [|split; [|split]]].
  - intros table r req resp h. run_handler.
    destruct (diag.HasError _); [trace_leaf; cbn; auto|].
    destruct (_ && _); settle; trace_leaf; cbn; auto 10.
  - intros r req resp h. run_handler.
    destruct (diag.HasError _); [trace_leaf; cbn; auto|].
    destruct (_ && _); settle; trace_leaf; cbn; auto 10.
  - intros r req resp h. run_handler.
    destruct (diag.HasError _); [trace_leaf; cbn; auto|].
    destruct (_ && _); settle; trace_leaf; cbn; auto 10.
  - intros r req resp h. run_handler.
    destruct (diag.HasError _); [trace_leaf; cbn; auto|].
    destruct (_ && _); settle; trace_leaf; cbn; auto 10.
  - intros d req resp h. unfold domain_key_data_source.Read.
    destruct (tfsdk.Get req) as [config diags].
    destruct (diag.HasError _); [trace_leaf; cbn; auto|].
    unfold remote.bind, remote.Do, remote.ret.
    destruct (remote.GetToken _ _ _); trace_leaf; cbn; auto.
Qed.

(** Cloud DNS is reached only for a site of type INET_DOMAIN verified by
    DNS_TXT: for any other type or method (the empty text of an unknown
    value included) Create, Read, Update and Delete make no DNS call at
    all.  Create and Update look at the model after the two defaults. *)
Theorem no_DNS_call_unless_domain_by_DNS_TXT :
  (forall table r req resp h,
      site_verification_resource.isDomain
        (site_verification_resource.defaultNulls (fst (tfsdk.Get req))) &&
      site_verification_resource.isDNSTXT
        (site_verification_resource.defaultNulls (fst (tfsdk.Get req))) = false ->
      exists t,
        snd (site_verification_resource.Create table r req resp h) = (h ++ t)%list /\
        forallb (fun c => negb (isDNSCall c)) t = true) /\
  (forall r req resp h,
      site_verification_resource.isDomain (fst (tfsdk.Get req)) &&
      site_verification_resource.isDNSTXT (fst (tfsdk.Get req)) = false ->
      exists t,
        snd (site_verification_resource.Read r req resp h) = (h ++ t)%list /\
        forallb (fun c => negb (isDNSCall c)) t = true) /\
  (forall r req resp h,
      site_verification_resource.isDomain
        (site_verification_resource.defaultNulls (fst (tfsdk.Get req))) &&
      site_verification_resource.isDNSTXT
        (site_verification_resource.defaultNulls (fst (tfsdk.Get req))) = false ->
      exists t,
        snd (site_verification_resource.Update r req resp h) = (h ++ t)%list /\
        forallb (fun c => negb (isDNSCall c)) t = true) /\
  (forall r req resp h,
      site_verification_resource.isDomain (fst (tfsdk.Get req)) &&
      site_verification_resource.isDNSTXT (fst (tfsdk.Get req)) = false ->
      exists t,
        snd (site_verification_resource.Delete r req resp h) = (h ++ t)%list /\
        forallb (fun c => negb (isDNSCall c)) t = true).
Proof.
  split; [|split; [|split]].
  - intros table r req resp h Hoff. run_handler. rewrite Hoff.
    destruct (diag.HasError _); settle; trace_leaf; reflexivity.
  - intros r req resp h Hoff. run_handler. rewrite Hoff.
    destruct (diag.HasError _); settle; trace_leaf; reflexivity.
  - intros r req resp h Hoff. run_handler. rewrite Hoff.
    destruct (diag.HasError _); settle; trace_leaf; reflexivity.
  - intros r req resp h Hoff. run_handler. rewrite Hoff.
    destruct (diag.HasError _); settle; trace_leaf; reflexivity.
Qed.

(** A plan whose site type is unknown: the insert is the only call. *)
Lemma no_DNS_call_unless_domain_by_DNS_TXT_witness :
  exists t,
    snd (site_verification_resource.Create example.table
           (example.resource example.sv_ok example.dns_ok)
           (example.request
              (site_verification_resource.set_SiteType example.plan
                 basetypes.NewStringUnknown))
           example.fresh []) = ([] ++ t)%list /\
    forallb (fun c => negb (isDNSCall c)) t = true.
Proof.
  apply (proj1 no_DNS_call_unless_domain_by_DNS_TXT). reflexivity.
Defined.

(** ** Errors and the state *)

(** When Create, Read or the data source's Read ends with an error
    diagnostic, the state of the response is the one the handler was
    given: nothing of a failed run is stored.  Delete never touches the
    state, with or without an error. *)
Theorem error_leaves_state_as_given :
  (forall table r req resp h,
      diag.HasError
        (tfsdk.Diagnostics (fst (site_verification_resource.Create table r req resp h))) = true ->
      tfsdk.State (fst (site_verification_resource.Create table r req resp h)) =
      tfsdk.State resp) /\
  (forall r req resp h,
      diag.HasError
        (tfsdk.Diagnostics (fst (site_verification_resource.Read r req resp h))) = true ->
      tfsdk.State (fst (site_verification_resource.Read r req resp h)) = tfsdk.State resp) /\
  (forall r req resp h,
      tfsdk.State (fst (site_verification_resource.Delete r req resp h)) = tfsdk.State resp) /\
  (forall d req resp h,
      diag.HasError
        (tfsdk.Diagnostics (fst (domain_key_data_source.Read d req resp h))) = true ->
      tfsdk.State (fst (domain_key_data_source.Read d req resp h)) = tfsdk.State resp).
Proof.
  split; [|split; [|split]].
  - intros table r req resp h. run_handler.
    destruct (diag.HasError (tfsdk.Diagnostics (tfsdk.Append resp (snd (tfsdk.Get req)))))
      eqn:Hd; [reflexivity|].
    destruct (_ && _); settle; cbn [fst tfsdk.State_Set tfsdk.Diagnostics];
      intros Herr; try reflexivity; congruence.
  - intros r req resp h. run_handler.
    destruct (diag.HasError (tfsdk.Diagnostics (tfsdk.Append resp (snd (tfsdk.Get req)))))
      eqn:Hd; [reflexivity|].
    destruct (_ && _); settle;
      cbn [fst tfsdk.State_Set tfsdk.RemoveResource tfsdk.Diagnostics];
      intros Herr; try reflexivity; congruence.
  - intros r req resp h. run_handler.
    destruct (diag.HasError _); [reflexivity|].
    destruct (_ && _); settle; reflexivity.
  - intros d req resp h. unfold domain_key_data_source.Read.
    destruct (tfsdk.Get req) as [config diags].
    destruct (diag.HasError (tfsdk.Diagnostics (tfsdk.Append resp diags))) eqn:Hd;
      [reflexivity|].
    unfold remote.bind, remote.Do, remote.ret.
    destruct (remote.GetToken _ _ _); cbn [fst tfsdk.State_Set tfsdk.Diagnostics];
      intros Herr; [congruence | reflexivity].
Qed.

(** A Create that cannot write the record ends with an error and the
    state it was given. *)
Lemma error_leaves_state_as_given_witness :
  tfsdk.State
    (fst (site_verification_resource.Create example.table
            (example.resource example.sv_ok example.dns_forbidden)
            (example.request example.plan) example.fresh [])) = None.
Proof.
  exact (proj1 error_leaves_state_as_given example.table
           (example.resource example.sv_ok example.dns_forbidden)
           (example.request example.plan) example.fresh [] eq_refl).
Defined.

(** ** The resource: Update *)

(** Update of a site of type INET_DOMAIN verified by DNS_TXT: the record is
    deleted, then created again, then the registration is patched, each
    step only after the one before it succeeded.  The DNS calls carry the
    plan's own project (the empty text when the plan has none: Update does
    not fall back to the provider's project).  A failed delete stops the
    run; a failed create stops it with the old record already deleted and
    no state written. *)
Theorem Update_replaces_record_then_patches
  (r : site_verification_resource.SiteVerificationResource)
  (req : site_verification_resource.Request) (resp : site_verification_resource.Response)
  (plan : site_verification_resource.SiteVerificationResourceModel)
  (diags : diag.Diagnostics) (h : list remote.Call)
  (Hget : tfsdk.Get req = (plan, diags))
  (Hdiags : diag.HasError (tfsdk.Diagnostics (tfsdk.Append resp diags)) = false)
  (Hdomain : site_verification_resource.isDomain
               (site_verification_resource.defaultNulls plan) = true)
  (Hmethod : site_verification_resource.isDNSTXT
               (site_verification_resource.defaultNulls plan) = true) :
  let project := basetypes.StringValue_ValueString (site_verification_resource.Project plan) in
  let zone := basetypes.StringValue_ValueString (site_verification_resource.ManagedZone plan) in
  let name :=
    basetypes.StringValue_ValueString (site_verification_resource.SiteIdentifier plan) in
  let record :=
    {| dnsv2.Name := forceDot name;
       dnsv2.Rrdatas :=
         [basetypes.StringValue_ValueString (site_verification_resource.Token plan)];
       dnsv2.Ttl := 60;
       dnsv2.Type_ := "TXT" |} in
  let del := remote.ResourceRecordSets_Delete project "global" zone name "TXT" in
  let write := remote.ResourceRecordSets_Create project "global" zone record in
  let deleted :=
    remote.Delete (DNS (site_verification_resource.Clients r)) h project "global" zone name
      "TXT" in
  let written :=
    remote.Create (DNS (site_verification_resource.Clients r)) (h ++ [del])%list
      project "global" zone record in
  let out := site_verification_resource.Update r req resp h in
  exists t,
    snd out = (h ++ del :: t)%list /\
    (forall e, deleted = Some e ->
       t = [] /\
       fst out = tfsdk.AddError (tfsdk.Append resp diags) "Error deleting DNS record" e) /\
    (deleted = None ->
       exists t',
         t = write :: t' /\
         (forall e, written = go.Err e ->
            t' = [] /\
            fst out = tfsdk.AddError (tfsdk.Append resp diags)
                        "Error updating DNS TXT record" e /\
            tfsdk.State (fst out) = tfsdk.State resp) /\
         (forall rec greq, written = go.Ok rec ->
            site_verification_resource.buildSiteVerification
              (site_verification_resource.defaultNulls plan) false = go.Ok greq ->
            t' = [remote.WebResource_Patch (site_verification_resource.SiteID plan) greq])).
Proof.
  cbv zeta. destruct (defaultNulls_fields plan) as (HP & HS & HT & HZ & _).
  assert (Hid : site_verification_resource.SiteID
                  (site_verification_resource.defaultNulls plan) =
                site_verification_resource.SiteID plan).
  { unfold site_verification_resource.SiteID. now rewrite HS. }
  run_handler. rewrite Hget. cbn [fst snd]. rewrite Hdiags, Hdomain, Hmethod.
  cbn [andb]. rewrite ?HP, ?HS, ?HT, ?HZ, ?Hid.
  destruct (remote.Delete _ _ _ _ _ _ _) as [e|].
  { exists []. split; [reflexivity|]. split.
    - intros e' He. inversion He; subst. split; reflexivity.
    - intros Hn; discriminate Hn. }
  helpers. rewrite ?HP, ?HS, ?HT, ?HZ, ?Hid.
  destruct (remote.Create _ _ _ _ _ _) as [rec | e].
  2:{ eexists [_]. split; [cbn [snd]; now rewrite <- app_assoc|].
      split; [intros ? He; discriminate He|]. intros _. exists [].
      split; [reflexivity|]. split.
      - intros e' He. inversion He; subst. repeat split.
      - intros ? ? Hw; discriminate Hw. }
  helpers. rewrite ?Hid.
  destruct (site_verification_resource.buildSiteVerification _ false) as [greq | e].
  - eexists [_; _]. split.
    { destruct (remote.Patch _ _ _ _); cbn [snd]; now rewrite <- !app_assoc. }
    split; [intros ? He; discriminate He|]. intros _. eexists [_].
    split; [reflexivity|]. split.
    + intros ? He; discriminate He.
    + intros rec' greq' _ Hb. now inversion Hb.
  - eexists [_]. split; [cbn [snd]; now rewrite <- app_assoc|].
    split; [intros ? He; discriminate He|]. intros _. exists [].
    split; [reflexivity|]. split.
    + intros ? He; discriminate He.
    + intros ? ? _ Hb; discriminate Hb.
Qed.

(** The record is replaced and the registration patched. *)
Lemma Update_replaces_record_then_patches_witness :
  snd (site_verification_resource.Update
         (example.resource example.sv_ok example.dns_ok)
         (example.request (example.owned example.state ["c@x"])) example.fresh []) =
  [remote.ResourceRecordSets_Delete "provider-project" "global" "zone" "example.com" "TXT";
   remote.ResourceRecordSets_Create "provider-project" "global" "zone"
     {| dnsv2.Name := "example.com."; dnsv2.Rrdatas := [example.token];
        dnsv2.Ttl := 60; dnsv2.Type_ := "TXT" |};
   remote.WebResource_Patch "example.com"
     {| sitev1.Id := ""; sitev1.Owners := Some ["c@x"]; sitev1.ResourceSite := None |}].
Proof.
  destruct (Update_replaces_record_then_patches
              (example.resource example.sv_ok example.dns_ok)
              (example.request (example.owned example.state ["c@x"])) example.fresh
              _ [] [] eq_refl eq_refl eq_refl eq_refl) as (t & Ht & _ & Hok).
  destruct (Hok eq_refl) as (t' & -> & _ & Hpatch).
  rewrite Ht, (Hpatch _ _ eq_refl eq_refl). reflexivity.
Defined.

(** Unlike Create, Update writes the state even when the patch fails: once
    the patch request built from the plan has been sent (so any DNS step
    before it succeeded) and refused, Update adds the error and still
    stores the plan, defaults applied, as the new state. *)
Theorem Update_refused_patch_still_writes_state
  (r : site_verification_resource.SiteVerificationResource)
  (req : site_verification_resource.Request) (resp : site_verification_resource.Response)
  (plan : site_verification_resource.SiteVerificationResourceModel)
  (diags : diag.Diagnostics) (h hpre : list remote.Call)
  (greq : sitev1.SiteVerificationWebResourceResource) (e : string)
  (Hget : tfsdk.Get req = (plan, diags))
  (Hdiags : diag.HasError (tfsdk.Diagnostics (tfsdk.Append resp diags)) = false)
  (Hbuilt : site_verification_resource.buildSiteVerification
              (site_verification_resource.defaultNulls plan) false = go.Ok greq)
  (Hsent : snd (site_verification_resource.Update r req resp h) =
           (hpre ++ [remote.WebResource_Patch
                       (site_verification_resource.SiteID plan) greq])%list)
  (Hrefused : remote.Patch (SiteVerification (site_verification_resource.Clients r)) hpre
                (site_verification_resource.SiteID plan) greq = go.Err e) :
  fst (site_verification_resource.Update r req resp h) =
    tfsdk.State_Set
      (tfsdk.AddError (tfsdk.Append resp diags) "Error updating site verification" e)
      (site_verification_resource.defaultNulls plan) /\
  tfsdk.State (fst (site_verification_resource.Update r req resp h)) =
    Some (site_verification_resource.defaultNulls plan) /\
  diag.HasError
    (tfsdk.Diagnostics (fst (site_verification_resource.Update r req resp h))) = true.
Proof.
  destruct (defaultNulls_fields plan) as (_ & HS & _).
  assert (Hid : site_verification_resource.SiteID
                  (site_verification_resource.defaultNulls plan) =
                site_verification_resource.SiteID plan).
  { unfold site_verification_resource.SiteID. now rewrite HS. }
  assert (Hpatch : forall h0,
    snd (match site_verification_resource.patchSiteVerification r
                 (tfsdk.Diagnostics (tfsdk.Append resp diags))
                 (site_verification_resource.defaultNulls plan) h0 with
         | (Some e0, d', h1) =>
             (tfsdk.State_Set (tfsdk.AddError (tfsdk.Append resp diags)
                                 "Error updating site verification" e0) d', h1)
         | (None, d', h1) => (tfsdk.State_Set (tfsdk.Append resp diags) d', h1)
         end) =
      (hpre ++ [remote.WebResource_Patch (site_verification_resource.SiteID plan) greq])%list ->
    fst (match site_verification_resource.patchSiteVerification r
                 (tfsdk.Diagnostics (tfsdk.Append resp diags))
                 (site_verification_resource.defaultNulls plan) h0 with
         | (Some e0, d', h1) =>
             (tfsdk.State_Set (tfsdk.AddError (tfsdk.Append resp diags)
                                 "Error updating site verification" e0) d', h1)
         | (None, d', h1) => (tfsdk.State_Set (tfsdk.Append resp diags) d', h1)
         end) =
      tfsdk.State_Set
        (tfsdk.AddError (tfsdk.Append resp diags) "Error updating site verification" e)
        (site_verification_resource.defaultNulls plan)).
  { intros h0. rewrite patchSiteVerification_unfold, Hbuilt, Hid. cbv zeta.
    destruct (remote.Patch _ h0 _ _) as [callResp | e0] eqn:Hp; cbn [fst snd]; intros Ht;
      apply app_inj_tail in Ht as [-> _]; rewrite Hp in Hrefused;
      [discriminate Hrefused | now inversion Hrefused]. }
  assert (Hout : fst (site_verification_resource.Update r req resp h) =
                 tfsdk.State_Set
                   (tfsdk.AddError (tfsdk.Append resp diags)
                      "Error updating site verification" e)
                   (site_verification_resource.defaultNulls plan)).
  { revert Hsent. rewrite Update_run, Hget. cbn [fst snd]. rewrite Hdiags. cbv zeta.
    destruct (_ && _); [|apply Hpatch].
    rewrite deleteDNSRecord_unfold. cbv zeta.
    destruct (remote.Delete _ _ _ _ _ _ _).
    { cbn [snd]. intros Ht. apply app_inj_tail in Ht as [_ Hc]. discriminate Hc. }
    rewrite createDNSRecord_unfold. cbv zeta.
    destruct (remote.Create _ _ _ _ _ _); [apply Hpatch|].
    cbn [snd]. intros Ht. apply app_inj_tail in Ht as [_ Hc]. discriminate Hc. }
  rewrite Hout. split; [reflexivity|]. split; [reflexivity|].
  apply HasError_tfsdk_AddError.
Qed.

(** An update of the owners that the service refuses. *)
Lemma Update_refused_patch_still_writes_state_witness :
  tfsdk.State
    (fst (site_verification_resource.Update
            (example.resource example.sv_missing example.dns_ok)
            (example.request (example.owned example.state ["c@x"])) example.fresh [])) =
  Some (example.owned example.state ["c@x"]) /\
  diag.HasError
    (tfsdk.Diagnostics
       (fst (site_verification_resource.Update
               (example.resource example.sv_missing example.dns_ok)
               (example.request (example.owned example.state ["c@x"])) example.fresh []))) =
  true.
Proof.
  exact (proj2 (Update_refused_patch_still_writes_state
                  (example.resource example.sv_missing example.dns_ok)
                  (example.request (example.owned example.state ["c@x"])) example.fresh
                  _ [] []
                  [remote.ResourceRecordSets_Delete "provider-project" "global" "zone"
                     "example.com" "TXT";
                   remote.ResourceRecordSets_Create "provider-project" "global" "zone"
                     {| dnsv2.Name := "example.com."; dnsv2.Rrdatas := [example.token];
                        dnsv2.Ttl := 60; dnsv2.Type_ := "TXT" |}]
                  {| sitev1.Id := ""; sitev1.Owners := Some ["c@x"];
                     sitev1.ResourceSite := None |}
                  example.forbidden eq_refl eq_refl eq_refl eq_refl eq_refl)).
Defined.

(** ** The names a record is written and looked up under *)

Lemma substring_append_head (u t : string) : substring 0 (length u) (u ++ t) = u.
Proof.
  induction u as [|c u IH]; cbn.
  - destruct t; reflexivity.
  - now rewrite IH.
Qed.

Lemma forceDot_TrimSuffix (s : string) : forceDot s = strings.TrimSuffix s "." ++ ".".
Proof.
  unfold forceDot, strings.TrimSuffix.
  destruct (strings.HasSuffix s ".") eqn:E; [|reflexivity].
  apply HasSuffix_split in E as [u ->].
  rewrite length_append. cbn [length].
  replace (length u + 1 - 1) with (length u) by lia.
  now rewrite substring_append_head.
Qed.

Lemma forceDot_fixed (s : string) : s = forceDot s <-> strings.HasSuffix s "." = true.
Proof.
  unfold forceDot. destruct (strings.HasSuffix s "."); split; intros H; try reflexivity.
  - apply (f_equal length) in H. rewrite length_append in H. cbn in H. lia.
  - discriminate H.
Qed.

(** The DNS create writes the record under the verification site id
    ([SiteID], the identifier less one trailing dot) followed by a dot,
    while the DNS get and the DNS delete name the record by the identifier
    as the model holds it, in the same project and zone: the three calls
    name the same record exactly when the identifier ends in a dot. *)
Theorem DNS_record_name_written_and_looked_up
  (r : site_verification_resource.SiteVerificationResource)
  (data : site_verification_resource.SiteVerificationResourceModel) (h : list remote.Call) :
  let project := basetypes.StringValue_ValueString (site_verification_resource.Project data) in
  let zone := basetypes.StringValue_ValueString (site_verification_resource.ManagedZone data) in
  let id :=
    basetypes.StringValue_ValueString (site_verification_resource.SiteIdentifier data) in
  exists record,
    snd (site_verification_resource.createDNSRecord r data h) =
      (h ++ [remote.ResourceRecordSets_Create project "global" zone record])%list /\
    dnsv2.Name record = site_verification_resource.SiteID data ++ "." /\
    snd (site_verification_resource.readDNSRecord r data h) =
      (h ++ [remote.ResourceRecordSets_Get project "global" zone id "TXT"])%list /\
    snd (site_verification_resource.deleteDNSRecord r data h) =
      (h ++ [remote.ResourceRecordSets_Delete project "global" zone id "TXT"])%list /\
    (id = dnsv2.Name record <-> strings.HasSuffix id "." = true).
Proof.
  cbv zeta. eexists. split; [now rewrite (createDNSRecord_unfold r data h)|].
  cbn [dnsv2.Name]. split; [apply forceDot_TrimSuffix|].
  split; [now rewrite (readDNSRecord_unfold r data h)|].
  split; [now rewrite (deleteDNSRecord_unfold r data h)|].
  apply forceDot_fixed.
Qed.

(** ** Owners between the model and the wire *)

Lemma listValueToStringSlice_loop_unknown (l : list basetypes.StringValue)
  (acc : go.slice string) :
  In basetypes.NewStringUnknown l ->
  listValueToStringSlice_loop l acc = go.Err "unmarshaling unknown values is not supported".
Proof.
  revert acc. induction l as [|x l IH]; intros acc Hin; [now elim Hin|].
  cbn [listValueToStringSlice_loop]. destruct x as [| |v]; cbn [basetypes.As_string].
  - apply IH. destruct Hin as [Hc | Hin]; [discriminate Hc | exact Hin].
  - reflexivity.
  - apply IH. destruct Hin as [Hc | Hin]; [discriminate Hc | exact Hin].
Qed.

Lemma listValueToStringSlice_loop_values (l : list basetypes.StringValue)
  (acc : go.slice string) :
  ~ In basetypes.NewStringUnknown l ->
  exists s,
    listValueToStringSlice_loop l acc = go.Ok s /\
    go.elems s = (go.elems acc ++ map basetypes.StringValue_ValueString l)%list /\
    (l = [] -> s = acc).
Proof.
  revert acc. induction l as [|x l IH]; intros acc Hno.
  - exists acc. cbn. rewrite app_nil_r. repeat split.
  - assert (Hl : ~ In basetypes.NewStringUnknown l) by (intros Hin; apply Hno; now right).
    destruct x as [| |v]; cbn [listValueToStringSlice_loop basetypes.As_string].
    + destruct (IH (go.append1 acc EmptyString) Hl) as (s & Hs & He & _).
      exists s. split; [exact Hs|]. split; [|discriminate].
      rewrite He. cbn. now rewrite <- app_assoc.
    + elim Hno. now left.
    + destruct (IH (go.append1 acc v) Hl) as (s & Hs & He & _).
      exists s. split; [exact Hs|]. split; [|discriminate].
      rewrite He. cbn. now rewrite <- app_assoc.
Qed.

(** The owners of the model reach the request element by element: a known
    string as it is and a null element as the empty string; one unknown
    element anywhere makes the request fail to build, with a fixed
    message.  A slice of strings turned into a list value and back comes
    out with the same elements. *)
Theorem owners_between_model_and_request :
  (forall data includeSite,
      In basetypes.NewStringUnknown
         (basetypes.ListValue_Elements (site_verification_resource.Owners data)) ->
      site_verification_resource.buildSiteVerification data includeSite =
      go.Err "unmarshaling unknown values is not supported") /\
  (forall data includeSite,
      ~ In basetypes.NewStringUnknown
          (basetypes.ListValue_Elements (site_verification_resource.Owners data)) ->
      exists greq,
        site_verification_resource.buildSiteVerification data includeSite = go.Ok greq /\
        go.elems (sitev1.Owners greq) =
        map basetypes.StringValue_ValueString
            (basetypes.ListValue_Elements (site_verification_resource.Owners data))) /\
  (forall vals : go.slice string,
      exists back,
        listValueToStringSlice (fst (stringSliceToListValue vals)) = go.Ok back /\
        go.elems back = go.elems vals).
Proof.
  split; [|split].
  - intros data includeSite Hin.
    unfold site_verification_resource.buildSiteVerification,
      site_verification_resource.parseOwnersFromData, listValueToStringSlice.
    destruct (site_verification_resource.Owners data) as [| |els]; cbn in Hin;
      try now elim Hin.
    cbn [basetypes.ListValue_IsNull negb basetypes.ListValue_Elements].
    now rewrite (listValueToStringSlice_loop_unknown els go.nil_slice Hin).
  - intros data includeSite Hno.
    unfold site_verification_resource.buildSiteVerification,
      site_verification_resource.parseOwnersFromData, listValueToStringSlice.
    destruct (site_verification_resource.Owners data) as [| |els]; cbn in Hno.
    + eexists. split; [reflexivity|]. destruct includeSite; reflexivity.
    + cbn. eexists. split; [reflexivity|]. destruct includeSite; reflexivity.
    + cbn [basetypes.ListValue_IsNull negb basetypes.ListValue_Elements].
      destruct (listValueToStringSlice_loop_values els go.nil_slice Hno)
        as (s & Hs & He & _).
      rewrite Hs. eexists. split; [reflexivity|].
      assert (Happ : go.elems (go.append go.nil_slice s) = go.elems s).
      { clear He. unfold go.append. destruct (go.elems s) eqn:Es; reflexivity. }
      destruct includeSite; cbn [sitev1.Owners]; rewrite Happ, He; reflexivity.
  - intros vals. unfold stringSliceToListValue, types.ListValue, listValueToStringSlice.
    cbn [fst basetypes.ListValue_Elements]. unfold types.StringValue.
    rewrite listValueToStringSlice_loop_known. eexists. split; [reflexivity|].
    destruct vals as [[|v l]|]; reflexivity.
Qed.

(** ** The id the service returns *)

(** When the insert has been sent and accepted but the id in its response
    cannot be unescaped (a percent sign without two hexadecimal digits
    after it), Create reports "Error inserting site verification" with the
    unescape error and stores no state, although the registration, and the
    DNS record before it, now exist remotely. *)
Theorem Create_undecodable_id_stores_nothing
  (table : utf8.rune -> bool) (r : site_verification_resource.SiteVerificationResource)
  (req : site_verification_resource.Request) (resp : site_verification_resource.Response)
  (plan : site_verification_resource.SiteVerificationResourceModel)
  (diags : diag.Diagnostics) (h hpre : list remote.Call) (m : string)
  (greq callResp : sitev1.SiteVerificationWebResourceResource) (e : string)
  (Hget : tfsdk.Get req = (plan, diags))
  (Hdiags : diag.HasError (tfsdk.Diagnostics (tfsdk.Append resp diags)) = false)
  (Hbuilt : site_verification_resource.buildSiteVerification
              (site_verification_resource.defaultNulls plan) true = go.Ok greq)
  (Hsent : snd (site_verification_resource.Create table r req resp h) =
           (hpre ++ [remote.WebResource_Insert m greq])%list)
  (Haccepted : remote.Insert (SiteVerification (site_verification_resource.Clients r))
                 hpre m greq = go.Ok callResp)
  (Hbad : decodeID table (sitev1.Id callResp) = go.Err e) :
  fst (site_verification_resource.Create table r req resp h) =
    tfsdk.AddError (tfsdk.Append resp diags) "Error inserting site verification" e /\
  tfsdk.State (fst (site_verification_resource.Create table r req resp h)) =
    tfsdk.State resp.
Proof.
  assert (Hins : forall d h0,
    site_verification_resource.buildSiteVerification d true = go.Ok greq ->
    snd (match site_verification_resource.insertSiteVerification table r
                 (tfsdk.Diagnostics (tfsdk.Append resp diags)) d h0 with
         | (Some e0, _, h1) =>
             (tfsdk.AddError (tfsdk.Append resp diags)
                "Error inserting site verification" e0, h1)
         | (None, d', h1) => (tfsdk.State_Set (tfsdk.Append resp diags) d', h1)
         end) = (hpre ++ [remote.WebResource_Insert m greq])%list ->
    fst (match site_verification_resource.insertSiteVerification table r
                 (tfsdk.Diagnostics (tfsdk.Append resp diags)) d h0 with
         | (Some e0, _, h1) =>
             (tfsdk.AddError (tfsdk.Append resp diags)
                "Error inserting site verification" e0, h1)
         | (None, d', h1) => (tfsdk.State_Set (tfsdk.Append resp diags) d', h1)
         end) =
    tfsdk.AddError (tfsdk.Append resp diags) "Error inserting site verification" e).
  { intros d h0 Hb. rewrite insertSiteVerification_unfold, Hb. cbv zeta.
    destruct (remote.Insert _ h0 _ _) as [c | e0] eqn:Hi.
    - destruct (decodeID table (sitev1.Id c)) as [id | e0] eqn:Hd; cbn [fst snd];
        intros Ht; apply app_inj_tail in Ht as [-> Hc]; inversion Hc; subst m;
        rewrite Hi in Haccepted; inversion Haccepted; subst c; rewrite Hd in Hbad;
        [discriminate Hbad | now inversion Hbad].
    - cbn [fst snd]. intros Ht. apply app_inj_tail in Ht as [-> Hc]. inversion Hc; subst m.
      rewrite Hi in Haccepted. discriminate Haccepted. }
  assert (Hout : fst (site_verification_resource.Create table r req resp h) =
                 tfsdk.AddError (tfsdk.Append resp diags)
                   "Error inserting site verification" e).
  { revert Hsent. rewrite Create_run, Hget. cbn [fst snd]. rewrite Hdiags. cbv zeta.
    destruct (_ && _); [|now apply Hins].
    rewrite createDNSRecord_unfold. cbv zeta.
    destruct (remote.Create _ _ _ _ _ _).
    - apply Hins. destruct (basetypes.StringValue_IsNull _); exact Hbuilt.
    - cbn [snd]. intros Ht. apply app_inj_tail in Ht as [_ Hc]. discriminate Hc. }
  rewrite Hout. split; reflexivity.
Qed.

(** A service that answers the insert with the id 50%. *)
Lemma Create_undecodable_id_stores_nothing_witness :
  tfsdk.State
    (fst (site_verification_resource.Create example.table
            (example.resource example.sv_bad_id example.dns_ok)
            (example.request example.plan) example.fresh [])) = None /\
  List.length
    (snd (site_verification_resource.Create example.table
            (example.resource example.sv_bad_id example.dns_ok)
            (example.request example.plan) example.fresh [])) = 2.
Proof.
  split; [|reflexivity].
  exact (proj2 (Create_undecodable_id_stores_nothing example.table
                  (example.resource example.sv_bad_id example.dns_ok)
                  (example.request example.plan) example.fresh example.plan [] []
                  [remote.ResourceRecordSets_Create "provider-project" "global" "zone"
                     {| dnsv2.Name := "example.com."; dnsv2.Rrdatas := [example.token];
                        dnsv2.Ttl := 60; dnsv2.Type_ := "TXT" |}]
                  "DNS_TXT" _ _ _ eq_refl eq_refl eq_refl eq_refl eq_refl eq_refl)).
Defined.

(** ** One handler after another *)

(** Import writes only the id; the Read that follows never uses it.  On
    the state an import leaves (type, method and identifier null), Read
    makes no DNS call and asks the verification service for the site with
    the empty identifier, whatever id was imported; what comes back is
    stored next to the imported id. *)
Theorem Read_after_ImportState
  (id : string) (given : site_verification_resource.Response)
  (Hempty : tfsdk.State given = None) :
  exists st,
    tfsdk.State (site_verification_resource.ImportState id given) = Some st /\
    site_verification_resource.ID st = basetypes.NewStringValue id /\
    forall r resp h,
      diag.HasError (tfsdk.Diagnostics resp) = false ->
      snd (site_verification_resource.Read r {| tfsdk.Get := (st, []) |} resp h) =
        (h ++ [remote.WebResource_Get ""])%list /\
      forall found,
        remote.GetResource (SiteVerification (site_verification_resource.Clients r)) h "" =
          go.Ok found ->
        tfsdk.State
          (fst (site_verification_resource.Read r {| tfsdk.Get := (st, []) |} resp h)) =
        Some (site_verification_resource.set_Owners st
                (basetypes.NewListValueMust
                   (map types.StringValue (go.elems (sitev1.Owners found))))).
Proof.
  unfold site_verification_resource.ImportState. rewrite Hempty.
  eexists. split; [reflexivity|]. split; [reflexivity|].
  intros r resp h Hd. rewrite Read_run. cbn [tfsdk.Get fst snd].
  change (diag.HasError (tfsdk.Diagnostics (tfsdk.Append resp [])))
    with (diag.HasError (tfsdk.Diagnostics resp)).
  rewrite Hd. cbv zeta.
  cbn [site_verification_resource.isDomain site_verification_resource.isDNSTXT
       site_verification_resource.SiteType site_verification_resource.VerificationMethod
       basetypes.StringValue_ValueString String.eqb andb].
  rewrite readSiteVerification_unfold.
  change (site_verification_resource.SiteID _) with "".
  destruct (remote.GetResource _ _ _) as [found | e].
  - split; [reflexivity|]. intros found' Hf. now inversion Hf.
  - split; [reflexivity|]. intros found' Hf. discriminate Hf.
Qed.

(** Import of dns://example.com, then Read: one lookup, of the empty site. *)
Lemma Read_after_ImportState_witness :
  exists st,
    tfsdk.State (site_verification_resource.ImportState "dns://example.com" example.fresh) =
      Some st /\
    snd (site_verification_resource.Read (example.resource example.sv_ok example.dns_ok)
           {| tfsdk.Get := (st, []) |} example.fresh []) = [remote.WebResource_Get ""].
Proof.
  destruct (Read_after_ImportState "dns://example.com" example.fresh eq_refl)
    as (st & Hst & _ & Hread).
  exists st. split; [exact Hst|].
  exact (proj1 (Hread (example.resource example.sv_ok example.dns_ok) example.fresh []
                  eq_refl)).
Defined.

(** The state a successful Create leaves leads Read and Delete back to the
    record Create wrote: it is again of type INET_DOMAIN with method
    DNS_TXT, and the first call of a later Read or Delete on it names the
    project and the zone of the written record and the identifier whose
    dotted form is the written name. *)
Theorem Create_state_leads_back_to_the_record
  (table : utf8.rune -> bool) (r : site_verification_resource.SiteVerificationResource)
  (req : site_verification_resource.Request) (resp : site_verification_resource.Response)
  (plan st : site_verification_resource.SiteVerificationResourceModel)
  (diags : diag.Diagnostics) (h : list remote.Call)
  (Hget : tfsdk.Get req = (plan, diags))
  (Hon : site_verification_resource.isDomain
           (site_verification_resource.defaultNulls plan) &&
         site_verification_resource.isDNSTXT
           (site_verification_resource.defaultNulls plan) = true)
  (Hok : diag.HasError
           (tfsdk.Diagnostics
              (fst (site_verification_resource.Create table r req resp h))) = false)
  (Hst : tfsdk.State (fst (site_verification_resource.Create table r req resp h)) =
         Some st) :
  site_verification_resource.isDomain st && site_verification_resource.isDNSTXT st = true /\
  exists project zone id record t,
    snd (site_verification_resource.Create table r req resp h) =
      (h ++ remote.ResourceRecordSets_Create project "global" zone record :: t)%list /\
    dnsv2.Name record = forceDot id /\
    (forall r' resp' h',
        diag.HasError (tfsdk.Diagnostics resp') = false ->
        exists t',
          snd (site_verification_resource.Read r' {| tfsdk.Get := (st, []) |} resp' h') =
          (h' ++ remote.ResourceRecordSets_Get project "global" zone id "TXT" :: t')%list) /\
    (forall r' resp' h',
        diag.HasError (tfsdk.Diagnostics resp') = false ->
        exists t',
          snd (site_verification_resource.Delete r' {| tfsdk.Get := (st, []) |} resp' h') =
          (h' ++ remote.ResourceRecordSets_Delete project "global" zone id "TXT" :: t')%list).
Proof.
  assert (Hlater : forall d,
    site_verification_resource.isDomain d && site_verification_resource.isDNSTXT d = true ->
    (forall r' resp' h',
        diag.HasError (tfsdk.Diagnostics resp') = false ->
        exists t',
          snd (site_verification_resource.Read r' {| tfsdk.Get := (d, []) |} resp' h') =
          (h' ++ remote.ResourceRecordSets_Get
                   (basetypes.StringValue_ValueString (site_verification_resource.Project d))
                   "global"
                   (basetypes.StringValue_ValueString
                      (site_verification_resource.ManagedZone d))
                   (basetypes.StringValue_ValueString
                      (site_verification_resource.SiteIdentifier d)) "TXT" :: t')%list) /\
    (forall r' resp' h',
        diag.HasError (tfsdk.Diagnostics resp') = false ->
        exists t',
          snd (site_verification_resource.Delete r' {| tfsdk.Get := (d, []) |} resp' h') =
          (h' ++ remote.ResourceRecordSets_Delete
                   (basetypes.StringValue_ValueString (site_verification_resource.Project d))
                   "global"
                   (basetypes.StringValue_ValueString
                      (site_verification_resource.ManagedZone d))
                   (basetypes.StringValue_ValueString
                      (site_verification_resource.SiteIdentifier d)) "TXT" :: t')%list)).
  { intros d Hd. split; intros r' resp' h' Hr; run_handler; cbn [tfsdk.Get fst snd];
      change (diag.HasError (tfsdk.Diagnostics (tfsdk.Append resp' [])))
        with (diag.HasError (tfsdk.Diagnostics resp'));
      rewrite Hr, Hd; settle;
      cbn [snd]; rewrite <- ?app_assoc; cbn [app]; eexists; reflexivity. }
  revert Hok Hst. rewrite Create_run, Hget. cbn [fst snd]. cbv zeta. rewrite Hon.
  destruct (diag.HasError (tfsdk.Diagnostics (tfsdk.Append resp diags))) eqn:Hd;
    [cbn [fst]; congruence|].
  set (data := if basetypes.StringValue_IsNull _ then _ else _).
  assert (Hdata : site_verification_resource.isDomain data &&
                  site_verification_resource.isDNSTXT data = true).
  { unfold data. destruct (basetypes.StringValue_IsNull _); exact Hon. }
  rewrite createDNSRecord_unfold, insertSiteVerification_unfold. cbv zeta.
  destruct (remote.Create _ _ _ _ _ _);
    [|cbn [fst]; intros Hok; now rewrite HasError_tfsdk_AddError in Hok].
  destruct (site_verification_resource.buildSiteVerification data true);
    [|cbn [fst]; intros Hok; now rewrite HasError_tfsdk_AddError in Hok].
  destruct (remote.Insert _ _ _ _);
    [|cbn [fst]; intros Hok; now rewrite HasError_tfsdk_AddError in Hok].
  destruct (decodeID _ _);
    [|cbn [fst]; intros Hok; now rewrite HasError_tfsdk_AddError in Hok].
  cbn [fst snd tfsdk.State tfsdk.State_Set]. intros _ Hst. inversion Hst; subst st.
  split; [exact Hdata|].
  do 4 eexists. eexists [_]. split; [now rewrite <- app_assoc|].
  split; [reflexivity|].
  exact (Hlater (site_verification_resource.set_ID
                   (site_verification_resource.set_Owners data _) _) Hdata).
Qed.

(** Create from the default plan, then Delete on the state it left. *)
Lemma Create_state_leads_back_to_the_record_witness :
  exists st,
    tfsdk.State
      (fst (site_verification_resource.Create example.table
              (example.resource example.sv_ok example.dns_ok)
              (example.request example.plan) example.fresh [])) = Some st /\
    site_verification_resource.isDomain st && site_verification_resource.isDNSTXT st = true.
Proof.
  eexists. split; [reflexivity|].
  exact (proj1 (Create_state_leads_back_to_the_record example.table
                  (example.resource example.sv_ok example.dns_ok)
                  (example.request example.plan) example.fresh example.plan _ [] []
                  eq_refl eq_refl eq_refl eq_refl)).
Defined.

(** ** The provider: what Configure builds and from what *)

(** Configure is all or nothing: either it adds an error diagnostic and
    leaves the data for the data source and for the resource as given, or
    it adds none and hands one and the same clients record to both. *)
Theorem Configure_all_or_nothing (table : utf8.rune -> bool) (env : provider.Env)
  (req : tfsdk.Source provider.GoogleSiteVerificationProviderModel)
  (resp : provider.ConfigureResponse) :
  let out := provider.Configure table env req resp in
  (diag.HasError (provider.Diagnostics out) = true /\
   provider.ResourceData out = provider.ResourceData resp /\
   provider.DataSourceData out = provider.DataSourceData resp) \/
  (diag.HasError (provider.Diagnostics out) = false /\
   provider.Diagnostics out = diag.Append (provider.Diagnostics resp) (snd (tfsdk.Get req)) /\
   exists clients,
     provider.ResourceData out = Some clients /\
     provider.DataSourceData out = Some clients).
Proof.
  cbv zeta. unfold provider.Configure.
  destruct (tfsdk.Get req) as [data diags]. cbn [snd].
  set (resp0 := {| provider.Diagnostics := diag.Append (provider.Diagnostics resp) diags;
                   provider.DataSourceData := provider.DataSourceData resp;
                   provider.ResourceData := provider.ResourceData resp |}).
  destruct (diag.HasError (provider.Diagnostics resp0)) eqn:Hd.
  { left. rewrite Hd. repeat split. }
  assert (Hfail : forall summary detail,
    (diag.HasError (provider.Diagnostics (provider.AddError resp0 summary detail)) = true /\
     provider.ResourceData (provider.AddError resp0 summary detail) =
       provider.ResourceData resp /\
     provider.DataSourceData (provider.AddError resp0 summary detail) =
       provider.DataSourceData resp) \/
    (diag.HasError (provider.Diagnostics (provider.AddError resp0 summary detail)) = false /\
     provider.Diagnostics (provider.AddError resp0 summary detail) =
       diag.Append (provider.Diagnostics resp) diags /\
     exists clients,
       provider.ResourceData (provider.AddError resp0 summary detail) = Some clients /\
       provider.DataSourceData (provider.AddError resp0 summary detail) = Some clients)).
  { intros. left. split; [apply HasError_provider_AddError|]. split; reflexivity. }
  destruct (provider.FindDefaultCredentials env); [|apply Hfail].
  destruct (negb (basetypes.StringValue_IsNull (provider.ImpersonateServiceAccount data)));
    [destruct (provider.impersonateServiceAccount _ _ _ _); [|apply Hfail]|];
    destruct (negb (basetypes.StringValue_IsNull (provider.Project data)));
    destruct (String.eqb _ _);
    repeat match goal with
           | |- context [provider.oauthv2_NewService ?e ?c] =>
               destruct (provider.oauthv2_NewService e c); [|apply Hfail]
           | |- context [provider.Tokeninfo_Do ?s] =>
               destruct (provider.Tokeninfo_Do s); [|apply Hfail]
           | |- context [provider.sitev1_NewService ?e ?c ?s] =>
               destruct (provider.sitev1_NewService e c s); [|apply Hfail]
           | |- context [provider.dnsv2_NewService ?e ?c ?s] =>
               destruct (provider.dnsv2_NewService e c s); [|apply Hfail]
           end;
    right; cbn [provider.Diagnostics provider.ResourceData provider.DataSourceData];
    (split; [exact Hd|]); (split; [reflexivity|]); eexists; split; reflexivity.
Qed.

(** Configure with a service account to impersonate.  When it succeeds,
    an access token was generated from the ambient credentials for
    projects/-/serviceAccounts/<account>, with the three scopes and the
    configured lifetime (3600 seconds when none is configured); the
    verification client is built from that token, but the DNS client is
    built from the ambient credentials.  The impersonated credentials
    carry no project, so without a configured project the clients'
    [ProjectID] is empty.  With a non-empty account the default owner is
    the account and the token-info service is never consulted. *)
Theorem Configure_with_impersonation
  (table : utf8.rune -> bool) (env : provider.Env)
  (req : tfsdk.Source provider.GoogleSiteVerificationProviderModel)
  (resp : provider.ConfigureResponse)
  (data : provider.GoogleSiteVerificationProviderModel) (diags : diag.Diagnostics)
  (Hget : tfsdk.Get req = (data, diags))
  (Himp : basetypes.StringValue_IsNull (provider.ImpersonateServiceAccount data) = false)
  (Hok : diag.HasError (provider.Diagnostics (provider.Configure table env req resp)) = false) :
  let account := basetypes.StringValue_ValueString (provider.ImpersonateServiceAccount data) in
  let lifetime :=
    if basetypes.Int64Value_IsNull (provider.TokenDuration data) then 3600%Z
    else basetypes.Int64Value_ValueInt64 (provider.TokenDuration data) in
  let project (c : google.Credentials) :=
    if basetypes.StringValue_IsNull (provider.Project data) then c
    else provider.withProject c (basetypes.StringValue_String table (provider.Project data)) in
  exists clients ambient iam tokenresp,
    provider.ResourceData (provider.Configure table env req resp) = Some clients /\
    provider.FindDefaultCredentials env = go.Ok ambient /\
    provider.NewIamCredentialsClient env ambient = go.Ok iam /\
    provider.GenerateAccessToken iam
      {| provider.Name := "projects/-/serviceAccounts/" ++ account;
         provider.Scope := [sitev1.SiteverificationScope;
                            sitev1.SiteverificationVerifyOnlyScope;
                            dnsv2.NdevClouddnsReadwriteScope];
         provider.Lifetime := lifetime |} = go.Ok tokenresp /\
    provider.sitev1_NewService env
      (project {| google.ProjectID := "";
                  google.TokenSource_ :=
                    google.StaticTokenSource (provider.AccessToken tokenresp) |})
      [sitev1.SiteverificationScope; sitev1.SiteverificationVerifyOnlyScope] =
      go.Ok (SiteVerification clients) /\
    provider.dnsv2_NewService env (project ambient) [dnsv2.NdevClouddnsReadwriteScope] =
      go.Ok (DNS clients) /\
    (basetypes.StringValue_IsNull (provider.Project data) = true -> ProjectID clients = "") /\
    (account <> "" ->
       DefaultOwner clients = account /\
       forall f,
         provider.Configure table
           {| provider.FindDefaultCredentials := provider.FindDefaultCredentials env;
              provider.NewIamCredentialsClient := provider.NewIamCredentialsClient env;
              provider.oauthv2_NewService := f;
              provider.sitev1_NewService := provider.sitev1_NewService env;
              provider.dnsv2_NewService := provider.dnsv2_NewService env |} req resp =
         provider.Configure table env req resp).
Proof.
  cbv zeta. revert Hok. unfold provider.Configure. rewrite Hget.
  cbn [provider.FindDefaultCredentials provider.NewIamCredentialsClient
       provider.oauthv2_NewService provider.sitev1_NewService provider.dnsv2_NewService].
  set (resp0 := {| provider.Diagnostics := diag.Append (provider.Diagnostics resp) diags;
                   provider.DataSourceData := provider.DataSourceData resp;
                   provider.ResourceData := provider.ResourceData resp |}).
  destruct (diag.HasError (provider.Diagnostics resp0)) eqn:Hd; [intros Hok; congruence|].
  destruct (provider.FindDefaultCredentials env) as [ambient | e] eqn:Hamb;
    [|intros Hok; now rewrite HasError_provider_AddError in Hok].
  rewrite Himp. cbn [negb]. unfold provider.impersonateServiceAccount.
  cbn [provider.NewIamCredentialsClient].
  destruct (provider.NewIamCredentialsClient env ambient) as [iam | e] eqn:Hiam;
    [|intros Hok; now rewrite HasError_provider_AddError in Hok].
  assert (Hlife : (if negb (basetypes.Int64Value_IsNull (provider.TokenDuration data))
                   then basetypes.Int64Value_ValueInt64 (provider.TokenDuration data)
                   else 3600%Z) =
                  (if basetypes.Int64Value_IsNull (provider.TokenDuration data) then 3600%Z
                   else basetypes.Int64Value_ValueInt64 (provider.TokenDuration data))).
  { destruct (basetypes.Int64Value_IsNull _); reflexivity. }
  rewrite Hlife.
  destruct (provider.GenerateAccessToken iam _) as [tokenresp | e] eqn:Htok;
    [|intros Hok; now rewrite HasError_provider_AddError in Hok].
  destruct (basetypes.StringValue_IsNull (provider.Project data)) eqn:Hp; cbn [negb];
    (destruct (String.eqb_spec
                 (basetypes.StringValue_ValueString (provider.ImpersonateServiceAccount data))
                 "") as [Hacc | Hacc];
     [ destruct (provider.oauthv2_NewService env _) as [svc | e];
         [|intros Hok; now rewrite HasError_provider_AddError in Hok];
       destruct (provider.Tokeninfo_Do svc) as [info | e];
         [|intros Hok; now rewrite HasError_provider_AddError in Hok]
     | ]);
    (destruct (provider.sitev1_NewService env _ _) as [sv | e] eqn:Hsv;
       [|intros Hok; now rewrite HasError_provider_AddError in Hok]);
    (destruct (provider.dnsv2_NewService env _ _) as [dns | e] eqn:Hdns;
       [|intros Hok; now rewrite HasError_provider_AddError in Hok]);
    intros _; eexists; exists ambient, iam, tokenresp;
    (split; [reflexivity|]); (split; [reflexivity|]); (split; [exact Hiam|]);
    (split; [exact Htok|]); (split; [exact Hsv|]); (split; [exact Hdns|]);
    (split; [intros Hn; first [reflexivity | discriminate Hn]|]);
    intros Hne; first [now elim Hne | split; [reflexivity|]; intros f; reflexivity].
Qed.

(** Impersonating a service account with no project configured. *)
Lemma Configure_with_impersonation_witness :
  exists clients,
    provider.ResourceData
      (provider.Configure example.table example.env example.impersonating
         example.unconfigured) = Some clients /\
    ProjectID clients = "" /\
    DefaultOwner clients = "verifier@my-project.iam.gserviceaccount.com".
Proof.
  destruct (Configure_with_impersonation example.table example.env example.impersonating
              example.unconfigured _ [] eq_refl eq_refl eq_refl)
    as (clients & ambient & iam & tokenresp & Hr & _ & _ & _ & _ & _ & Hp & Ho).
  exists clients. split; [exact Hr|]. split; [exact (Hp eq_refl)|].
  apply Ho. discriminate.
Defined.

(** Configure without impersonation.  When it succeeds, both clients are
    built from the ambient credentials, the default owner is the e-mail the
    token-info service reports for them, the clients' [ProjectID] is the
    ambient project unless one is configured, and no IAM credentials
    client is ever asked for. *)
Theorem Configure_without_impersonation
  (table : utf8.rune -> bool) (env : provider.Env)
  (req : tfsdk.Source provider.GoogleSiteVerificationProviderModel)
  (resp : provider.ConfigureResponse)
  (data : provider.GoogleSiteVerificationProviderModel) (diags : diag.Diagnostics)
  (Hget : tfsdk.Get req = (data, diags))
  (Himp : basetypes.StringValue_IsNull (provider.ImpersonateServiceAccount data) = true)
  (Hok : diag.HasError (provider.Diagnostics (provider.Configure table env req resp)) = false) :
  let project (c : google.Credentials) :=
    if basetypes.StringValue_IsNull (provider.Project data) then c
    else provider.withProject c (basetypes.StringValue_String table (provider.Project data)) in
  exists clients ambient oauth info,
    provider.ResourceData (provider.Configure table env req resp) = Some clients /\
    provider.FindDefaultCredentials env = go.Ok ambient /\
    provider.oauthv2_NewService env (project ambient) = go.Ok oauth /\
    provider.Tokeninfo_Do oauth = go.Ok info /\
    DefaultOwner clients = provider.Email info /\
    provider.sitev1_NewService env (project ambient)
      [sitev1.SiteverificationScope; sitev1.SiteverificationVerifyOnlyScope] =
      go.Ok (SiteVerification clients) /\
    provider.dnsv2_NewService env (project ambient) [dnsv2.NdevClouddnsReadwriteScope] =
      go.Ok (DNS clients) /\
    (basetypes.StringValue_IsNull (provider.Project data) = true ->
     ProjectID clients = google.ProjectID ambient) /\
    forall f,
      provider.Configure table
        {| provider.FindDefaultCredentials := provider.FindDefaultCredentials env;
           provider.NewIamCredentialsClient := f;
           provider.oauthv2_NewService := provider.oauthv2_NewService env;
           provider.sitev1_NewService := provider.sitev1_NewService env;
           provider.dnsv2_NewService := provider.dnsv2_NewService env |} req resp =
      provider.Configure table env req resp.
Proof.
  cbv zeta. revert Hok. unfold provider.Configure. rewrite Hget.
  cbn [provider.FindDefaultCredentials provider.NewIamCredentialsClient
       provider.oauthv2_NewService provider.sitev1_NewService provider.dnsv2_NewService].
  set (resp0 := {| provider.Diagnostics := diag.Append (provider.Diagnostics resp) diags;
                   provider.DataSourceData := provider.DataSourceData resp;
                   provider.ResourceData := provider.ResourceData resp |}).
  destruct (diag.HasError (provider.Diagnostics resp0)) eqn:Hd; [intros Hok; congruence|].
  destruct (provider.FindDefaultCredentials env) as [ambient | e] eqn:Hamb;
    [|intros Hok; now rewrite HasError_provider_AddError in Hok].
  rewrite Himp. cbn [negb String.eqb].
  destruct (basetypes.StringValue_IsNull (provider.Project data)) eqn:Hp; cbn [negb];
    (destruct (provider.oauthv2_NewService env _) as [oauth | e] eqn:Ho;
       [|intros Hok; now rewrite HasError_provider_AddError in Hok]);
    (destruct (provider.Tokeninfo_Do oauth) as [info | e] eqn:Hi;
       [|intros Hok; now rewrite HasError_provider_AddError in Hok]);
    (destruct (provider.sitev1_NewService env _ _) as [sv | e] eqn:Hsv;
       [|intros Hok; now rewrite HasError_provider_AddError in Hok]);
    (destruct (provider.dnsv2_NewService env _ _) as [dns | e] eqn:Hdns;
       [|intros Hok; now rewrite HasError_provider_AddError in Hok]);
    intros _; eexists; exists ambient, oauth, info;
    (split; [reflexivity|]); (split; [reflexivity|]); (split; [exact Ho|]);
    (split; [exact Hi|]); (split; [reflexivity|]); (split; [exact Hsv|]);
    (split; [exact Hdns|]);
    (split; [intros Hn; first [reflexivity | discriminate Hn]|]);
    intros f; reflexivity.
Qed.

(** Ambient credentials only, no project configured. *)
Lemma Configure_without_impersonation_witness :
  exists clients,
    provider.ResourceData
      (provider.Configure example.table example.env example.bare example.unconfigured) =
      Some clients /\
    ProjectID clients = "ambient-project" /\
    DefaultOwner clients = "admin@example.com".
Proof.
  destruct (Configure_without_impersonation example.table example.env example.bare
              example.unconfigured _ [] eq_refl eq_refl eq_refl)
    as (clients & ambient & oauth & info & Hr & Ha & Ho & Hi & Hd & _ & _ & Hp & _).
  exists clients. split; [exact Hr|]. split.
  - rewrite (Hp eq_refl). cbn in Ha. now inversion Ha.
  - rewrite Hd. cbn in Ho. inversion Ho; subst oauth. cbn in Hi. now inversion Hi.
Defined.

(** ** What Read refreshes *)

(** A Read that ends without an error diagnostic and with a state has
    refreshed two attributes only: the owners, and, for a site of type
    INET_DOMAIN verified by DNS_TXT, the token.  Project, method,
    identifier, type, zone and id are those of the prior state. *)
Theorem Read_refreshes_only_token_and_owners
  (r : site_verification_resource.SiteVerificationResource)
  (req : site_verification_resource.Request) (resp : site_verification_resource.Response)
  (prior st : site_verification_resource.SiteVerificationResourceModel)
  (diags : diag.Diagnostics) (h : list remote.Call)
  (Hget : tfsdk.Get req = (prior, diags))
  (Hok : diag.HasError
           (tfsdk.Diagnostics (fst (site_verification_resource.Read r req resp h))) = false)
  (Hst : tfsdk.State (fst (site_verification_resource.Read r req resp h)) = Some st) :
  site_verification_resource.Project st = site_verification_resource.Project prior /\
  site_verification_resource.VerificationMethod st =
    site_verification_resource.VerificationMethod prior /\
  site_verification_resource.SiteIdentifier st =
    site_verification_resource.SiteIdentifier prior /\
  site_verification_resource.SiteType st = site_verification_resource.SiteType prior /\
  site_verification_resource.ManagedZone st = site_verification_resource.ManagedZone prior /\
  site_verification_resource.ID st = site_verification_resource.ID prior /\
  (site_verification_resource.isDomain prior && site_verification_resource.isDNSTXT prior =
     false ->
   site_verification_resource.Token st = site_verification_resource.Token prior) /\
  exists owners,
    site_verification_resource.Owners st =
      basetypes.NewListValueMust (map basetypes.NewStringValue owners).
Proof.
  revert Hok Hst. rewrite Read_run, Hget. cbn [fst snd]. cbv zeta.
  destruct (diag.HasError (tfsdk.Diagnostics (tfsdk.Append resp diags))) eqn:Hd;
    [cbn [fst]; congruence|].
  destruct (_ && _); settle;
    cbn [fst tfsdk.State tfsdk.State_Set tfsdk.RemoveResource tfsdk.AddError tfsdk.Append];
    intros Hok Hst;
    try discriminate Hst;
    try (exfalso;
         match type of Hok with
         | diag.HasError (tfsdk.Diagnostics (tfsdk.AddError ?x ?s ?d)) = false =>
             rewrite (HasError_tfsdk_AddError x s d) in Hok; discriminate Hok
         | diag.HasError (diag.AddError ?x ?s ?d) = false =>
             rewrite (HasError_AddError x s d) in Hok; discriminate Hok
         end).
  all: inversion Hst; subst st; do 6 (split; [reflexivity|]);
       (split; [intros Hoff; first [reflexivity | discriminate Hoff]|]);
       eexists; unfold types.StringValue; reflexivity.
Qed.

(** Read of the created example.com against a zone that holds the record
    and a service that knows the site: the state it leaves has the zone and
    the id of the prior state. *)
Lemma Read_refreshes_only_token_and_owners_witness :
  tfsdk.State
    (fst (site_verification_resource.Read (example.resource example.sv_ok example.dns_ok)
            (example.request example.state) example.fresh [])) = Some example.state /\
  site_verification_resource.ManagedZone example.state = basetypes.NewStringValue "zone" /\
  site_verification_resource.ID example.state = basetypes.NewStringValue "dns://example.com".
Proof.
  split; [reflexivity|].
  pose proof (Read_refreshes_only_token_and_owners
                (example.resource example.sv_ok example.dns_ok)
                (example.request example.state) example.fresh
                example.state example.state [] [] eq_refl eq_refl eq_refl)
    as (_ & _ & _ & _ & Hz & Hid & _).
  split; [exact Hz | exact Hid].
Defined.

(** ** The id attribute *)

(** Reduction of the projections of a model given field by field. *)
Ltac model_fields :=
  unfold site_verification_resource.set_ID, site_verification_resource.set_SiteType,
    site_verification_resource.set_VerificationMethod,
    site_verification_resource.set_Project, site_verification_resource.set_Owners,
    site_verification_resource.set_Token;
  cbv zeta;
  cbn [site_verification_resource.Project site_verification_resource.VerificationMethod
       site_verification_resource.SiteIdentifier site_verification_resource.SiteType
       site_verification_resource.Token site_verification_resource.ManagedZone
       site_verification_resource.Owners site_verification_resource.ID
       basetypes.StringValue_IsNull types.StringValue basetypes.StringValue_ValueString
       fst snd].

(** The two defaults do not touch the id. *)
Lemma defaultNulls_set_ID (d : site_verification_resource.SiteVerificationResourceModel)
  (id : basetypes.StringValue) :
  site_verification_resource.defaultNulls (site_verification_resource.set_ID d id) =
  site_verification_resource.set_ID (site_verification_resource.defaultNulls d) id.
Proof. destruct d as [p m s t k z o i0]; destruct t, m; reflexivity. Qed.

(** No handler consults the attribute id of the model it is given: with
    another id in the plan or the state, Create and Delete end with the same
    response and the same calls, and Read and Update make the same calls and
    report the same diagnostics.  The record and the registration are
    addressed by the site identifier alone. *)
Theorem stored_id_is_never_consulted
  (table : utf8.rune -> bool) (r : site_verification_resource.SiteVerificationResource)
  (resp : site_verification_resource.Response)
  (d : site_verification_resource.SiteVerificationResourceModel)
  (diags : diag.Diagnostics) (id : basetypes.StringValue) (h : list remote.Call) :
  let given : site_verification_resource.Request := {| tfsdk.Get := (d, diags) |} in
  let other : site_verification_resource.Request :=
    {| tfsdk.Get := (site_verification_resource.set_ID d id, diags) |} in
  site_verification_resource.Create table r other resp h =
    site_verification_resource.Create table r given resp h /\
  (snd (site_verification_resource.Read r other resp h) =
     snd (site_verification_resource.Read r given resp h) /\
   tfsdk.Diagnostics (fst (site_verification_resource.Read r other resp h)) =
     tfsdk.Diagnostics (fst (site_verification_resource.Read r given resp h))) /\
  (snd (site_verification_resource.Update r other resp h) =
     snd (site_verification_resource.Update r given resp h) /\
   tfsdk.Diagnostics (fst (site_verification_resource.Update r other resp h)) =
     tfsdk.Diagnostics (fst (site_verification_resource.Update r given resp h))) /\
  site_verification_resource.Delete r other resp h =
    site_verification_resource.Delete r given resp h.
Proof.
  intros given other. subst given other.
  repeat split; run_handler; cbn [tfsdk.Get fst snd];
    destruct (diag.HasError _); try reflexivity;
    rewrite ?defaultNulls_set_ID;
    try generalize (site_verification_resource.defaultNulls d); try clear d; try intros d;
    destruct d as [p m s t k z o i0];
    unfold site_verification_resource.isDomain, site_verification_resource.isDNSTXT;
    model_fields;
    repeat first
      [ reflexivity
      | progress (helpers;
                  unfold site_verification_resource.SiteID,
                    site_verification_resource.buildSiteVerification,
                    site_verification_resource.parseOwnersFromData;
                  model_fields)
      | match goal with
        | |- context [match ?x with _ => _ end] =>
            lazymatch x with
            | context [match _ with _ => _ end] => fail
            | _ => destruct x
            end
        end; model_fields ].
Qed.

(** ** Instances of the round trips *)

(** The decoded id of the created example.com holds no percent sign, so it
    decodes to itself. *)
Lemma decodeID_EncodedID_roundtrip_witness :
  percentFree "dns://example.com" = true /\
  decodeID example.table "dns://example.com" = go.Ok "dns://example.com".
Proof.
  split; [reflexivity|].
  exact (proj2 (proj2 (decodeID_EncodedID_roundtrip example.table))
           "dns://example.com" eq_refl).
Defined.

(** The one owner of the created example.com is the one owner of the
    request built from its state. *)
Lemma owners_between_model_and_request_witness :
  exists greq,
    site_verification_resource.buildSiteVerification example.state true = go.Ok greq /\
    go.elems (sitev1.Owners greq) = ["admin@example.com"].
Proof.
  refine (proj1 (proj2 owners_between_model_and_request) example.state true _).
  intros [H | []]. discriminate H.
Defined.
